(** * File/folder lifecycle manager of the digital-download admin app

    A shallow embedding of the server side of the file manager:
    - [app/files.server.js]  (ensureUploadDir, saveFile, deleteFile,
      readFileBuffer),
    - the [action] of the file-manager route (intents create-folder,
      delete-folder, upload, delete, bulk-delete, move-file, bulk-move) and
      its earlier revision without the bulk intents,
    - the [loader]s of the download route and of the folder-files route,
    - the [File] and [Folder] tables of the Prisma migrations, with the
      foreign key [File_folderId_fkey ... ON DELETE CASCADE].

    Stateful code is a function from the world (metadata tables and disk) to
    an outcome and a new world; a JavaScript exception is the [Throw]
    outcome and keeps the effects made before it was raised.

    The disk may refuse a write or an unlink (the request's [write_fails] and
    [unlink_fails]); reading a file that exists succeeds, and the process is
    taken to be allowed to create its own upload directory. The platform's
    [Response] refuses a header value it cannot carry ([header_refused]).
    The metadata store fails on its constraints only: primary key, foreign
    key, missing row. Requests run one at a time. *)

From Stdlib Require Import NArith Ascii.
From stdpp Require Import base option list strings gmap fin_maps pretty sorting.

Local Open Scope string_scope.
Local Open Scope N_scope.

(** ** Data model: the two tables of the migrations *)

Module File.
(** One row of table "File" (migration 20251227080422_add_folders). *)
Record t := mk {
  id : string;
  filename : string;
  originalName : string;
  mimeType : string;
  size : N;
  path : string;
  shop : string;
  folderId : option string;
  createdAt : N;
  updatedAt : N
}.
End File.

Module Folder.
(** One row of table "Folder". *)
Record t := mk {
  id : string;
  name : string;
  shop : string;
  createdAt : N;
  updatedAt : N
}.
End Folder.

(** The relational store: both tables, keyed by their primary key. *)
Record Db := mkDb {
  files : gmap string File.t;
  folders : gmap string Folder.t
}.

(** The filesystem: the directories that exist and the bytes of every
    regular file. *)
Record Disk := mkDisk {
  dirs : gset string;
  blobs : gmap string (list Byte.byte)
}.

Record World := mkWorld {
  db : Db;
  disk : Disk
}.

(** ** What the platform supplies to one request *)

(** A value of the browser [File] class found in a multipart form. *)
Record Upload := mkUpload {
  up_name : string;
  up_type : string;
  up_bytes : list Byte.byte
}.

(** [file.size]: the byte length of the payload. *)
Definition up_size (f : Upload) : N := N.of_nat (length (up_bytes f)).

(** An entry of [FormData]: a string or a [File]. *)
Inductive FormValue :=
| FText (s : string)
| FFile (f : Upload).

Definition FormData := list (string * FormValue).

(** An element of a parsed JSON array: the code only calls string methods
    on it. *)
Inductive JsItem :=
| IStr (s : string)
| INotStr.

(** The value of [JSON.parse], as far as the action distinguishes it. *)
Inductive Parsed :=
| JArray (l : list JsItem)
| JString (s : string)
| JOther
| JSyntaxError.

(** Everything ambient during one request: the authenticated shop, the
    clock, the identifier Prisma's default generator hands out, the
    process directory, Node's [path.join], [JSON.parse] and
    [String.prototype.trim], which paths the operating system refuses
    to write or to unlink, and which header values the platform's
    [Response] constructor refuses with a [TypeError]: those with a
    character above U+00FF, which is no byte of a header, and those with a
    NUL or a line break in them. *)
Record Env := mkEnv {
  session_shop : string;
  Date_now : N;
  fresh_id : string;
  cwd : string;
  join : string → string → string;
  JSON_parse : string → Parsed;
  trim : string → string;
  write_fails : string → bool;
  unlink_fails : string → bool;
  header_refused : string → bool
}.

(** ** Outcomes *)

Inductive Body :=
| BText (s : string)
| BBytes (b : list Byte.byte).

(** [new Response(body, { status, headers })]. *)
Record Response := mkResponse {
  status : N;
  body : Body;
  headers : list (string * string)
}.

(** What a handler can throw. [StoreError] carries the Prisma error code. *)
Inductive Err :=
| IOError
| StoreError (code : string)
| TypeError
| SyntaxError
| Thrown (r : Response).

Inductive Res (A : Type) :=
| Ok (a : A)
| Throw (e : Err).
Arguments Ok {A} a.
Arguments Throw {A} e.

(** World-passing computations that may throw. *)
Definition M (A : Type) : Type := World → Res A * World.

Definition ret {A} (a : A) : M A := λ w, (Ok a, w).
Definition throw {A} (e : Err) : M A := λ w, (Throw e, w).
Definition bind {A B} (m : M A) (k : A → M B) : M B :=
  λ w, match m w with
       | (Ok a, w') => k a w'
       | (Throw e, w') => (Throw e, w')
       end.

(** [try { m } catch (error) { h error }] *)
Definition try_catch {A} (m : M A) (h : Err → M A) : M A :=
  λ w, match m w with
       | (Ok a, w') => (Ok a, w')
       | (Throw e, w') => h e w'
       end.

Notation "'let!' x ':=' m 'in' k" := (bind m (λ x, k))
  (at level 10, x name, m at level 100, k at level 200, only parsing).
Notation "m >>> k" := (bind m (λ _, k))
  (at level 100, k at level 200, right associativity, only parsing).

(** [for (const x of l) { f x }] *)
Fixpoint for_of {A} (l : list A) (f : A → M unit) : M unit :=
  match l with
  | [] => ret tt
  | x :: l' => f x >>> for_of l' f
  end.

(** [console.error(...)]: the log is not part of the modelled world. *)
Definition console_error (e : Err) : M unit := ret tt.

Definition get_db : M Db := λ w, (Ok (db w), w).
Definition put_db (d : Db) : M unit := λ w, (Ok tt, mkWorld d (disk w)).
Definition get_disk : M Disk := λ w, (Ok (disk w), w).
Definition put_disk (d : Disk) : M unit := λ w, (Ok tt, mkWorld (db w) d).

(** ** JavaScript helpers *)

(** [formData.get(k)]: the first entry named [k], or null. *)
Fixpoint fd_get (k : string) (fd : FormData) : option FormValue :=
  match fd with
  | [] => None
  | (k', v) :: fd' => if decide (k' = k) then Some v else fd_get k fd'
  end.

(** [v.toString()] *)
Definition toString (v : FormValue) : string :=
  match v with
  | FText s => s
  | FFile _ => "[object File]"
  end.

(** Truthiness of a string: only the empty string is falsy. *)
Definition truthy_str (s : string) : bool :=
  match s with
  | "" => false
  | _ => true
  end.

(** Truthiness of [formData.get(k)]: null and "" are falsy. *)
Definition truthy (v : option FormValue) : bool :=
  match v with
  | None => false
  | Some (FText s) => truthy_str s
  | Some (FFile _) => true
  end.

(** [formData.get("folderId")?.toString() || null] *)
Definition folderId_field (fd : FormData) : option string :=
  match fd_get "folderId" fd with
  | None => None
  | Some v => if truthy_str (toString v) then Some (toString v) else None
  end.

(** [s || d] on strings *)
Definition or_default (s d : string) : string :=
  if truthy_str s then s else d.

(** [x || null] on a string-or-null *)
Definition or_null (x : option string) : option string :=
  match x with
  | Some s => if truthy_str s then Some s else None
  | None => None
  end.

Fixpoint str_drop (n : nat) (s : string) : string :=
  match n, s with
  | O, _ => s
  | S n', String _ s' => str_drop n' s'
  | S _, EmptyString => EmptyString
  end.

(** [s.startsWith(p)] *)
Definition startsWith (p s : string) : bool := String.prefix p s.

(** [s.replace(pat, rep)] with a string pattern: the first occurrence only. *)
Fixpoint replace (pat rep s : string) : string :=
  if String.prefix pat s then rep +:+ str_drop (String.length pat) s
  else match s with
       | EmptyString => EmptyString
       | String c s' => String c (replace pat rep s')
       end.

(** The double-quote character of a header value. *)
Definition quote : string := String (Ascii.ascii_of_nat 34) EmptyString.

(** The one-character strings a [for ... of] over a string yields. *)
Fixpoint chars (s : string) : list string :=
  match s with
  | EmptyString => []
  | String c s' => String c EmptyString :: chars s'
  end.

(** ** Blob store: app/files.server.js over the filesystem primitives *)

(** [existsSync(p)] *)
Definition existsSync (p : string) : M bool :=
  let! d := get_disk in
  ret (bool_decide (p ∈ dirs d) || bool_decide (is_Some (blobs d !! p))).

(** [mkdir(p, { recursive: true })]: an existing directory is no error, and
    the process is taken to be allowed to create the directory. *)
Definition mkdir (p : string) : M unit :=
  let! d := get_disk in
  put_disk (mkDisk ({[p]} ∪ dirs d) (blobs d)).

(** [writeFile(p, buffer)]: creates or replaces the file at [p]. *)
Definition writeFile (e : Env) (p : string) (buffer : list Byte.byte) : M unit :=
  let! d := get_disk in
  if write_fails e p || bool_decide (p ∈ dirs d) then throw IOError
  else put_disk (mkDisk (dirs d) (<[p := buffer]> (blobs d))).

(** [unlink(p)] *)
Definition unlink (e : Env) (p : string) : M unit :=
  let! d := get_disk in
  if unlink_fails e p then throw IOError
  else match blobs d !! p with
       | Some _ => put_disk (mkDisk (dirs d) (delete p (blobs d)))
       | None => throw IOError
       end.

(** [readFile(p)] *)
Definition readFile (p : string) : M (list Byte.byte) :=
  let! d := get_disk in
  match blobs d !! p with
  | Some b => ret b
  | None => throw IOError
  end.

(** [const UPLOAD_DIR = join(process.cwd(), "uploads")] *)
Definition UPLOAD_DIR (e : Env) : string := join e (cwd e) "uploads".

Definition ensureUploadDir (e : Env) : M unit :=
  let! ex := existsSync (UPLOAD_DIR e) in
  if negb ex then mkdir (UPLOAD_DIR e) else ret tt.

(** The template literal [`${Date.now()}-${file.name}`]. *)
Definition stored_name (now : N) (name : string) : string :=
  pretty now +:+ "-" +:+ name.

(** [saveFile(file, buffer)] returns [{ filename, filePath }]. *)
Definition saveFile (e : Env) (file : Upload) (buffer : list Byte.byte)
  : M (string * string) :=
  ensureUploadDir e >>>
  let filename := stored_name (Date_now e) (up_name file) in
  let filePath := join e (UPLOAD_DIR e) filename in
  writeFile e filePath buffer >>>
  ret (filename, filePath).

Definition deleteFile (e : Env) (filePath : string) : M unit :=
  let! ex := existsSync filePath in
  if ex then unlink e filePath else ret tt.

Definition readFileBuffer (filePath : string) : M (list Byte.byte) :=
  readFile filePath.

(** ** Metadata store: the Prisma calls the routes make *)

(** A [where: { id }] argument taken raw from the form: Prisma rejects
    anything that is not a string before it touches the table. *)
Definition where_id (v : option FormValue) : M string :=
  match v with
  | Some (FText s) => ret s
  | _ => throw (StoreError "validation")
  end.

(** [prisma.file.findFirst({ where: { id, shop } })] *)
Definition prisma_file_findFirst (id shop : string) : M (option File.t) :=
  let! d := get_db in
  ret (match files d !! id with
       | Some f => if decide (File.shop f = shop) then Some f else None
       | None => None
       end).

(** The rows of "File" whose [folderId] is [id]. *)
Definition files_of (id : string) (fs : gmap string File.t) : list File.t :=
  (map_to_list (filter (λ kv, File.folderId kv.2 = Some id) fs)).*2.

(** [prisma.folder.findFirst({ where: { id, shop }, include: { files: true } })] *)
Definition prisma_folder_findFirst (id shop : string)
  : M (option (Folder.t * list File.t)) :=
  let! d := get_db in
  ret (match folders d !! id with
       | Some f => if decide (Folder.shop f = shop)
                   then Some (f, files_of id (files d)) else None
       | None => None
       end).

(** The columns [prisma.file.create] is given; [id], [createdAt] and
    [updatedAt] are filled in by the store. *)
Record FileData := mkFileData {
  d_filename : string;
  d_originalName : string;
  d_mimeType : string;
  d_size : N;
  d_path : string;
  d_shop : string;
  d_folderId : option string
}.

(** The foreign key [File_folderId_fkey]: a non-null [folderId] names a
    row of "Folder". *)
Definition fk_ok (d : Db) (folderId : option string) : bool :=
  match folderId with
  | None => true
  | Some fid => bool_decide (is_Some (folders d !! fid))
  end.

(** [prisma.file.create({ data })]: P2002 on a primary-key clash, P2003 on
    a foreign-key violation. *)
Definition prisma_file_create (e : Env) (data : FileData) : M File.t :=
  let! d := get_db in
  let id := fresh_id e in
  if bool_decide (is_Some (files d !! id)) then throw (StoreError "P2002")
  else if negb (fk_ok d (d_folderId data)) then throw (StoreError "P2003")
  else
    let r := File.mk id (d_filename data) (d_originalName data)
               (d_mimeType data) (d_size data) (d_path data) (d_shop data)
               (d_folderId data) (Date_now e) (Date_now e) in
    put_db (mkDb (<[id := r]> (files d)) (folders d)) >>>
    ret r.

(** Modelled from the spec: the Prisma schema that declares how
    [updatedAt] is maintained is not among the sources (the migration only
    has the column, NOT NULL and without a default); section 3 of the spec
    has the last-updated timestamp change when a file is moved. The row
    after [data: { folderId }] is applied, stamped with the current time. *)
Definition set_folder (now : N) (folderId : option string) (f : File.t) : File.t :=
  File.mk (File.id f) (File.filename f) (File.originalName f)
    (File.mimeType f) (File.size f) (File.path f) (File.shop f)
    folderId (File.createdAt f) now.

(** [prisma.file.update({ where: { id }, data: { folderId } })]: P2025 when
    no row has that id. *)
Definition prisma_file_update (e : Env) (id : string) (folderId : option string)
  : M unit :=
  let! d := get_db in
  match files d !! id with
  | None => throw (StoreError "P2025")
  | Some f =>
      if negb (fk_ok d folderId) then throw (StoreError "P2003")
      else put_db (mkDb (<[id := set_folder (Date_now e) folderId f]> (files d))
                        (folders d))
  end.

(** [prisma.file.delete({ where: { id } })] *)
Definition prisma_file_delete (id : string) : M unit :=
  let! d := get_db in
  match files d !! id with
  | None => throw (StoreError "P2025")
  | Some _ => put_db (mkDb (delete id (files d)) (folders d))
  end.

(** [prisma.folder.create({ data: { name, shop } })] *)
Definition prisma_folder_create (e : Env) (name shop : string) : M Folder.t :=
  let! d := get_db in
  let id := fresh_id e in
  if bool_decide (is_Some (folders d !! id)) then throw (StoreError "P2002")
  else
    let r := Folder.mk id name shop (Date_now e) (Date_now e) in
    put_db (mkDb (files d) (<[id := r]> (folders d))) >>>
    ret r.

(** [prisma.folder.delete({ where: { id } })]: the row goes, and with it,
    by ON DELETE CASCADE, every row of "File" that references it. *)
Definition prisma_folder_delete (id : string) : M unit :=
  let! d := get_db in
  match folders d !! id with
  | None => throw (StoreError "P2025")
  | Some _ =>
      put_db (mkDb (filter (λ kv, File.folderId kv.2 ≠ Some id) (files d))
                   (delete id (folders d)))
  end.

(** [orderBy: { createdAt: "desc" }] *)
Definition newer_first (a b : File.t) : Prop :=
  File.createdAt b ≤ File.createdAt a.

#[global] Instance newer_first_dec a b : Decision (newer_first a b).
Proof. unfold newer_first. apply _. Defined.

(** ** The routes *)

(** What an action returns to the page: [{ error }], [{ success: true }],
    [{ success: true, file }] or [{ success: true, folder }]. *)
Inductive ActionResult :=
| RError (msg : string)
| RSuccess
| RSuccessFile (file : File.t)
| RSuccessFolder (folder : Folder.t).

Section Routes.
Variable e : Env.

(** [session.shop] of [authenticate.admin(request)]. *)
Let shop := session_shop e.

(** Best-effort blob removal: [try { await deleteFile(p) } catch { log }]. *)
Definition delete_blob_quietly (p : string) : M unit :=
  try_catch (deleteFile e p) console_error.

(** intent "create-folder" *)
Definition create_folder_intent (fd : FormData) : M ActionResult :=
  match fd_get "name" fd with
  | None => ret (RError "Folder name is required")
  | Some v =>
      let name := trim e (toString v) in
      if negb (truthy_str name) then ret (RError "Folder name is required")
      else
        let! folder := prisma_folder_create e name shop in
        ret (RSuccessFolder folder)
  end.

(** intent "delete-folder" *)
Definition delete_folder_intent (fd : FormData) : M ActionResult :=
  let folderId := fd_get "folderId" fd in
  if negb (truthy folderId) then ret (RError "No folder ID provided")
  else
    let! id := where_id folderId in
    let! folder := prisma_folder_findFirst id shop in
    match folder with
    | None => ret (RError "Folder not found")
    | Some (_, folder_files) =>
        for_of folder_files (λ file, delete_blob_quietly (File.path file)) >>>
        prisma_folder_delete id >>>
        ret RSuccess
    end.

(** intent "upload" *)
Definition upload_intent (fd : FormData) : M ActionResult :=
  match fd_get "file" fd with
  | Some (FFile file) =>
      let folderId := folderId_field fd in
      let buffer := up_bytes file in
      let! saved := saveFile e file buffer in
      let! fileRecord :=
        prisma_file_create e
          {| d_filename := saved.1;
             d_originalName := up_name file;
             d_mimeType := or_default (up_type file) "application/octet-stream";
             d_size := up_size file;
             d_path := saved.2;
             d_shop := shop;
             d_folderId := or_null folderId |} in
      ret (RSuccessFile fileRecord)
  | _ => ret (RError "No file provided")
  end.

(** intent "delete" *)
Definition delete_intent (fd : FormData) : M ActionResult :=
  let fileId := fd_get "fileId" fd in
  if negb (truthy fileId) then ret (RError "No file ID provided")
  else
    let! id := where_id fileId in
    let! fileRecord := prisma_file_findFirst id shop in
    match fileRecord with
    | None => ret (RError "File not found")
    | Some r =>
        delete_blob_quietly (File.path r) >>>
        prisma_file_delete id >>>
        ret RSuccess
    end.

(** One round of the first loop of "bulk-delete". *)
Definition bulk_delete_file (id : string) : M unit :=
  let fileId := replace "file-" "" id in
  let! fileRecord := prisma_file_findFirst fileId shop in
  match fileRecord with
  | Some r =>
      try_catch
        (deleteFile e (File.path r) >>> prisma_file_delete fileId)
        console_error
  | None => ret tt
  end.

(** One round of the second loop of "bulk-delete". *)
Definition bulk_delete_folder (id : string) : M unit :=
  let folderId := replace "folder-" "" id in
  let! folder := prisma_folder_findFirst folderId shop in
  match folder with
  | Some (_, folder_files) =>
      for_of folder_files (λ file, delete_blob_quietly (File.path file)) >>>
      prisma_folder_delete folderId
  | None => ret tt
  end.

(** The strings of a parsed array, when all its elements are strings;
    otherwise [id.startsWith] raises a TypeError inside [ids.filter]. *)
Fixpoint all_strings (l : list JsItem) : option (list string) :=
  match l with
  | [] => Some []
  | IStr s :: l' => cons s <$> all_strings l'
  | INotStr :: _ => None
  end.

(** intent "bulk-delete" *)
Definition bulk_delete_intent (fd : FormData) : M ActionResult :=
  match fd_get "itemIds" fd with
  | None => ret (RError "No items provided")
  | Some itemIds =>
      if negb (truthy (Some itemIds)) then ret (RError "No items provided")
      else
        match JSON_parse e (toString itemIds) with
        | JArray l =>
            match all_strings l with
            | None => throw TypeError
            | Some ids =>
                let fileIds := List.filter (startsWith "file-") ids in
                let folderIds := List.filter (startsWith "folder-") ids in
                for_of fileIds bulk_delete_file >>>
                for_of folderIds bulk_delete_folder >>>
                ret RSuccess
            end
        | JString _ | JOther => throw TypeError
        | JSyntaxError => throw SyntaxError
        end
  end.

(** intent "move-file" *)
Definition move_file_intent (fd : FormData) : M ActionResult :=
  let fileId := fd_get "fileId" fd in
  let folderId := folderId_field fd in
  if negb (truthy fileId) then ret (RError "No file ID provided")
  else
    let! id := where_id fileId in
    let! fileRecord := prisma_file_findFirst id shop in
    match fileRecord with
    | None => ret (RError "File not found")
    | Some _ =>
        prisma_file_update e id folderId >>>
        ret RSuccess
    end.

(** One round of the loop of "bulk-move". *)
Definition bulk_move_file (folderId : option string) (id : string) : M unit :=
  let fileId := replace "file-" "" id in
  prisma_file_update e fileId folderId.

(** intent "bulk-move" *)
Definition bulk_move_intent (fd : FormData) : M ActionResult :=
  match fd_get "fileIds" fd with
  | None => ret (RError "No files provided")
  | Some fileIds =>
      let folderId := folderId_field fd in
      if negb (truthy (Some fileIds)) then ret (RError "No files provided")
      else
        match JSON_parse e (toString fileIds) with
        | JArray l =>
            for_of l (λ it, match it with
                            | IStr id => bulk_move_file folderId id
                            | INotStr => throw TypeError
                            end) >>>
            ret RSuccess
        | JString s =>
            for_of (chars s) (bulk_move_file folderId) >>>
            ret RSuccess
        | JOther => throw TypeError
        | JSyntaxError => throw SyntaxError
        end
  end.

(** [formData.get("intent") === s] *)
Definition intent_is (fd : FormData) (s : string) : bool :=
  match fd_get "intent" fd with
  | Some (FText i) => bool_decide (i = s)
  | _ => false
  end.

(** The [action] of the file manager (current revision). *)
Definition action (fd : FormData) : M ActionResult :=
  ensureUploadDir e >>>
  if intent_is fd "create-folder" then create_folder_intent fd
  else if intent_is fd "delete-folder" then delete_folder_intent fd
  else if intent_is fd "upload" then upload_intent fd
  else if intent_is fd "delete" then delete_intent fd
  else if intent_is fd "bulk-delete" then bulk_delete_intent fd
  else if intent_is fd "move-file" then move_file_intent fd
  else if intent_is fd "bulk-move" then bulk_move_intent fd
  else ret (RError "Invalid intent").

(** The [action] of the previous revision of the file manager: the same
    handlers, without the two bulk intents. Its create-folder first checks
    that the generated client has the folder model ([!prisma.folder]); the
    client modelled here always has it. *)
Definition action_folders (fd : FormData) : M ActionResult :=
  ensureUploadDir e >>>
  if intent_is fd "create-folder" then create_folder_intent fd
  else if intent_is fd "delete-folder" then delete_folder_intent fd
  else if intent_is fd "upload" then upload_intent fd
  else if intent_is fd "delete" then delete_intent fd
  else if intent_is fd "move-file" then move_file_intent fd
  else ret (RError "Invalid intent").

(** [new Response(body, { headers })]: the platform takes the header
    values one by one and throws a [TypeError] at one it refuses. *)
Definition new_Response (status : N) (body : Body)
    (headers : list (string * string)) : M Response :=
  if existsb (λ h, header_refused e h.2) headers then throw TypeError
  else ret (mkResponse status body headers).

(** The [loader] of the download route, [params.id] given. *)
Definition download_loader (id : string) : M Response :=
  let! fileRecord := prisma_file_findFirst id shop in
  match fileRecord with
  | None => throw (Thrown (mkResponse 404 (BText "File not found") []))
  | Some r =>
      let! ex := existsSync (File.path r) in
      if negb ex
      then throw (Thrown (mkResponse 404 (BText "File not found on disk") []))
      else
        let! fileBuffer := readFileBuffer (File.path r) in
        new_Response 200 (BBytes fileBuffer)
          [("Content-Type", File.mimeType r);
           ("Content-Disposition",
            "attachment; filename=" +:+ quote +:+ File.originalName r +:+ quote);
           ("Content-Length", pretty (File.size r))]
  end.

(** The [loader] of the folder-files route: the files of one folder,
    newest first. *)
Definition folder_files_loader (id : string) : M (list File.t) :=
  let! folder := prisma_folder_findFirst id shop in
  match folder with
  | None => throw (Thrown (mkResponse 404 (BText "Folder not found") []))
  | Some (_, folder_files) =>
      ret (merge_sort newer_first folder_files)
  end.
End Routes.

(** ** The listing loaders and the first revision of the action *)

(** The [folderId] part of a [findMany] filter: absent, or a required
    value ([null] selects the rows without a folder). *)
Inductive FolderFilter :=
| AnyFolder
| InFolder (folderId : option string).

Definition file_matches (shop : string) (flt : FolderFilter) (f : File.t) : bool :=
  bool_decide (File.shop f = shop)
  && match flt with
     | AnyFolder => true
     | InFolder x => bool_decide (File.folderId f = x)
     end.

(** [prisma.file.findMany({ where: { shop, folderId }, orderBy: { createdAt: "desc" } })] *)
Definition prisma_file_findMany (shop : string) (flt : FolderFilter)
  : M (list File.t) :=
  let! d := get_db in
  ret (merge_sort newer_first
         (List.filter (file_matches shop flt) (map_to_list (files d)).*2)).

(** A folder as the listing returns it: the row and, by
    [include: { files: { select: { id: true } } }], the ids of the File
    rows that reference it. *)
Definition FolderEntry : Type := Folder.t * list string.

Definition newer_folder_first (a b : FolderEntry) : Prop :=
  Folder.createdAt b.1 ≤ Folder.createdAt a.1.

#[global] Instance newer_folder_first_dec a b : Decision (newer_folder_first a b).
Proof. unfold newer_folder_first. apply _. Defined.

(** [prisma.folder.findMany({ where: { shop }, include: ..., orderBy: { createdAt: "desc" } })] *)
Definition prisma_folder_findMany (shop : string) : M (list FolderEntry) :=
  let! d := get_db in
  ret (merge_sort newer_folder_first
         ((λ kv : string * Folder.t, (kv.2, File.id <$> files_of kv.1 (files d)))
            <$> List.filter (λ kv : string * Folder.t, bool_decide (Folder.shop kv.2 = shop))
                  (map_to_list (folders d)))).

(** What a listing loader returns. *)
Record LoaderData := mkLoaderData {
  l_folders : list FolderEntry;
  l_files : list File.t;
  l_currentFolderId : option string;
  l_error : option string
}.

(** [error.message] *)
Definition message (err : Err) : string :=
  match err with
  | IOError => "I/O error"
  | StoreError code => code
  | TypeError => "TypeError"
  | SyntaxError => "SyntaxError"
  | Thrown _ => ""
  end.

(** [folderId === "root" ? null : folderId || null] *)
Definition requested_folder (folderId : option string) : option string :=
  if decide (folderId = Some "root") then None else or_null folderId.

(** The [loader] of the file manager (current revision);
    [url.searchParams.get("folderId")] given. *)
Definition loader (e : Env) (folderId : option string) : M LoaderData :=
  ensureUploadDir e >>>
  try_catch
    (let! folders := prisma_folder_findMany (session_shop e) in
     let! files := prisma_file_findMany (session_shop e)
                     (InFolder (requested_folder folderId)) in
     ret (mkLoaderData folders files folderId None))
    (λ err, console_error err >>>
            ret (mkLoaderData [] [] None (Some (message err)))).

(** The [loader] of the previous revision: the folders and the files at
    the root. *)
Definition loader_folders (e : Env) : M LoaderData :=
  ensureUploadDir e >>>
  try_catch
    (let! folders := prisma_folder_findMany (session_shop e) in
     let! files := prisma_file_findMany (session_shop e) (InFolder None) in
     ret (mkLoaderData folders files None None))
    (λ err, console_error err >>>
            ret (mkLoaderData [] [] None (Some (message err)))).

(** The [loader] of the first revision: every file of the shop. *)
Definition loader_first (e : Env) : M LoaderData :=
  ensureUploadDir e >>>
  try_catch
    (let! files := prisma_file_findMany (session_shop e) AnyFolder in
     ret (mkLoaderData [] files None None))
    (λ err, console_error err >>>
            ret (mkLoaderData [] [] None (Some (message err)))).

(** intent "upload" of the first revision: the write is inlined and the
    table has no folder column yet (the row is kept with a null folder). *)
Definition upload_first (e : Env) (fd : FormData) : M ActionResult :=
  match fd_get "file" fd with
  | Some (FFile file) =>
      let buffer := up_bytes file in
      let filename := stored_name (Date_now e) (up_name file) in
      let filePath := join e (UPLOAD_DIR e) filename in
      writeFile e filePath buffer >>>
      let! fileRecord :=
        prisma_file_create e
          {| d_filename := filename;
             d_originalName := up_name file;
             d_mimeType := or_default (up_type file) "application/octet-stream";
             d_size := up_size file;
             d_path := filePath;
             d_shop := session_shop e;
             d_folderId := None |} in
      ret (RSuccessFile fileRecord)
  | _ => ret (RError "No file provided")
  end.

(** intent "delete" of the first revision: the unlink is inlined. *)
Definition delete_first (e : Env) (fd : FormData) : M ActionResult :=
  let fileId := fd_get "fileId" fd in
  if negb (truthy fileId) then ret (RError "No file ID provided")
  else
    let! id := where_id fileId in
    let! fileRecord := prisma_file_findFirst id (session_shop e) in
    match fileRecord with
    | None => ret (RError "File not found")
    | Some r =>
        try_catch
          (let! ex := existsSync (File.path r) in
           if ex then unlink e (File.path r) else ret tt)
          console_error >>>
        prisma_file_delete id >>>
        ret RSuccess
    end.

(** The [action] of the first revision of the file manager. *)
Definition action_first (e : Env) (fd : FormData) : M ActionResult :=
  ensureUploadDir e >>>
  if intent_is fd "upload" then upload_first e fd
  else if intent_is fd "delete" then delete_first e fd
  else ret (RError "Invalid intent").

(** ** Helpers of the page *)






(** [s.lastIndexOf(c)] for a one-character pattern; -1 when absent. *)
Fixpoint lastIndexOf (c : Ascii.ascii) (s : string) : Z :=
  match s with
  | EmptyString => (-1)%Z
  | String a s' =>
      let r := lastIndexOf c s' in
      if bool_decide (r = (-1)%Z)
      then (if bool_decide (a = c) then 0%Z else (-1)%Z)
      else (r + 1)%Z
  end.





(** [handleMoveFile(fileId)]: the items the move dialog is opened with. *)
Definition handleMoveFile (fileId : string) : list string :=
  ["file-" +:+ fileId].

(** [handleBulkMove()]: the selected items that are files, or nothing (and
    a toast) when there is none. *)
Definition handleBulkMove (selectedItems : list string) : option (list string) :=
  let fileItems := List.filter (startsWith "file-") selectedItems in
  match fileItems with
  | [] => None
  | _ => Some fileItems
  end.

(** The form [handleMoveToFolder(targetFolderId)] submits for the items of
    the dialog; [stringify] is [JSON.stringify]. *)
Definition handleMoveToFolder (stringify : list string → string)
    (itemsToMove : list string) (targetFolderId : option string) : FormData :=
  let folder_entry :=
    match or_null targetFolderId with
    | Some id => [("folderId", FText id)]
    | None => []
    end in
  match itemsToMove with
  | [item] =>
      ([("intent", FText "move-file");
        ("fileId", FText (replace "file-" "" item))] ++ folder_entry)%list
  | _ =>
      ([("intent", FText "bulk-move");
        ("fileIds", FText (stringify itemsToMove))] ++ folder_entry)%list
  end.

(** ** Vocabulary of the properties *)

(** The world [ensureUploadDir] leaves behind. *)
Definition ensured (e : Env) (w : World) : World := (ensureUploadDir e w).2.

(** The path [saveFile] writes an upload to. *)
Definition upload_path (e : Env) (file : Upload) : string :=
  join e (UPLOAD_DIR e) (stored_name (Date_now e) (up_name file)).

(** The value of the first header named [name]. *)
Fixpoint get_header (name : string) (hs : list (string * string)) : option string :=
  match hs with
  | [] => None
  | (n, v) :: hs' => if decide (n = name) then Some v else get_header name hs'
  end.

(** The headers the download route gives its response for a row. *)
Definition download_headers (r : File.t) : list (string * string) :=
  [("Content-Type", File.mimeType r);
   ("Content-Disposition",
    "attachment; filename=" +:+ quote +:+ File.originalName r +:+ quote);
   ("Content-Length", pretty (File.size r))].

(** The platform's [Response] takes every value of the header list. *)
Definition carried (e : Env) (hs : list (string * string)) : Prop :=
  existsb (λ h, header_refused e h.2) hs = false.

(** A thrown [Response] with status 404. *)
Definition is_404 {A} (r : Res A) : Prop :=
  ∃ resp, r = Throw (Thrown resp) ∧ status resp = 404.

(** Two forms that carry the same entries, except that the first has an
    empty "folderId" where the second has none. *)
Definition blank_folderId (fd fd' : FormData) : Prop :=
  (∀ k, k ≠ "folderId" → fd_get k fd = fd_get k fd')
  ∧ fd_get "folderId" fd = Some (FText "")
  ∧ fd_get "folderId" fd' = None.

(** A world in which every row touched since [w] points at the root. *)
Definition moved_to_root (w w' : World) : Prop :=
  ∀ k f', files (db w') !! k = Some f' →
    files (db w) !! k = Some f' ∨ File.folderId f' = None.

(** No character of the string is a dash. *)
Fixpoint dash_free (s : string) : Prop :=
  match s with
  | EmptyString => True
  | String c s' => c ≠ "-"%char ∧ dash_free s'
  end.

(** Collision freedom as the spec requires it of the blob store: two
    successive writes never get the same key. *)
Definition keys_never_collide : Prop :=
  ∀ e1 e2 f1 f2 w key1 w1 key2 w2,
    saveFile e1 f1 (up_bytes f1) w = (Ok key1, w1) →
    saveFile e2 f2 (up_bytes f2) w1 = (Ok key2, w2) →
    key1 ≠ key2.

(** No File row with this id belongs to the requesting shop: there is no
    such row, or another shop owns it. *)
Definition not_my_file (e : Env) (w : World) (k : string) : Prop :=
  ∀ f, files (db w) !! k = Some f → File.shop f ≠ session_shop e.

Definition not_my_folder (e : Env) (w : World) (k : string) : Prop :=
  ∀ g, folders (db w) !! k = Some g → Folder.shop g ≠ session_shop e.

(** The "not found" answers of the action. *)
Definition answers_not_found (r : Res ActionResult) : Prop :=
  r = Ok (RError "File not found") ∨ r = Ok (RError "Folder not found").

(** Every File row with a folder reference points at a Folder row of the
    same shop. *)
Definition folder_same_shop (d : Db) : Prop :=
  ∀ k f fid, files d !! k = Some f → File.folderId f = Some fid →
    ∃ g, folders d !! fid = Some g ∧ Folder.shop g = File.shop f.

(** The folder the form names, if it names one, is a folder of the
    requesting shop. *)
Definition target_in_shop (e : Env) (d : Db) (fd : FormData) : Prop :=
  ∀ fid, folderId_field fd = Some fid →
    ∃ g, folders d !! fid = Some g ∧ Folder.shop g = session_shop e.

(** The identifiers a bulk-move loop goes through. *)
Definition listed (p : Parsed) : list string :=
  match p with
  | JArray l => omap (λ it, match it with IStr s => Some s | INotStr => None end) l
  | JString s => chars s
  | JOther | JSyntaxError => []
  end.

(** The File ids a bulk-move request names. *)
Definition bulk_move_names (e : Env) (fd : FormData) (k : string) : Prop :=
  ∃ v id, fd_get "fileIds" fd = Some v
    ∧ id ∈ listed (JSON_parse e (toString v))
    ∧ replace "file-" "" id = k.

(** What a run of folder updates may do to the File table: rows keep their
    shop, and a row that changed is one of the [named] rows and now points
    at [target]. *)
Definition moved_only (named : string → Prop) (target : option string)
    (w w' : World) : Prop :=
  folders (db w') = folders (db w)
  ∧ ∀ k f', files (db w') !! k = Some f' →
      ∃ f, files (db w) !! k = Some f ∧ File.shop f = File.shop f'
        ∧ (f' = f ∨ (File.folderId f' = target ∧ named k)).

(** What deletions may do: directories stay, and a File row still present
    is the row it was. *)
Definition only_deleted (w w' : World) : Prop :=
  dirs (disk w') = dirs (disk w)
  ∧ ∀ k f, files (db w') !! k = Some f → files (db w) !! k = Some f.

(** ** Vocabulary of the further properties *)

(** A computation respects a relation on worlds when the world it ends in,
    normally or by throwing, is related to the world it started in. *)
Definition respects {A} (R : World → World → Prop) (m : M A) : Prop :=
  ∀ w r w', m w = (r, w') → R w w'.

(** The columns of a File row that describe its blob and its owner. *)
Definition same_blob_columns (f f' : File.t) : Prop :=
  File.id f' = File.id f
  ∧ File.filename f' = File.filename f
  ∧ File.originalName f' = File.originalName f
  ∧ File.mimeType f' = File.mimeType f
  ∧ File.size f' = File.size f
  ∧ File.path f' = File.path f
  ∧ File.shop f' = File.shop f
  ∧ File.createdAt f' = File.createdAt f.

(** Referential integrity: every folder reference names a Folder row. *)
Definition references_resolve (d : Db) : Prop :=
  ∀ k f fid, files d !! k = Some f → File.folderId f = Some fid →
    is_Some (folders d !! fid).

(** Referential integrity is carried from one world to the other. *)
Definition keeps_references (w w' : World) : Prop :=
  references_resolve (db w) → references_resolve (db w').

(** Rows were removed at most: both tables are sub-tables of what they
    were. *)
Definition only_removed (w w' : World) : Prop :=
  files (db w') ⊆ files (db w) ∧ folders (db w') ⊆ folders (db w).

(** Rows were re-filed at most: the folders are the same, and every File
    row is a row that was there, with the same blob columns. *)
Definition refiled (w w' : World) : Prop :=
  folders (db w') = folders (db w)
  ∧ dom (files (db w')) = dom (files (db w))
  ∧ ∀ k f f', files (db w) !! k = Some f → files (db w') !! k = Some f' →
      same_blob_columns f f'.

(** Rows of "File" were removed at most. *)
Definition files_kept (w w' : World) : Prop :=
  files (db w') ⊆ files (db w).

(** The computation never answers [{ error }]. *)
Definition never_errors (m : M ActionResult) : Prop :=
  ∀ w msg w', m w ≠ (Ok (RError msg), w').

(** ** A concrete platform, for running the routes on examples *)

(** The array texts the page sends ([JSON.stringify] of an array of
    identifiers) and the matching reader: a bracketed, comma-separated
    sequence of double-quoted strings without escapes. Any other text is
    answered with a syntax error. *)
Inductive ReadState :=
| AtStart
| AfterOpen
| InString (cur : string)
| AfterString
| AfterComma
| AtEnd.

Definition is_char (c : Ascii.ascii) (s : string) : bool :=
  bool_decide (String c EmptyString = s).

Fixpoint read_array (st : ReadState) (acc : list JsItem) (s : string) : Parsed :=
  match s with
  | EmptyString =>
      match st with
      | AtEnd => JArray (rev acc)
      | _ => JSyntaxError
      end
  | String c s' =>
      match st with
      | AtStart =>
          if is_char c "[" then read_array AfterOpen acc s' else JSyntaxError
      | AfterOpen =>
          if is_char c quote then read_array (InString "") acc s'
          else if is_char c "]" then read_array AtEnd acc s'
          else JSyntaxError
      | InString cur =>
          if is_char c quote then read_array AfterString (IStr cur :: acc) s'
          else if is_char c "\" then JSyntaxError
          else read_array (InString (cur +:+ String c EmptyString)) acc s'
      | AfterString =>
          if is_char c "," then read_array AfterComma acc s'
          else if is_char c "]" then read_array AtEnd acc s'
          else JSyntaxError
      | AfterComma =>
          if is_char c quote then read_array (InString "") acc s'
          else JSyntaxError
      | AtEnd => JSyntaxError
      end
  end.

Definition parse_ids (s : string) : Parsed := read_array AtStart [] s.

Fixpoint stringify_items (l : list string) : string :=
  match l with
  | [] => ""
  | [s] => quote +:+ s +:+ quote
  | s :: l' => quote +:+ s +:+ quote +:+ "," +:+ stringify_items l'
  end.

(** [JSON.stringify(ids)] for identifiers without quotes or backslashes. *)
Definition stringify_ids (l : list string) : string :=
  "[" +:+ stringify_items l +:+ "]".

(** Strings hold text as its UTF-8 bytes on this platform: a byte from
    0xC4 on starts a character above U+00FF. *)
Definition wide_byte (c : ascii) : bool := (196 <=? N_of_ascii c)%N.

(** NUL, line feed and carriage return. *)
Definition breaking_byte (c : ascii) : bool :=
  let n := N_of_ascii c in ((n =? 0) || (n =? 10) || (n =? 13))%N.

(** The header values this platform's [Response] refuses: those with a
    wide character, a NUL or a line break in them. *)
Fixpoint refused_value (v : string) : bool :=
  match v with
  | EmptyString => false
  | String c v' => wide_byte c || breaking_byte c || refused_value v'
  end.

(** A platform whose disk never refuses an operation. *)
Definition sample_env (shop : string) (now : N) (next : string) : Env :=
  {| session_shop := shop;
     Date_now := now;
     fresh_id := next;
     cwd := "/srv/app";
     join := λ a b, a +:+ "/" +:+ b;
     JSON_parse := parse_ids;
     trim := λ s, s;
     write_fails := λ _, false;
     unlink_fails := λ _, false;
     header_refused := refused_value |}.

(** The same platform on a disk that refuses every unlink. *)
Definition stuck_env (shop : string) (now : N) (next : string) : Env :=
  {| session_shop := shop;
     Date_now := now;
     fresh_id := next;
     cwd := "/srv/app";
     join := λ a b, a +:+ "/" +:+ b;
     JSON_parse := parse_ids;
     trim := λ s, s;
     write_fails := λ _, false;
     unlink_fails := λ _, true;
     header_refused := refused_value |}.

(** The same platform on a disk that refuses every write. *)
Definition full_env (shop : string) (now : N) (next : string) : Env :=
  {| session_shop := shop;
     Date_now := now;
     fresh_id := next;
     cwd := "/srv/app";
     join := λ a b, a +:+ "/" +:+ b;
     JSON_parse := parse_ids;
     trim := λ s, s;
     write_fails := λ _, true;
     unlink_fails := λ _, false;
     header_refused := refused_value |}.

Definition invoice_bytes : list Byte.byte :=
  [Byte.x25; Byte.x50; Byte.x44; Byte.x46; Byte.x2d;
   Byte.x31; Byte.x2e; Byte.x34; Byte.x0a; Byte.x25].

(** Shop "shop-a" owns folder "F1" and, inside it, file "x1" (invoice.pdf,
    10 bytes); shop "shop-b" owns file "x2" at the root. Both blobs are on
    disk. *)
Definition sample_file_a : File.t :=
  File.mk "x1" "1700000000000-invoice.pdf" "invoice.pdf" "application/pdf" 10
    "/srv/app/uploads/1700000000000-invoice.pdf" "shop-a" (Some "F1")
    1700000000000 1700000000000.

Definition sample_file_b : File.t :=
  File.mk "x2" "1700000000500-notes.txt" "notes.txt" "text/plain" 3
    "/srv/app/uploads/1700000000500-notes.txt" "shop-b" None
    1700000000500 1700000000500.

Definition sample_folder_a : Folder.t :=
  Folder.mk "F1" "Invoices" "shop-a" 1699999999000 1699999999000.

Definition sample_world : World :=
  {| db := {| files := <["x1" := sample_file_a]> (<["x2" := sample_file_b]> ∅);
              folders := <["F1" := sample_folder_a]> ∅ |};
     disk := {| dirs := {["/srv/app/uploads"]};
                blobs := <[File.path sample_file_a := invoice_bytes]>
                           (<[File.path sample_file_b :=
                                [Byte.x61; Byte.x62; Byte.x63]]> ∅) |} |}.


(** * Properties *)

(** ** Running the primitives *)

Lemma ensureUploadDir_run e w : ensureUploadDir e w = (Ok tt, ensured e w).
Proof.
  unfold ensured, ensureUploadDir, existsSync, mkdir, bind, get_disk, ret, put_disk.
  simpl. by destruct (negb _).
Qed.

Lemma ensured_db e w : db (ensured e w) = db w.
Proof.
  unfold ensured, ensureUploadDir, existsSync, mkdir, bind, get_disk, ret, put_disk.
  simpl. by destruct (negb _).
Qed.

Lemma ensured_blobs e w : blobs (disk (ensured e w)) = blobs (disk w).
Proof.
  unfold ensured, ensureUploadDir, existsSync, mkdir, bind, get_disk, ret, put_disk.
  simpl. by destruct (negb _).
Qed.

Lemma findFirst_file_run id shop w :
  prisma_file_findFirst id shop w =
  (Ok (match files (db w) !! id with
       | Some f => if decide (File.shop f = shop) then Some f else None
       | None => None
       end), w).
Proof. reflexivity. Qed.

Lemma findFirst_file_own id shop w f :
  files (db w) !! id = Some f → File.shop f = shop →
  prisma_file_findFirst id shop w = (Ok (Some f), w).
Proof. intros Hf Hs. rewrite findFirst_file_run, Hf. by rewrite decide_True. Qed.

Lemma findFirst_file_absent id shop w :
  files (db w) !! id = None →
  prisma_file_findFirst id shop w = (Ok None, w).
Proof. intros Hf. by rewrite findFirst_file_run, Hf. Qed.

Lemma findFirst_folder_own id shop w g :
  folders (db w) !! id = Some g → Folder.shop g = shop →
  prisma_folder_findFirst id shop w = (Ok (Some (g, files_of id (files (db w)))), w).
Proof.
  intros Hg Hs. unfold prisma_folder_findFirst, bind, get_db, ret.
  rewrite Hg. by rewrite decide_True.
Qed.

(** Blob deletion touches the disk only, and its only failure is IOError. *)
Lemma deleteFile_run e p w :
  ∃ w', (deleteFile e p w = (Ok tt, w') ∨ deleteFile e p w = (Throw IOError, w'))
        ∧ db w' = db w.
Proof.
  unfold deleteFile, existsSync, unlink, bind, get_disk, ret, put_disk, throw.
  simpl. destruct (_ || _); [|eauto].
  destruct (unlink_fails e p); [eauto|].
  destruct (blobs (disk w) !! p); eauto.
Qed.

(** A refused unlink leaves the whole world as it was. *)
Lemma deleteFile_refused e p w :
  unlink_fails e p = true →
  ∃ r, deleteFile e p w = (r, w).
Proof.
  intros Hu.
  unfold deleteFile, existsSync, unlink, bind, get_disk, ret, put_disk, throw.
  simpl. rewrite Hu. destruct (_ || _); eauto.
Qed.

(** With nothing at the path, [deleteFile] is a no-op. *)
Lemma deleteFile_missing e p w :
  p ∉ dirs (disk w) → blobs (disk w) !! p = None →
  deleteFile e p w = (Ok tt, w).
Proof.
  intros Hd Hb.
  unfold deleteFile, existsSync, unlink, bind, get_disk, ret, put_disk, throw.
  simpl. rewrite Hb, bool_decide_false by done.
  rewrite bool_decide_false; [done|]. by intros [? ?].
Qed.

Lemma delete_blob_quietly_run e p w :
  ∃ w', delete_blob_quietly e p w = (Ok tt, w') ∧ db w' = db w.
Proof.
  unfold delete_blob_quietly, try_catch, console_error, ret.
  destruct (deleteFile_run e p w) as (w' & [-> | ->] & Hdb); eauto.
Qed.

Lemma delete_blob_quietly_refused e p w :
  unlink_fails e p = true → delete_blob_quietly e p w = (Ok tt, w).
Proof.
  intros Hu. unfold delete_blob_quietly, try_catch, console_error, ret.
  destruct (deleteFile_refused e p w Hu) as (r & ->). by destruct r as [[]|].
Qed.

Lemma delete_blobs_run e (l : list File.t) w :
  ∃ w', for_of l (λ file, delete_blob_quietly e (File.path file)) w = (Ok tt, w')
        ∧ db w' = db w.
Proof.
  revert w. induction l as [|f l IH]; intros w; simpl.
  - by exists w.
  - unfold bind.
    destruct (delete_blob_quietly_run e (File.path f) w) as (w1 & -> & H1).
    destruct (IH w1) as (w2 & -> & H2). exists w2. split; [done|congruence].
Qed.

(** The intent strings are pairwise distinct, so one literal matches at most. *)
Lemma intent_is_other fd a b :
  intent_is fd a = true → a ≠ b → intent_is fd b = false.
Proof.
  unfold intent_is. destruct (fd_get "intent" fd) as [[i|]|]; try done.
  intros ->%bool_decide_eq_true Hne. by apply bool_decide_eq_false.
Qed.

Ltac pick_intent H :=
  repeat (first
    [ rewrite H
    | rewrite (intent_is_other _ _ _ H) by discriminate ]).

Lemma action_delete e fd w :
  intent_is fd "delete" = true →
  action e fd w = delete_intent e fd (ensured e w)
  ∧ action_folders e fd w = delete_intent e fd (ensured e w).
Proof.
  intros H. unfold action, action_folders, bind.
  rewrite ensureUploadDir_run. by pick_intent H.
Qed.

Lemma action_delete_folder e fd w :
  intent_is fd "delete-folder" = true →
  action e fd w = delete_folder_intent e fd (ensured e w)
  ∧ action_folders e fd w = delete_folder_intent e fd (ensured e w).
Proof.
  intros H. unfold action, action_folders, bind.
  rewrite ensureUploadDir_run. by pick_intent H.
Qed.

Lemma action_upload e fd w :
  intent_is fd "upload" = true →
  action e fd w = upload_intent e fd (ensured e w)
  ∧ action_folders e fd w = upload_intent e fd (ensured e w).
Proof.
  intros H. unfold action, action_folders, bind.
  rewrite ensureUploadDir_run. by pick_intent H.
Qed.

Lemma action_move_file e fd w :
  intent_is fd "move-file" = true →
  action e fd w = move_file_intent e fd (ensured e w)
  ∧ action_folders e fd w = move_file_intent e fd (ensured e w).
Proof.
  intros H. unfold action, action_folders, bind.
  rewrite ensureUploadDir_run. by pick_intent H.
Qed.

Lemma action_bulk_delete e fd w :
  intent_is fd "bulk-delete" = true →
  action e fd w = bulk_delete_intent e fd (ensured e w).
Proof.
  intros H. unfold action, bind.
  rewrite ensureUploadDir_run. by pick_intent H.
Qed.

Lemma action_bulk_move e fd w :
  intent_is fd "bulk-move" = true →
  action e fd w = bulk_move_intent e fd (ensured e w).
Proof.
  intros H. unfold action, bind.
  rewrite ensureUploadDir_run. by pick_intent H.
Qed.

(** The two revisions of the action differ on the bulk intents only. *)
Lemma action_folders_agrees e fd w :
  intent_is fd "bulk-delete" = false →
  intent_is fd "bulk-move" = false →
  action_folders e fd w = action e fd w.
Proof.
  intros H1 H2. unfold action, action_folders, bind.
  rewrite ensureUploadDir_run, H1, H2. reflexivity.
Qed.

(** ** Delete File *)

Lemma delete_intent_own e fd w k r :
  fd_get "fileId" fd = Some (FText k) → k ≠ "" →
  files (db w) !! k = Some r → File.shop r = session_shop e →
  ∃ w', delete_intent e fd w = (Ok RSuccess, w')
        ∧ db w' = mkDb (delete k (files (db w))) (folders (db w))
        ∧ (unlink_fails e (File.path r) = true → disk w' = disk w).
Proof.
  intros Hid Hk Hr Hs. unfold delete_intent. rewrite Hid.
  assert (truthy (Some (FText k)) = true) as -> by (by destruct k).
  simpl. unfold bind at 1. unfold where_id, ret at 1.
  unfold bind at 1. rewrite (findFirst_file_own _ _ _ _ Hr Hs).
  unfold bind at 1.
  destruct (delete_blob_quietly_run e (File.path r) w) as (w1 & E1 & H1).
  rewrite E1. unfold bind at 1.
  unfold prisma_file_delete, bind, get_db, put_db, throw, ret. simpl.
  rewrite H1, Hr. eexists. split; [reflexivity|]. simpl. split; [done|].
  intros Hu. rewrite (delete_blob_quietly_refused _ _ _ Hu) in E1. congruence.
Qed.

(** C7. Delete File is best-effort on the blob: whatever the disk does
    (unlink refused with an I/O error, blob already gone, or blob removed),
    deleting a file the requesting shop owns removes exactly its metadata
    row and answers [{ success: true }]; a refused unlink is swallowed and
    leaves the disk as it was. Holds for both revisions of the action. *)
Theorem C7_delete_file_best_effort e fd w k r :
  intent_is fd "delete" = true →
  fd_get "fileId" fd = Some (FText k) → k ≠ "" →
  files (db w) !! k = Some r → File.shop r = session_shop e →
  ∃ w', action e fd w = (Ok RSuccess, w')
        ∧ action_folders e fd w = (Ok RSuccess, w')
        ∧ files (db w') = delete k (files (db w))
        ∧ folders (db w') = folders (db w)
        ∧ (unlink_fails e (File.path r) = true →
           blobs (disk w') = blobs (disk w)).
Proof.
  intros Hi Hid Hk Hr Hs.
  destruct (action_delete e fd w Hi) as [-> ->].
  destruct (delete_intent_own e fd (ensured e w) k r) as (w' & -> & Hdb & Hdisk);
    try done.
  { by rewrite ensured_db. }
  exists w'. rewrite Hdb, ensured_db. simpl. repeat split; try done.
  intros Hu. rewrite (Hdisk Hu). apply ensured_blobs.
Qed.

Lemma C7_delete_file_best_effort_witness :
  ∃ w', action (stuck_env "shop-a" 1700000001000 "x3")
          [("intent", FText "delete"); ("fileId", FText "x1")] sample_world
        = (Ok RSuccess, w')
        ∧ files (db w') !! "x1" = None
        ∧ blobs (disk w') !! File.path sample_file_a = Some invoice_bytes.
Proof.
  destruct (C7_delete_file_best_effort (stuck_env "shop-a" 1700000001000 "x3")
              [("intent", FText "delete"); ("fileId", FText "x1")]
              sample_world "x1" sample_file_a)
    as (w' & Ha & _ & Hf & _ & Hb); try reflexivity; try discriminate.
  exists w'. split; [exact Ha|]. split.
  - rewrite Hf. apply lookup_delete_eq.
  - rewrite Hb; reflexivity.
Defined.

(** ** Upload *)

Lemma writeFile_run e p buffer w :
  writeFile e p buffer w =
  if write_fails e p || bool_decide (p ∈ dirs (disk w)) then (Throw IOError, w)
  else (Ok tt, mkWorld (db w) (mkDisk (dirs (disk w)) (<[p := buffer]> (blobs (disk w))))).
Proof.
  unfold writeFile, bind, get_disk, put_disk, throw. simpl.
  by destruct (_ || _).
Qed.

Lemma saveFile_eq e file buffer w :
  saveFile e file buffer w =
  match writeFile e (upload_path e file) buffer (ensured e w) with
  | (Ok _, w') => (Ok (stored_name (Date_now e) (up_name file), upload_path e file), w')
  | (Throw err, w') => (Throw err, w')
  end.
Proof. unfold saveFile, bind. by rewrite ensureUploadDir_run. Qed.

Lemma saveFile_run e file buffer w :
  ∃ w1, db w1 = db w
    ∧ ((saveFile e file buffer w = (Throw IOError, w1)
        ∧ blobs (disk w1) = blobs (disk w))
       ∨ (saveFile e file buffer w
            = (Ok (stored_name (Date_now e) (up_name file), upload_path e file), w1)
          ∧ write_fails e (upload_path e file) = false
          ∧ blobs (disk w1) = <[upload_path e file := buffer]> (blobs (disk w)))).
Proof.
  rewrite saveFile_eq, writeFile_run.
  destruct (write_fails e (upload_path e file)) eqn:Hw; simpl.
  - exists (ensured e w). rewrite ensured_db, ensured_blobs. auto.
  - destruct (bool_decide (upload_path e file ∈ dirs (disk (ensured e w)))); simpl.
    + exists (ensured e w). rewrite ensured_db, ensured_blobs. auto.
    + eexists. split; [|right; split; [reflexivity|]]; simpl.
      * apply ensured_db.
      * by rewrite ensured_blobs.
Qed.

Lemma saveFile_refused e file buffer w :
  write_fails e (upload_path e file) = true →
  saveFile e file buffer w = (Throw IOError, ensured e w).
Proof. intros Hw. by rewrite saveFile_eq, writeFile_run, Hw. Qed.

(** [prisma.file.create] either throws a store error and changes nothing,
    or inserts the returned row under the generated id. *)
Lemma file_create_run e data w :
  (∃ code, prisma_file_create e data w = (Throw (StoreError code), w))
  ∨ (∃ r, prisma_file_create e data w
            = (Ok r, mkWorld (mkDb (<[fresh_id e := r]> (files (db w)))
                                   (folders (db w))) (disk w))
          ∧ files (db w) !! fresh_id e = None
          ∧ fk_ok (db w) (d_folderId data) = true
          ∧ File.id r = fresh_id e
          ∧ File.shop r = d_shop data
          ∧ File.path r = d_path data
          ∧ File.folderId r = d_folderId data).
Proof.
  unfold prisma_file_create, bind, get_db, put_db, throw, ret. simpl.
  destruct (bool_decide (is_Some _)) eqn:Hc; [eauto|].
  destruct (fk_ok _ _) eqn:Hfk; simpl; [|eauto].
  right. eexists. split; [reflexivity|]. simpl.
  apply bool_decide_eq_false in Hc.
  repeat split; try done. by apply eq_None_not_Some.
Qed.

(** How an upload with a payload ends: an I/O error before anything is
    stored, a store error after the blob is written, or success with both
    the blob and the row in place. *)
Lemma upload_intent_run e fd w file :
  fd_get "file" fd = Some (FFile file) →
  ∃ r w', upload_intent e fd w = (r, w') ∧
    ((r = Throw IOError ∧ db w' = db w ∧ blobs (disk w') = blobs (disk w))
     ∨ ((∃ code, r = Throw (StoreError code)) ∧ db w' = db w
        ∧ blobs (disk w') = <[upload_path e file := up_bytes file]> (blobs (disk w)))
     ∨ (∃ rec, r = Ok (RSuccessFile rec)
        ∧ files (db w') = <[fresh_id e := rec]> (files (db w))
        ∧ folders (db w') = folders (db w)
        ∧ files (db w) !! fresh_id e = None
        ∧ File.id rec = fresh_id e
        ∧ File.shop rec = session_shop e
        ∧ File.path rec = upload_path e file
        ∧ File.folderId rec = or_null (folderId_field fd)
        ∧ fk_ok (db w) (File.folderId rec) = true
        ∧ blobs (disk w') = <[upload_path e file := up_bytes file]> (blobs (disk w)))).
Proof.
  intros Hfile. unfold upload_intent. rewrite Hfile. unfold bind at 1.
  destruct (saveFile_run e file (up_bytes file) w)
    as (w1 & Hdb & [[-> Hb] | (-> & Hw & Hb)]).
  { do 2 eexists. split; [reflexivity|]. left. auto. }
  unfold bind at 1. simpl.
  match goal with |- context [prisma_file_create e ?d w1] =>
    destruct (file_create_run e d w1)
      as [[code ->] | (rec & -> & Hfresh & Hfk & Hid & Hshop & Hpath & Hfold)]
  end.
  { do 2 eexists. split; [reflexivity|]. right; left. eauto. }
  unfold ret. do 2 eexists. split; [reflexivity|]. right; right.
  exists rec. simpl in *. rewrite Hdb in *.
  repeat split; try done. by rewrite Hfold.
Qed.

(** C4. Upload is blob-first. For an upload with a payload: (1) a refused
    write ends the request with IOError; (2) whenever the request ends with
    IOError the metadata store is exactly what it was, so no File row was
    created; (3) whenever a row was created, the payload is already on disk
    at the row's path. Holds for both revisions of the action. *)
Theorem C4_upload_blob_first e fd w file :
  intent_is fd "upload" = true →
  fd_get "file" fd = Some (FFile file) →
  action_folders e fd w = action e fd w
  ∧ (write_fails e (upload_path e file) = true →
     (action e fd w).1 = Throw IOError)
  ∧ ((action e fd w).1 = Throw IOError → db (action e fd w).2 = db w)
  ∧ (db (action e fd w).2 ≠ db w →
     ∃ rec, (action e fd w).1 = Ok (RSuccessFile rec)
       ∧ files (db (action e fd w).2) !! File.id rec = Some rec
       ∧ blobs (disk (action e fd w).2) !! File.path rec = Some (up_bytes file)).
Proof.
  intros Hi Hfile. destruct (action_upload e fd w Hi) as [Ha Hb].
  rewrite Hb, Ha. split; [done|]. split; [|split].
  - intros Hw. unfold upload_intent. rewrite Hfile. unfold bind at 1.
    rewrite saveFile_refused by (by rewrite ?ensured_db). done.
  - destruct (upload_intent_run e fd (ensured e w) file Hfile)
      as (r & w' & -> & [(_ & Hdb & _) | [((code & ->) & Hdb & _) | (rec & -> & _)]]);
      simpl; rewrite ?ensured_db in *; try done.
  - destruct (upload_intent_run e fd (ensured e w) file Hfile)
      as (r & w' & -> & [(_ & Hdb & _) | [(_ & Hdb & _) |
           (rec & -> & Hf & _ & _ & Hid & _ & Hp & _ & _ & Hbl)]]);
      simpl; rewrite ?ensured_db in *; try done.
    intros _. exists rec. split; [done|]. split.
    + rewrite Hf, Hid. apply lookup_insert_eq.
    + rewrite Hbl, Hp. apply lookup_insert_eq.
Qed.

Lemma C4_upload_blob_first_witness :
  (action (full_env "shop-a" 1700000001000 "x3")
     [("intent", FText "upload"); ("folderId", FText "F1");
      ("file", FFile (mkUpload "b.pdf" "application/pdf" invoice_bytes))]
     sample_world).1 = Throw IOError
  ∧ db (action (full_env "shop-a" 1700000001000 "x3")
     [("intent", FText "upload"); ("folderId", FText "F1");
      ("file", FFile (mkUpload "b.pdf" "application/pdf" invoice_bytes))]
     sample_world).2 = db sample_world.
Proof.
  destruct (C4_upload_blob_first (full_env "shop-a" 1700000001000 "x3")
     [("intent", FText "upload"); ("folderId", FText "F1");
      ("file", FFile (mkUpload "b.pdf" "application/pdf" invoice_bytes))]
     sample_world (mkUpload "b.pdf" "application/pdf" invoice_bytes))
    as (_ & H1 & H2 & _); try reflexivity.
  split; [apply H1; reflexivity | apply H2, H1; reflexivity].
Defined.

(** ** Download *)

Lemma existsSync_run p w :
  existsSync p w =
  (Ok (bool_decide (p ∈ dirs (disk w)) || bool_decide (is_Some (blobs (disk w) !! p))), w).
Proof. reflexivity. Qed.

Lemma readFileBuffer_run p w :
  readFileBuffer p w =
  (match blobs (disk w) !! p with Some b => Ok b | None => Throw IOError end, w).
Proof.
  unfold readFileBuffer, readFile, get_disk, ret, throw, bind.
  by destruct (blobs (disk w) !! p).
Qed.

(** The download loader, step by step. *)
Lemma download_loader_eq e id w :
  download_loader e id w =
  match files (db w) !! id with
  | None => (Throw (Thrown (mkResponse 404 (BText "File not found") [])), w)
  | Some r =>
      if decide (File.shop r = session_shop e) then
        if bool_decide (File.path r ∈ dirs (disk w))
           || bool_decide (is_Some (blobs (disk w) !! File.path r))
        then match blobs (disk w) !! File.path r with
             | Some b =>
                 if existsb (λ h, header_refused e h.2) (download_headers r)
                 then (Throw TypeError, w)
                 else (Ok (mkResponse 200 (BBytes b) (download_headers r)), w)
             | None => (Throw IOError, w)
             end
        else (Throw (Thrown (mkResponse 404 (BText "File not found on disk") [])), w)
      else (Throw (Thrown (mkResponse 404 (BText "File not found") [])), w)
  end.
Proof.
  unfold download_loader. unfold bind at 1. rewrite findFirst_file_run.
  destruct (files (db w) !! id) as [r|]; [|done].
  destruct (decide _); [|done].
  unfold bind at 1. rewrite existsSync_run.
  destruct (_ || _); [|done]. cbn [negb].
  unfold bind. rewrite readFileBuffer_run.
  destruct (blobs (disk w) !! File.path r); [|done].
  unfold new_Response. fold (download_headers r).
  by destruct (existsb _ _).
Qed.

(** A file name of two characters above U+00FF. *)
Lemma wide_name_refused :
  refused_value ("attachment; filename=" +:+ quote +:+ "日本.pdf" +:+ quote) = true
  ∧ refused_value ("attachment; filename=" +:+ quote +:+ "invoice.pdf" +:+ quote)
    = false.
Proof. split; reflexivity. Qed.

(** C5. Download of a file whose name the response cannot carry. A shop
    uploads ten bytes under the name 日本.pdf: the upload answers success and
    the row and the blob are stored. Downloading that very file, the same
    shop gets neither the bytes nor a 404: building the response throws a
    [TypeError], because the Content-Disposition value would carry
    characters above U+00FF. *)
Theorem C5_download_of_wide_name_throws :
  ∃ rec w',
    action (sample_env "shop-a" 1700000003000 "x3")
      [("intent", FText "upload");
       ("file", FFile (mkUpload "日本.pdf" "application/pdf" invoice_bytes))]
      sample_world = (Ok (RSuccessFile rec), w')
    ∧ files (db w') !! "x3" = Some rec
    ∧ File.originalName rec = "日本.pdf"
    ∧ File.shop rec = "shop-a"
    ∧ blobs (disk w') !! File.path rec = Some invoice_bytes
    ∧ download_loader (sample_env "shop-a" 1700000004000 "x4") "x3" w'
      = (Throw TypeError, w').
Proof.
  eexists _, _. split; [vm_compute; reflexivity|].
  split_and!; vm_compute; reflexivity.
Qed.

(** ** Delete Folder *)

Lemma delete_folder_intent_own e fd w id g :
  fd_get "folderId" fd = Some (FText id) → id ≠ "" →
  folders (db w) !! id = Some g → Folder.shop g = session_shop e →
  ∃ w', delete_folder_intent e fd w = (Ok RSuccess, w')
        ∧ db w' = mkDb (filter (λ kv, File.folderId kv.2 ≠ Some id) (files (db w)))
                       (delete id (folders (db w))).
Proof.
  intros Hid Hne Hg Hs. unfold delete_folder_intent. rewrite Hid.
  assert (truthy (Some (FText id)) = true) as -> by (by destruct id).
  simpl. unfold bind at 1. unfold where_id, ret at 1.
  unfold bind at 1. rewrite (findFirst_folder_own _ _ _ _ Hg Hs).
  unfold bind at 1.
  destruct (delete_blobs_run e (files_of id (files (db w))) w) as (w1 & -> & H1).
  unfold prisma_folder_delete, bind, get_db, put_db, throw, ret. simpl.
  rewrite H1, Hg. eexists. split; reflexivity.
Qed.

(** C6. Folder cascade. Deleting a folder the requesting shop owns
    succeeds, removes the folder row, and leaves no File row that
    references the folder: every row that did is gone, so looking it up
    finds nothing for any shop, and every other row is kept as it was.
    Holds for both revisions of the action. *)
Theorem C6_delete_folder_cascades e fd w id g :
  intent_is fd "delete-folder" = true →
  fd_get "folderId" fd = Some (FText id) → id ≠ "" →
  folders (db w) !! id = Some g → Folder.shop g = session_shop e →
  ∃ w', action e fd w = (Ok RSuccess, w')
    ∧ action_folders e fd w = (Ok RSuccess, w')
    ∧ folders (db w') !! id = None
    ∧ (∀ k f, files (db w') !! k = Some f → File.folderId f ≠ Some id)
    ∧ (∀ k f, files (db w) !! k = Some f → File.folderId f = Some id →
         files (db w') !! k = None
         ∧ ∀ s, prisma_file_findFirst k s w' = (Ok None, w'))
    ∧ (∀ k f, files (db w) !! k = Some f → File.folderId f ≠ Some id →
         files (db w') !! k = Some f).
Proof.
  intros Hi Hid Hne Hg Hs.
  destruct (action_delete_folder e fd w Hi) as [-> ->].
  destruct (delete_folder_intent_own e fd (ensured e w) id g) as (w' & -> & Hdb);
    try done.
  { by rewrite ensured_db. }
  assert (∀ k f, files (db (ensured e w)) !! k = Some f → File.folderId f = Some id →
            files (db w') !! k = None) as Hgone.
  { intros k f Hf Hfid. rewrite Hdb. simpl.
    apply map_lookup_filter_None. right. intros f' Hf'. simpl.
    intros Hn. apply Hn. congruence. }
  rewrite ensured_db in Hdb, Hgone.
  exists w'. split; [done|]. split; [done|]. split; [|split; [|split]].
  - rewrite Hdb. apply lookup_delete_eq.
  - intros k f. rewrite Hdb. simpl.
    intros [_ H]%map_lookup_filter_Some. exact H.
  - intros k f Hf Hfid. split; [by eapply Hgone|].
    intros s. apply findFirst_file_absent. by eapply Hgone.
  - intros k f Hf Hfid. rewrite Hdb. simpl.
    by apply map_lookup_filter_Some.
Qed.

Lemma C6_delete_folder_cascades_witness :
  ∃ w', action (sample_env "shop-a" 1700000001000 "x3")
          [("intent", FText "delete-folder"); ("folderId", FText "F1")]
          sample_world = (Ok RSuccess, w')
    ∧ files (db w') !! "x1" = None
    ∧ files (db w') !! "x2" = Some sample_file_b.
Proof.
  destruct (C6_delete_folder_cascades (sample_env "shop-a" 1700000001000 "x3")
              [("intent", FText "delete-folder"); ("folderId", FText "F1")]
              sample_world "F1" sample_folder_a)
    as (w' & Ha & _ & _ & _ & Hgone & Hkept); try reflexivity; try discriminate.
  exists w'. split; [exact Ha|]. split.
  - apply (Hgone "x1" sample_file_a); reflexivity.
  - apply (Hkept "x2" sample_file_b); [reflexivity | discriminate].
Defined.

(** ** Move File *)

Lemma file_update_run e id folderId w :
  prisma_file_update e id folderId w =
  match files (db w) !! id with
  | None => (Throw (StoreError "P2025"), w)
  | Some f =>
      if fk_ok (db w) folderId
      then (Ok tt, mkWorld (mkDb (<[id := set_folder (Date_now e) folderId f]> (files (db w)))
                                 (folders (db w))) (disk w))
      else (Throw (StoreError "P2003"), w)
  end.
Proof.
  unfold prisma_file_update, get_db, put_db, throw, bind. simpl.
  destruct (files (db w) !! id); [|done]. by destruct (fk_ok _ _).
Qed.

(** The move handler, step by step. *)
Lemma move_file_intent_eq e fd w k :
  fd_get "fileId" fd = Some (FText k) →
  move_file_intent e fd w =
  if truthy_str k then
    match files (db w) !! k with
    | Some f =>
        if decide (File.shop f = session_shop e) then
          if fk_ok (db w) (folderId_field fd)
          then (Ok RSuccess,
                mkWorld (mkDb (<[k := set_folder (Date_now e) (folderId_field fd) f]>
                                 (files (db w)))
                              (folders (db w))) (disk w))
          else (Throw (StoreError "P2003"), w)
        else (Ok (RError "File not found"), w)
    | None => (Ok (RError "File not found"), w)
    end
  else (Ok (RError "No file ID provided"), w).
Proof.
  intros Hid. unfold move_file_intent. rewrite Hid. simpl.
  destruct (truthy_str k); [|done]. simpl.
  unfold bind at 1. unfold where_id, ret at 1.
  unfold bind at 1. rewrite findFirst_file_run.
  destruct (files (db w) !! k) as [f|] eqn:Hf; [|done].
  destruct (decide _); [|done].
  unfold bind. rewrite file_update_run, Hf.
  by destruct (fk_ok _ _).
Qed.

(** C9. Move File is a frame-preserving update. After a successful move
    (to a folder or to the root) the moved row differs from what it was in
    its folder reference, now the requested target, and its last-updated
    timestamp, now the current time, and in nothing else: id, stored file
    name, original name, MIME type, size, storage path, shop and creation
    timestamp are the same. Every blob on disk, every other File row and
    every Folder row is untouched. Holds for both revisions. *)
Theorem C9_move_changes_folder_only e fd w w' k :
  intent_is fd "move-file" = true →
  fd_get "fileId" fd = Some (FText k) →
  action e fd w = (Ok RSuccess, w') →
  action_folders e fd w = (Ok RSuccess, w')
  ∧ blobs (disk w') = blobs (disk w)
  ∧ folders (db w') = folders (db w)
  ∧ (∀ k', k' ≠ k → files (db w') !! k' = files (db w) !! k')
  ∧ ∃ f f',
      files (db w) !! k = Some f ∧ files (db w') !! k = Some f'
      ∧ File.id f' = File.id f
      ∧ File.filename f' = File.filename f
      ∧ File.originalName f' = File.originalName f
      ∧ File.mimeType f' = File.mimeType f
      ∧ File.size f' = File.size f
      ∧ File.path f' = File.path f
      ∧ File.shop f' = File.shop f
      ∧ File.createdAt f' = File.createdAt f
      ∧ File.folderId f' = folderId_field fd
      ∧ File.updatedAt f' = Date_now e.
Proof.
  intros Hi Hid. destruct (action_move_file e fd w Hi) as [-> ->].
  rewrite (move_file_intent_eq e fd _ k Hid), ensured_db.
  destruct (truthy_str k); [|done].
  destruct (files (db w) !! k) as [f|] eqn:Hf; [|done].
  destruct (decide _); [|done].
  destruct (fk_ok _ _); [|done].
  intros [= <-]. simpl. split; [done|]. split; [apply ensured_blobs|].
  split; [done|]. split.
  - intros k' Hne. by rewrite lookup_insert_ne.
  - exists f, (set_folder (Date_now e) (folderId_field fd) f).
    rewrite lookup_insert_eq. by repeat split.
Qed.

Lemma C9_move_changes_folder_only_witness :
  ∃ w' f',
    action (sample_env "shop-a" 1700000001000 "x3")
      [("intent", FText "move-file"); ("fileId", FText "x1")] sample_world
      = (Ok RSuccess, w')
    ∧ files (db w') !! "x1" = Some f'
    ∧ File.folderId f' = None
    ∧ File.size f' = 10
    ∧ blobs (disk w') = blobs (disk sample_world).
Proof.
  eexists. 
  destruct (C9_move_changes_folder_only (sample_env "shop-a" 1700000001000 "x3")
    [("intent", FText "move-file"); ("fileId", FText "x1")] sample_world
    _ "x1" eq_refl eq_refl eq_refl)
    as (_ & Hb & _ & _ & f & f' & Hf & Hf' & _ & _ & _ & _ & Hsz & _ & _ & _ & Hfo & _).
  exists f'. split; [reflexivity|]. split; [exact Hf'|]. split; [exact Hfo|].
  split; [|exact Hb].
  rewrite Hsz. injection Hf as <-. reflexivity.
Defined.

(** ** Loops *)

(** A relation between worlds that every round of a loop respects is
    respected by the whole loop, however it ends. *)
Lemma for_of_respects {A} (R : World → World → Prop) (f : A → M unit) l :
  (∀ w, R w w) →
  (∀ w1 w2 w3, R w1 w2 → R w2 w3 → R w1 w3) →
  (∀ x w r w', x ∈ l → f x w = (r, w') → R w w') →
  ∀ w r w', for_of l f w = (r, w') → R w w'.
Proof.
  intros Hrefl Htrans. induction l as [|x l IH]; intros Hstep w r w'; simpl.
  - intros [= _ <-]. apply Hrefl.
  - unfold bind. destruct (f x w) as [[[]|err] w1] eqn:Hx.
    + intros Hl. eapply Htrans.
      * eapply Hstep; [left|exact Hx].
      * eapply IH; [|exact Hl]. intros y ? ? ? Hy. apply Hstep. by right.
    + intros [= _ <-]. eapply Hstep; [left|exact Hx].
Qed.

(** ** Empty folder identifier *)

Lemma moved_to_root_refl w : moved_to_root w w.
Proof. intros k f' Hk. by left. Qed.

Lemma moved_to_root_trans w1 w2 w3 :
  moved_to_root w1 w2 → moved_to_root w2 w3 → moved_to_root w1 w3.
Proof.
  intros H12 H23 k f' Hk. destruct (H23 k f' Hk) as [H2|]; [|by right].
  by apply H12.
Qed.

Lemma bulk_move_file_to_root e id w r w' :
  bulk_move_file e None id w = (r, w') → moved_to_root w w'.
Proof.
  unfold bulk_move_file. rewrite file_update_run.
  destruct (files (db w) !! _) as [f|] eqn:Hf; simpl.
  - intros [= _ <-] k f'. simpl.
    destruct (decide (replace "file-" "" id = k)) as [<-|Hne].
    + rewrite lookup_insert_eq. intros [= <-]. by right.
    + rewrite lookup_insert_ne by done. by left.
  - intros [= _ <-]. apply moved_to_root_refl.
Qed.

Lemma blank_folderId_field fd fd' :
  blank_folderId fd fd' → folderId_field fd = None ∧ folderId_field fd' = None.
Proof. intros (_ & H1 & H2). unfold folderId_field. by rewrite H1, H2. Qed.

Lemma blank_folderId_intent fd fd' s :
  blank_folderId fd fd' → intent_is fd s = intent_is fd' s.
Proof. intros (H & _). unfold intent_is. by rewrite H. Qed.

(** ** Storage keys *)

Lemma pretty_N_go_dash_free x s : dash_free s → dash_free (pretty_N_go x s).
Proof.
  revert s. induction (N.lt_wf_0 x) as [x _ IH]; intros s Hs.
  destruct (decide (x = 0)) as [->|Hx].
  - by rewrite pretty_N_go_0.
  - rewrite pretty_N_go_step by lia. apply IH.
    + apply N.div_lt; lia.
    + split; [|done]. unfold pretty_N_char. by repeat case_match.
Qed.

(** The decimal rendering of the clock has no dash in it. *)
Lemma pretty_N_dash_free (x : N) : dash_free (pretty x).
Proof.
  unfold pretty, pretty_N. case_decide.
  - by split.
  - by apply pretty_N_go_dash_free.
Qed.

(** A dash-free prefix followed by a dash is read back unambiguously. *)
Lemma dash_split a1 a2 b1 b2 :
  dash_free a1 → dash_free a2 →
  a1 +:+ "-" +:+ b1 = a2 +:+ "-" +:+ b2 → a1 = a2 ∧ b1 = b2.
Proof.
  revert a2. induction a1 as [|c a1 IH]; intros [|c' a2]; simpl.
  - intros _ _ Heq. by simplify_eq/=.
  - intros _ [Hc _] Heq. by simplify_eq/=.
  - intros [Hc _] _ Heq. by simplify_eq/=.
  - intros [_ H1] [_ H2] Heq. injection Heq as -> Heq.
    destruct (IH a2 H1 H2 Heq) as [-> ->]. done.
Qed.

Lemma stored_name_inj t1 n1 t2 n2 :
  stored_name t1 n1 = stored_name t2 n2 ↔ t1 = t2 ∧ n1 = n2.
Proof.
  split; [|by intros [-> ->]].
  unfold stored_name. intros H.
  apply dash_split in H as [Ht ->]; try apply pretty_N_dash_free.
  split; [|done]. by apply (inj pretty).
Qed.

(** Two uploads named alike whose requests read the same millisecond get
    the same file name and path; the second write replaces the first
    payload. *)
Lemma C3_same_millisecond_collision : ¬ keys_never_collide.
Proof.
  intros H.
  refine (H (sample_env "shop-a" 1700000002000 "x3")
            (sample_env "shop-b" 1700000002000 "x4")
            (mkUpload "report.pdf" "application/pdf" invoice_bytes)
            (mkUpload "report.pdf" "application/pdf" [Byte.x61])
            sample_world
            ("1700000002000-report.pdf", "/srv/app/uploads/1700000002000-report.pdf")
            _ _ _ eq_refl eq_refl eq_refl).
Qed.

(** C3 (amended). The storage key of a write is the stored file name (the
    millisecond clock reading, a dash, the original name) and the path
    [path.join] makes of it under the upload directory. Of two successful
    writes of one process, one after the other: the stored names are equal
    exactly when the writes carry the same original name and read the same
    clock value; equal names give equal paths; whenever the paths are
    equal the second write has replaced the first blob, and reading the
    path gives the second payload; when the paths differ both payloads
    are kept. *)
Theorem C3_storage_keys_of_two_writes e1 e2 f1 f2 b1 b2 w name1 p1 w1 name2 p2 w2 :
  join e2 = join e1 → cwd e2 = cwd e1 →
  saveFile e1 f1 b1 w = (Ok (name1, p1), w1) →
  saveFile e2 f2 b2 w1 = (Ok (name2, p2), w2) →
  (name1 = name2 ↔ Date_now e1 = Date_now e2 ∧ up_name f1 = up_name f2)
  ∧ p1 = join e1 (UPLOAD_DIR e1) name1
  ∧ p2 = join e1 (UPLOAD_DIR e1) name2
  ∧ (name1 = name2 → p1 = p2)
  ∧ (p1 = p2 → readFileBuffer p1 w2 = (Ok b2, w2))
  ∧ (p1 ≠ p2 →
     readFileBuffer p1 w2 = (Ok b1, w2) ∧ readFileBuffer p2 w2 = (Ok b2, w2)).
Proof.
  intros Hjoin Hcwd. rewrite !saveFile_eq, !writeFile_run.
  destruct (_ || _); [done|]. intros [= <- <- <-].
  destruct (_ || _); [done|]. intros [= <- <- <-].
  assert (upload_path e2 f2
          = join e1 (UPLOAD_DIR e1) (stored_name (Date_now e2) (up_name f2))) as Hp2.
  { unfold upload_path, UPLOAD_DIR. by rewrite Hjoin, Hcwd. }
  rewrite !readFileBuffer_run. cbn [db disk blobs]. rewrite ensured_blobs.
  cbn [disk blobs].
  split; [apply stored_name_inj|]. split; [done|]. split; [done|].
  split; [|split].
  - rewrite Hp2. unfold upload_path. by intros ->.
  - intros ->. by rewrite lookup_insert_eq.
  - intros Hne. rewrite lookup_insert_ne by done.
    by rewrite !lookup_insert_eq.
Qed.

Lemma C3_storage_keys_of_two_writes_witness :
  readFileBuffer "/srv/app/uploads/1700000002000-report.pdf"
    (saveFile (sample_env "shop-b" 1700000002000 "x4")
       (mkUpload "report.pdf" "application/pdf" [Byte.x61]) [Byte.x61]
       (saveFile (sample_env "shop-a" 1700000002000 "x3")
          (mkUpload "report.pdf" "application/pdf" invoice_bytes) invoice_bytes
          sample_world).2).2
  = (Ok [Byte.x61],
     (saveFile (sample_env "shop-b" 1700000002000 "x4")
        (mkUpload "report.pdf" "application/pdf" [Byte.x61]) [Byte.x61]
        (saveFile (sample_env "shop-a" 1700000002000 "x3")
           (mkUpload "report.pdf" "application/pdf" invoice_bytes) invoice_bytes
           sample_world).2).2).
Proof.
  destruct (C3_storage_keys_of_two_writes
              (sample_env "shop-a" 1700000002000 "x3")
              (sample_env "shop-b" 1700000002000 "x4")
              (mkUpload "report.pdf" "application/pdf" invoice_bytes)
              (mkUpload "report.pdf" "application/pdf" [Byte.x61])
              invoice_bytes [Byte.x61] sample_world
              "1700000002000-report.pdf"
              "/srv/app/uploads/1700000002000-report.pdf" _
              "1700000002000-report.pdf"
              "/srv/app/uploads/1700000002000-report.pdf" _
              eq_refl eq_refl eq_refl eq_refl)
    as (_ & _ & _ & _ & Hover & _).
  apply Hover. reflexivity.
Defined.

(** ** Tenant isolation *)

Lemma findFirst_file_not_mine e w k :
  not_my_file e w k → prisma_file_findFirst k (session_shop e) w = (Ok None, w).
Proof.
  intros H. rewrite findFirst_file_run.
  destruct (files (db w) !! k) as [f|] eqn:Hf; [|done].
  by rewrite decide_False by (by apply H).
Qed.

Lemma findFirst_folder_not_mine e w k :
  not_my_folder e w k → prisma_folder_findFirst k (session_shop e) w = (Ok None, w).
Proof.
  intros H. unfold prisma_folder_findFirst, get_db, ret, bind.
  destruct (folders (db w) !! k) as [g|] eqn:Hg; [|done].
  by rewrite decide_False by (by apply H).
Qed.

Lemma delete_intent_not_mine e fd w k :
  fd_get "fileId" fd = Some (FText k) → k ≠ "" → not_my_file e w k →
  delete_intent e fd w = (Ok (RError "File not found"), w).
Proof.
  intros Hid Hk Hn. unfold delete_intent. rewrite Hid.
  assert (truthy (Some (FText k)) = true) as -> by (by destruct k).
  simpl. unfold bind at 1. unfold where_id, ret at 1.
  unfold bind. by rewrite findFirst_file_not_mine.
Qed.

Lemma move_file_intent_not_mine e fd w k :
  fd_get "fileId" fd = Some (FText k) → k ≠ "" → not_my_file e w k →
  move_file_intent e fd w = (Ok (RError "File not found"), w).
Proof.
  intros Hid Hk Hn. rewrite (move_file_intent_eq e fd w k Hid).
  assert (truthy_str k = true) as -> by (by destruct k).
  destruct (files (db w) !! k) as [f|] eqn:Hf; [|done].
  by rewrite decide_False by (by apply Hn).
Qed.

Lemma delete_folder_intent_not_mine e fd w k :
  fd_get "folderId" fd = Some (FText k) → k ≠ "" → not_my_folder e w k →
  delete_folder_intent e fd w = (Ok (RError "Folder not found"), w).
Proof.
  intros Hid Hk Hn. unfold delete_folder_intent. rewrite Hid.
  assert (truthy (Some (FText k)) = true) as -> by (by destruct k).
  simpl. unfold bind at 1. unfold where_id, ret at 1.
  unfold bind. by rewrite findFirst_folder_not_mine.
Qed.

(** A loop whose every round is a no-op on this world is a no-op. *)
Lemma for_of_skip {A} (f : A → M unit) l w :
  (∀ x, x ∈ l → f x w = (Ok tt, w)) → for_of l f w = (Ok tt, w).
Proof.
  induction l as [|x l IH]; intros H; simpl; [done|].
  unfold bind. rewrite H by left. apply IH. intros y Hy. apply H. by right.
Qed.

Lemma all_strings_fmap ids : all_strings (IStr <$> ids) = Some ids.
Proof.
  induction ids as [|s ids IH]; [done|].
  rewrite fmap_cons. simpl. by rewrite IH.
Qed.

Lemma elem_of_List_filter {A} (f : A → bool) (l : list A) x :
  x ∈ List.filter f l ↔ x ∈ l ∧ f x = true.
Proof. rewrite !list_elem_of_In. apply List.filter_In. Qed.

Lemma bulk_delete_intent_not_mine e fd w v ids :
  fd_get "itemIds" fd = Some v → truthy (Some v) = true →
  JSON_parse e (toString v) = JArray (IStr <$> ids) →
  (∀ id, id ∈ ids → startsWith "file-" id = true →
     not_my_file e w (replace "file-" "" id)) →
  (∀ id, id ∈ ids → startsWith "folder-" id = true →
     not_my_folder e w (replace "folder-" "" id)) →
  bulk_delete_intent e fd w = (Ok RSuccess, w).
Proof.
  intros Hv Ht Hp Hfiles Hfolders. unfold bulk_delete_intent. rewrite Hv, Ht, Hp.
  cbn [negb]. cbv beta iota. rewrite all_strings_fmap. unfold bind at 1.
  rewrite for_of_skip.
  2:{ intros id [Hid Hpre]%elem_of_List_filter. unfold bulk_delete_file, bind.
      rewrite findFirst_file_not_mine; [done|]. by apply Hfiles. }
  unfold bind. rewrite for_of_skip; [done|].
  intros id [Hid Hpre]%elem_of_List_filter. unfold bulk_delete_folder, bind.
  rewrite findFirst_folder_not_mine; [done|]. by apply Hfolders.
Qed.

Lemma folder_files_loader_not_mine e w k :
  not_my_folder e w k →
  folder_files_loader e k w
  = (Throw (Thrown (mkResponse 404 (BText "Folder not found") [])), w).
Proof.
  intros Hn. unfold folder_files_loader, bind.
  by rewrite findFirst_folder_not_mine.
Qed.

(** C1 as stated fails on bulk-delete: shop "shop-b" naming the file of
    "shop-a" is answered [{ success: true }], not "not found". *)
Lemma C1_bulk_delete_reports_success :
  files (db sample_world) !! "x1" = Some sample_file_a
  ∧ File.shop sample_file_a ≠ "shop-b"
  ∧ ¬ answers_not_found
        (action (sample_env "shop-b" 1700000001000 "x3")
           [("intent", FText "bulk-delete");
            ("itemIds", FText (stringify_ids ["file-x1"]))]
           sample_world).1.
Proof.
  split; [reflexivity|]. split; [discriminate|].
  assert ((action (sample_env "shop-b" 1700000001000 "x3")
             [("intent", FText "bulk-delete");
              ("itemIds", FText (stringify_ids ["file-x1"]))]
             sample_world).1 = Ok RSuccess) as -> by (vm_compute; reflexivity).
  intros [H|H]; discriminate H.
Qed.

(** The bulk-move loop updates by id alone: shop "shop-b" naming the file
    of "shop-a" moves it out of its folder and is answered
    [{ success: true }]. The single move looks the row up with the shop
    first and answers "File not found" on the same request. *)
Lemma bulk_move_crosses_shops :
  (action (sample_env "shop-b" 1700000001000 "x3")
     [("intent", FText "bulk-move"); ("fileIds", FText (stringify_ids ["file-x1"]))]
     sample_world).1 = Ok RSuccess
  ∧ files (db (action (sample_env "shop-b" 1700000001000 "x3")
     [("intent", FText "bulk-move"); ("fileIds", FText (stringify_ids ["file-x1"]))]
     sample_world).2) !! "x1"
    = Some (set_folder 1700000001000 None sample_file_a)
  ∧ (action (sample_env "shop-b" 1700000001000 "x3")
     [("intent", FText "move-file"); ("fileId", FText "x1")]
     sample_world).1 = Ok (RError "File not found").
Proof. repeat split; vm_compute; reflexivity. Qed.

(** C1 (amended). Tenant isolation of the single-item operations and of
    bulk-delete. For an identifier [k] that names no row of the requesting
    shop (a row of another shop, or none): the download loader and the
    folder-files loader throw 404 and change nothing; delete and move-file
    answer "File not found", delete-folder answers "Folder not found"; a
    bulk-delete whose items all name such rows answers success. In every
    case both tables and every blob are what they were. *)
Theorem C1_foreign_rows_are_not_found e w k :
  k ≠ "" →
  (not_my_file e w k →
     is_404 (download_loader e k w).1 ∧ (download_loader e k w).2 = w
     ∧ ∀ fd, fd_get "fileId" fd = Some (FText k) →
         intent_is fd "delete" = true ∨ intent_is fd "move-file" = true →
         action e fd w = (Ok (RError "File not found"), ensured e w))
  ∧ (not_my_folder e w k →
     is_404 (folder_files_loader e k w).1 ∧ (folder_files_loader e k w).2 = w
     ∧ ∀ fd, fd_get "folderId" fd = Some (FText k) →
         intent_is fd "delete-folder" = true →
         action e fd w = (Ok (RError "Folder not found"), ensured e w))
  ∧ (∀ fd v ids,
       intent_is fd "bulk-delete" = true →
       fd_get "itemIds" fd = Some v → truthy (Some v) = true →
       JSON_parse e (toString v) = JArray (IStr <$> ids) →
       (∀ id, id ∈ ids → startsWith "file-" id = true →
          not_my_file e w (replace "file-" "" id)) →
       (∀ id, id ∈ ids → startsWith "folder-" id = true →
          not_my_folder e w (replace "folder-" "" id)) →
       action e fd w = (Ok RSuccess, ensured e w))
  ∧ db (ensured e w) = db w
  ∧ blobs (disk (ensured e w)) = blobs (disk w).
Proof.
  intros Hk. split; [|split; [|split; [|split]]].
  - intros Hn. rewrite download_loader_eq.
    assert (not_my_file e (ensured e w) k) as Hn'.
    { intros f. rewrite ensured_db. apply Hn. }
    split; [|split].
    + destruct (files (db w) !! k) as [f|] eqn:Hf.
      * rewrite decide_False by (by apply Hn). eexists. by split.
      * eexists. by split.
    + destruct (files (db w) !! k) as [f|] eqn:Hf; [|done].
      by rewrite decide_False by (by apply Hn).
    + intros fd Hid [Hi|Hi].
      * destruct (action_delete e fd w Hi) as [-> _].
        by apply (delete_intent_not_mine e fd _ k).
      * destruct (action_move_file e fd w Hi) as [-> _].
        by apply (move_file_intent_not_mine e fd _ k).
  - intros Hn. rewrite folder_files_loader_not_mine by done.
    split; [eexists; by split|]. split; [done|].
    intros fd Hid Hi. destruct (action_delete_folder e fd w Hi) as [-> _].
    apply (delete_folder_intent_not_mine e fd _ k); try done.
    intros g. rewrite ensured_db. apply Hn.
  - intros fd v ids Hi Hv Ht Hp Hfiles Hfolders.
    rewrite (action_bulk_delete e fd w Hi).
    apply (bulk_delete_intent_not_mine e fd _ v ids); try done.
    + intros id Hid Hpre f. rewrite ensured_db. by apply Hfiles.
    + intros id Hid Hpre g. rewrite ensured_db. by apply Hfolders.
  - apply ensured_db.
  - apply ensured_blobs.
Qed.

Lemma C1_foreign_rows_are_not_found_witness :
  is_404 (download_loader (sample_env "shop-b" 1700000001000 "x3") "x1"
            sample_world).1
  ∧ action (sample_env "shop-b" 1700000001000 "x3")
      [("intent", FText "delete"); ("fileId", FText "x1")] sample_world
    = (Ok (RError "File not found"),
       ensured (sample_env "shop-b" 1700000001000 "x3") sample_world)
  ∧ action (sample_env "shop-b" 1700000001000 "x3")
      [("intent", FText "bulk-delete");
       ("itemIds", FText (stringify_ids ["file-x1"]))] sample_world
    = (Ok RSuccess,
       ensured (sample_env "shop-b" 1700000001000 "x3") sample_world)
  ∧ db (ensured (sample_env "shop-b" 1700000001000 "x3") sample_world)
    = db sample_world.
Proof.
  destruct (C1_foreign_rows_are_not_found
              (sample_env "shop-b" 1700000001000 "x3") sample_world "x1")
    as (Hfile & _ & Hbulk & Hdb & _); [discriminate|].
  destruct Hfile as (H404 & _ & Hact).
  { intros f Hf. injection Hf as <-. discriminate. }
  split; [exact H404|]. split; [|split; [|exact Hdb]].
  - apply Hact; [reflexivity|left; reflexivity].
  - apply (Hbulk _ (FText (stringify_ids ["file-x1"])) ["file-x1"]);
      try reflexivity.
    + intros id ->%list_elem_of_singleton _ f Hf.
      injection Hf as <-. discriminate.
    + intros id ->%list_elem_of_singleton Hpre. discriminate Hpre.
Defined.

(** ** Folder references stay within a shop *)

Lemma moved_only_refl named target w : moved_only named target w w.
Proof. split; [done|]. intros k f' Hk. exists f'. auto. Qed.

Lemma moved_only_trans named target w1 w2 w3 :
  moved_only named target w1 w2 → moved_only named target w2 w3 →
  moved_only named target w1 w3.
Proof.
  intros [Hf12 H12] [Hf23 H23]. split; [congruence|].
  intros k f3 Hk. destruct (H23 k f3 Hk) as (f2 & H2 & Hs2 & Hc2).
  destruct (H12 k f2 H2) as (f1 & H1 & Hs1 & Hc1).
  exists f1. split; [done|]. split; [congruence|].
  destruct Hc2 as [->|?]; [|by right]. done.
Qed.

Lemma file_update_moved_only (named : string → Prop) e k target w r w' :
  named k → prisma_file_update e k target w = (r, w') →
  moved_only named target w w'.
Proof.
  intros Hn. rewrite file_update_run.
  destruct (files (db w) !! k) as [f|] eqn:Hf.
  2:{ intros [= _ <-]. apply moved_only_refl. }
  destruct (fk_ok _ _).
  2:{ intros [= _ <-]. apply moved_only_refl. }
  intros [= _ <-]. split; [done|]. simpl. intros k' f'.
  destruct (decide (k = k')) as [<-|Hne].
  - rewrite lookup_insert_eq. intros [= <-]. exists f. auto.
  - rewrite lookup_insert_ne by done. intros Hk'. exists f'. auto.
Qed.

Lemma moved_only_same_shop named target e w w' :
  moved_only named target w w' →
  folder_same_shop (db w) →
  (∀ fid, target = Some fid →
     ∃ g, folders (db w) !! fid = Some g ∧ Folder.shop g = session_shop e) →
  (∀ k f, named k → files (db w) !! k = Some f → File.shop f = session_shop e) →
  folder_same_shop (db w').
Proof.
  intros [Hfo Hrows] Hinv Htarget Hown k f' fid Hk Hfid.
  destruct (Hrows k f' Hk) as (f & Hf & Hs & [->|[Ht Hn]]).
  - rewrite Hfo. by eapply Hinv.
  - rewrite Hfo. destruct (Htarget fid) as (g & Hg & Hgs); [congruence|].
    exists g. split; [done|]. rewrite <- Hs, Hgs. symmetry. by eapply Hown.
Qed.

Lemma or_null_folderId_field fd : or_null (folderId_field fd) = folderId_field fd.
Proof.
  unfold folderId_field. destruct (fd_get "folderId" fd) as [v|]; [|done].
  destruct (truthy_str (toString v)) eqn:Ht; [|done]. simpl. by rewrite Ht.
Qed.

(** What the move handler may do to the world, whatever the form holds. *)
Lemma move_file_intent_moved_only e fd w :
  moved_only (λ k, ∃ f, files (db w) !! k = Some f ∧ File.shop f = session_shop e)
    (folderId_field fd) w (move_file_intent e fd w).2.
Proof.
  destruct (fd_get "fileId" fd) as [[k|file]|] eqn:Hid.
  - rewrite (move_file_intent_eq e fd w k Hid).
    destruct (truthy_str k); [|apply moved_only_refl].
    destruct (files (db w) !! k) as [f|] eqn:Hf; [|apply moved_only_refl].
    destruct (decide _) as [Hs|]; [|apply moved_only_refl].
    destruct (fk_ok _ _) eqn:Hfk; [|apply moved_only_refl].
    simpl. eapply (file_update_moved_only _ e k); [by eauto|].
    rewrite file_update_run, Hf, Hfk. reflexivity.
  - unfold move_file_intent. rewrite Hid. simpl. apply moved_only_refl.
  - unfold move_file_intent. rewrite Hid. simpl. apply moved_only_refl.
Qed.

(** What the bulk-move handler may do to the world. *)
Lemma bulk_move_intent_moved_only e fd w :
  moved_only (bulk_move_names e fd) (folderId_field fd) w
    (bulk_move_intent e fd w).2.
Proof.
  unfold bulk_move_intent.
  destruct (fd_get "fileIds" fd) as [v|] eqn:Hv; [|apply moved_only_refl].
  destruct (negb _); [apply moved_only_refl|].
  destruct (JSON_parse e (toString v)) as [l|s| |] eqn:Hp;
    try apply moved_only_refl.
  - unfold bind.
    match goal with |- context [for_of l ?f w] =>
      destruct (for_of l f w) as [r w1] eqn:Hl;
      assert (moved_only (bulk_move_names e fd) (folderId_field fd) w w1) as Hw1
    end.
    { revert Hl. apply for_of_respects;
        [apply moved_only_refl | apply moved_only_trans |].
      intros [id|] w2 r2 w3 Hin.
      - apply file_update_moved_only. exists v, id. rewrite Hp. simpl.
        split; [done|]. split; [|done].
        apply list_elem_of_omap. exists (IStr id). done.
      - intros [= _ <-]. apply moved_only_refl. }
    by destruct r as [[]|].
  - unfold bind.
    destruct (for_of (chars s) (bulk_move_file e (folderId_field fd)) w)
      as [r w1] eqn:Hl.
    assert (moved_only (bulk_move_names e fd) (folderId_field fd) w w1) as Hw1.
    { revert Hl. apply for_of_respects;
        [apply moved_only_refl | apply moved_only_trans |].
      intros id w2 r2 w3 Hin.
      apply file_update_moved_only. exists v, id. rewrite Hp. done. }
    by destruct r as [[]|].
Qed.

Lemma sample_world_same_shop : folder_same_shop (db sample_world).
Proof.
  intros k f fid. simpl.
  intros [[<- <-]|[_ [[<- <-]|[_ H]]%lookup_insert_Some]]%lookup_insert_Some;
    [| |by rewrite lookup_empty in H].
  - intros [= <-]. exists sample_folder_a. done.
  - discriminate.
Qed.

(** C2 as stated fails: no handler checks whose folder the target is. Shop
    "shop-b" moves its own file "x2" into folder "F1" of "shop-a"; the
    move succeeds and leaves a File row of one shop inside a Folder row of
    another. *)
Lemma C2_move_into_foreign_folder :
  folder_same_shop (db sample_world)
  ∧ (action (sample_env "shop-b" 1700000001000 "x3")
       [("intent", FText "move-file"); ("fileId", FText "x2");
        ("folderId", FText "F1")] sample_world).1 = Ok RSuccess
  ∧ ¬ folder_same_shop
        (db (action (sample_env "shop-b" 1700000001000 "x3")
               [("intent", FText "move-file"); ("fileId", FText "x2");
                ("folderId", FText "F1")] sample_world).2).
Proof.
  split; [apply sample_world_same_shop|]. split; [vm_compute; reflexivity|].
  intros H.
  destruct (H "x2" (set_folder 1700000001000 (Some "F1") sample_file_b) "F1")
    as (g & Hg & Hs); [vm_compute; reflexivity | reflexivity |].
  assert (g = sample_folder_a) as ->.
  { revert Hg. vm_compute. congruence. }
  discriminate Hs.
Qed.

Lemma upload_intent_same_shop e fd w :
  folder_same_shop (db w) → target_in_shop e (db w) fd →
  folder_same_shop (db (upload_intent e fd w).2).
Proof.
  intros Hinv Ht.
  destruct (fd_get "file" fd) as [[s|file]|] eqn:Hfile;
    try (unfold upload_intent; rewrite Hfile; done).
  destruct (upload_intent_run e fd w file Hfile)
    as (r & w' & -> & [(_ & Hdb & _) | [(_ & Hdb & _) |
         (rec & _ & Hf & Hfo & Hfresh & _ & Hs & _ & Hfid & _)]]); simpl;
    try (by rewrite Hdb).
  rewrite or_null_folderId_field in Hfid.
  intros k f fid. rewrite Hf, Hfo.
  destruct (decide (fresh_id e = k)) as [<-|Hne].
  - rewrite lookup_insert_eq. intros [= <-] Hrec.
    destruct (Ht fid) as (g & Hg & Hgs); [congruence|].
    exists g. split; [done|]. congruence.
  - rewrite lookup_insert_ne by done. apply Hinv.
Qed.

(** C2 (amended). The handlers do not look at the owner of the target
    folder; what they preserve is conditional on it. If every File row
    with a folder reference points at a Folder row of its own shop, and the
    folder the request names (if any) is a folder of the requesting shop,
    then the same holds after an upload and after a move-file, whatever
    their outcome; and after a bulk-move whose listed files are files of
    the requesting shop. *)
Theorem C2_own_target_keeps_folders_in_shop e fd w :
  folder_same_shop (db w) → target_in_shop e (db w) fd →
  (intent_is fd "upload" = true ∨ intent_is fd "move-file" = true →
     folder_same_shop (db (action e fd w).2)
     ∧ action_folders e fd w = action e fd w)
  ∧ (intent_is fd "bulk-move" = true →
     (∀ k f, bulk_move_names e fd k → files (db w) !! k = Some f →
        File.shop f = session_shop e) →
     folder_same_shop (db (action e fd w).2)).
Proof.
  intros Hinv Ht.
  assert (folder_same_shop (db (ensured e w))) as Hinv'
    by (by rewrite ensured_db).
  assert (target_in_shop e (db (ensured e w)) fd) as Ht'
    by (by rewrite ensured_db).
  split.
  - intros [Hi|Hi].
    + destruct (action_upload e fd w Hi) as [-> ->]. split; [|done].
      by apply upload_intent_same_shop.
    + destruct (action_move_file e fd w Hi) as [-> ->]. split; [|done].
      eapply moved_only_same_shop;
        [apply move_file_intent_moved_only | done | apply Ht' |].
      intros k f (f0 & Hf0 & Hs) Hf. congruence.
  - intros Hi Hown. rewrite (action_bulk_move e fd w Hi).
    eapply moved_only_same_shop;
      [apply bulk_move_intent_moved_only | done | apply Ht' |].
    intros k f Hn. rewrite ensured_db. by apply Hown.
Qed.

Lemma C2_own_target_keeps_folders_in_shop_witness :
  (action (sample_env "shop-a" 1700000001000 "x3")
     [("intent", FText "upload"); ("folderId", FText "F1");
      ("file", FFile (mkUpload "b.pdf" "application/pdf" invoice_bytes))]
     sample_world).1
  = Ok (RSuccessFile
          (File.mk "x3" "1700000001000-b.pdf" "b.pdf" "application/pdf" 10
             "/srv/app/uploads/1700000001000-b.pdf" "shop-a" (Some "F1")
             1700000001000 1700000001000))
  ∧ folder_same_shop
      (db (action (sample_env "shop-a" 1700000001000 "x3")
             [("intent", FText "upload"); ("folderId", FText "F1");
              ("file", FFile (mkUpload "b.pdf" "application/pdf" invoice_bytes))]
             sample_world).2).
Proof.
  split; [vm_compute; reflexivity|].
  destruct (C2_own_target_keeps_folders_in_shop
           (sample_env "shop-a" 1700000001000 "x3")
           [("intent", FText "upload"); ("folderId", FText "F1");
            ("file", FFile (mkUpload "b.pdf" "application/pdf" invoice_bytes))]
           sample_world) as [H _].
  - apply sample_world_same_shop.
  - intros fid [= <-]. exists sample_folder_a. split; reflexivity.
  - destruct (H (or_introl eq_refl)) as [Hres _]. exact Hres.
Defined.

(** ** Bulk Delete *)

Lemma only_deleted_refl w : only_deleted w w.
Proof. by split. Qed.

Lemma only_deleted_trans w1 w2 w3 :
  only_deleted w1 w2 → only_deleted w2 w3 → only_deleted w1 w3.
Proof. intros [Hd1 H1] [Hd2 H2]. split; [congruence|]. eauto. Qed.

Lemma only_deleted_gone w w' k :
  only_deleted w w' → files (db w) !! k = None → files (db w') !! k = None.
Proof.
  intros [_ H] Hk. destruct (files (db w') !! k) as [f|] eqn:Hf; [|done].
  apply H in Hf. congruence.
Qed.

(** [deleteFile], outcome by outcome. *)
Lemma deleteFile_eq e p w :
  deleteFile e p w =
  if bool_decide (p ∈ dirs (disk w)) || bool_decide (is_Some (blobs (disk w) !! p))
  then if unlink_fails e p then (Throw IOError, w)
       else match blobs (disk w) !! p with
            | Some _ => (Ok tt, mkWorld (db w) (mkDisk (dirs (disk w))
                                                      (delete p (blobs (disk w)))))
            | None => (Throw IOError, w)
            end
  else (Ok tt, w).
Proof.
  unfold deleteFile, bind. rewrite existsSync_run.
  destruct (_ || _); [|done].
  unfold unlink, get_disk, put_disk, throw, bind. simpl.
  destruct (unlink_fails e p); [done|].
  by destruct (blobs (disk w) !! p).
Qed.

Lemma deleteFile_only_deleted e p w r w' :
  deleteFile e p w = (r, w') → db w' = db w ∧ dirs (disk w') = dirs (disk w).
Proof.
  rewrite deleteFile_eq. destruct (_ || _); [|by intros [= _ <-]].
  destruct (unlink_fails e p); [by intros [= _ <-]|].
  destruct (blobs (disk w) !! p); by intros [= _ <-].
Qed.

(** An unlink the disk allows, at a path that is not a directory, never
    throws. *)
Lemma deleteFile_allowed e p w :
  unlink_fails e p = false → p ∉ dirs (disk w) →
  ∃ w', deleteFile e p w = (Ok tt, w') ∧ db w' = db w
        ∧ dirs (disk w') = dirs (disk w).
Proof.
  intros Hu Hd. rewrite deleteFile_eq, Hu, (bool_decide_false _ Hd). simpl.
  destruct (blobs (disk w) !! p) as [b|] eqn:Hb.
  - rewrite bool_decide_true by eauto. eauto.
  - rewrite bool_decide_false by (by intros [? ?]). eauto.
Qed.

Lemma delete_blobs_only_deleted e (l : list File.t) w :
  ∃ w', for_of l (λ file, delete_blob_quietly e (File.path file)) w = (Ok tt, w')
        ∧ db w' = db w ∧ dirs (disk w') = dirs (disk w).
Proof.
  revert w. induction l as [|f l IH]; intros w; simpl.
  - by exists w.
  - unfold bind, delete_blob_quietly at 1, try_catch, console_error, ret.
    destruct (deleteFile e (File.path f) w) as [[[]|err] w1] eqn:Hd;
      destruct (deleteFile_only_deleted _ _ _ _ _ Hd) as [Hdb Hdirs];
      destruct (IH w1) as (w2 & -> & Hdb2 & Hdirs2);
      exists w2; repeat split; congruence.
Qed.

Lemma file_delete_run k w :
  prisma_file_delete k w =
  match files (db w) !! k with
  | Some _ => (Ok tt, mkWorld (mkDb (delete k (files (db w))) (folders (db w))) (disk w))
  | None => (Throw (StoreError "P2025"), w)
  end.
Proof.
  unfold prisma_file_delete, get_db, put_db, throw, bind. simpl.
  by destruct (files (db w) !! k).
Qed.

(** One round of the file loop never throws and only deletes. *)
Lemma bulk_delete_file_run e id w :
  ∃ w', bulk_delete_file e id w = (Ok tt, w') ∧ only_deleted w w'.
Proof.
  unfold bulk_delete_file, bind. rewrite findFirst_file_run.
  destruct (files (db w) !! replace "file-" "" id) as [f|] eqn:Hf;
    [|by exists w; split; [|apply only_deleted_refl]].
  destruct (decide _); [|by exists w; split; [|apply only_deleted_refl]].
  unfold try_catch, console_error, ret.
  destruct (deleteFile e (File.path f) w) as [[[]|err] w1] eqn:Hd;
    destruct (deleteFile_only_deleted _ _ _ _ _ Hd) as [Hdb Hdirs]; simpl.
  - rewrite file_delete_run, Hdb, Hf. eexists. split; [reflexivity|].
    split; [done|]. simpl. intros k f'.
    intros [_ ?]%lookup_delete_Some. done.
  - exists w1. split; [done|]. split; [done|]. by rewrite Hdb.
Qed.

(** One round of the folder loop never throws and only deletes. *)
Lemma bulk_delete_folder_run e id w :
  ∃ w', bulk_delete_folder e id w = (Ok tt, w') ∧ only_deleted w w'.
Proof.
  unfold bulk_delete_folder. unfold bind at 1.
  unfold prisma_folder_findFirst, get_db, ret, bind at 1.
  destruct (folders (db w) !! replace "folder-" "" id) as [g|] eqn:Hg;
    [|by exists w; split; [|apply only_deleted_refl]].
  destruct (decide _); [|by exists w; split; [|apply only_deleted_refl]].
  unfold bind.
  destruct (delete_blobs_only_deleted e
              (files_of (replace "folder-" "" id) (files (db w))) w)
    as (w1 & -> & Hdb & Hdirs).
  unfold prisma_folder_delete, get_db, put_db, throw, bind. simpl.
  rewrite Hdb, Hg. eexists. split; [reflexivity|].
  split; [done|]. simpl. intros k f' [? _]%map_lookup_filter_Some. done.
Qed.

(** A loop of rounds that never throw ends normally; a relation every
    round respects holds between its ends, and what one round establishes
    and the relation preserves holds at the end. *)
Lemma for_of_total {A} (R : World → World → Prop) (P : World → Prop)
    (f : A → M unit) l y w0 :
  (∀ w, R w w) →
  (∀ w1 w2 w3, R w1 w2 → R w2 w3 → R w1 w3) →
  (∀ x w, ∃ w', f x w = (Ok tt, w') ∧ R w w') →
  (∀ w w', R w w' → P w → P w') →
  (∀ w w', R w0 w → f y w = (Ok tt, w') → P w') →
  ∀ w, R w0 w →
    ∃ w', for_of l f w = (Ok tt, w') ∧ R w w' ∧ (y ∈ l ∨ P w → P w').
Proof.
  intros Hrefl Htrans Hstep Hkeep Hhit.
  induction l as [|x l IH]; intros w Hw; simpl.
  - exists w. split; [done|]. split; [apply Hrefl|].
    intros [Hy|Hp]; [by apply elem_of_nil in Hy|done].
  - unfold bind. destruct (Hstep x w) as (w1 & Hx & H1). rewrite Hx.
    destruct (IH w1) as (w2 & -> & H2 & Hp2); [by eapply Htrans|].
    exists w2. split; [done|]. split; [by eapply Htrans|].
    intros [[->|Hy]%elem_of_cons|Hp]; apply Hp2.
    + right. by eapply Hhit.
    + by left.
    + right. by eapply Hkeep.
Qed.

Lemma replace_file_prefix k : replace "file-" "" ("file-" +:+ k) = k.
Proof. by destruct k. Qed.

Lemma startsWith_file_prefix k : startsWith "file-" ("file-" +:+ k) = true.
Proof. by destruct k. Qed.

(** What does hold of bulk-delete. Whatever else the request lists (absent
    rows, rows of other shops, rows listed twice), it answers success, and
    a listed file of the requesting shop loses its metadata row, provided
    the disk lets its blob go: the unlink is not refused and the stored
    path is not a directory. *)
Lemma bulk_delete_removes_listed_file e fd w v ids k r :
  intent_is fd "bulk-delete" = true →
  fd_get "itemIds" fd = Some v → truthy (Some v) = true →
  JSON_parse e (toString v) = JArray (IStr <$> ids) →
  ("file-" +:+ k) ∈ ids →
  files (db w) !! k = Some r → File.shop r = session_shop e →
  unlink_fails e (File.path r) = false →
  File.path r ∉ dirs (disk (ensured e w)) →
  ∃ w', action e fd w = (Ok RSuccess, w') ∧ files (db w') !! k = None.
Proof.
  intros Hi Hv Ht Hp Hin Hr Hs Hu Hd.
  rewrite (action_bulk_delete e fd w Hi).
  unfold bulk_delete_intent. rewrite Hv, Ht, Hp.
  cbn [negb]. cbv beta iota. rewrite all_strings_fmap. unfold bind at 1.
  destruct (for_of_total only_deleted (λ w', files (db w') !! k = None)
              (bulk_delete_file e) (List.filter (startsWith "file-") ids)
              ("file-" +:+ k) (ensured e w))
    with (w := ensured e w) as (w1 & -> & H1 & Hgone);
    try apply only_deleted_refl; try apply only_deleted_trans.
  { intros x w0. apply bulk_delete_file_run. }
  { intros w0 w0' H0 Hk. by eapply only_deleted_gone. }
  { intros w0 w0' [Hdirs Hrows]. unfold bulk_delete_file, bind.
    rewrite replace_file_prefix, findFirst_file_run.
    destruct (files (db w0) !! k) as [f|] eqn:Hf; [|by intros [= <-]].
    assert (f = r) as ->.
    { apply Hrows in Hf. rewrite ensured_db in Hf. congruence. }
    rewrite decide_True by done.
    destruct (deleteFile_allowed e (File.path r) w0) as (w2 & Hdel & Hdb & _);
      [done | by rewrite Hdirs |].
    unfold try_catch, bind. rewrite Hdel, file_delete_run, Hdb, Hf.
    intros [= <-]. simpl. apply lookup_delete_eq. }
  unfold bind.
  destruct (for_of_total only_deleted (λ _, True)
              (bulk_delete_folder e) (List.filter (startsWith "folder-") ids)
              "" w1)
    with (w := w1) as (w2 & -> & H2 & _);
    try apply only_deleted_refl; try apply only_deleted_trans; try done.
  { intros x w0. apply bulk_delete_folder_run. }
  exists w2. split; [done|]. eapply only_deleted_gone; [exact H2|].
  apply Hgone. left. apply elem_of_List_filter. split; [done|].
  apply startsWith_file_prefix.
Qed.

(** C8. Bulk Delete and per-item independence, at the input where the code
    departs from it. Shop "shop-a" asks to delete its file "x1" and the
    absent file "gone" while the disk refuses to unlink. The request is
    answered [{ success: true }], yet the row of "x1" is still in the
    table: in the bulk loop the row deletion sits inside the same [try] as
    the blob deletion and is skipped when the unlink throws. The single
    delete, on the same world and disk, does remove the row. *)
Theorem C8_bulk_delete_skips_row_on_refused_unlink :
  files (db sample_world) !! "x1" = Some sample_file_a
  ∧ File.shop sample_file_a = session_shop (stuck_env "shop-a" 1700000001000 "x3")
  ∧ files (db sample_world) !! "gone" = None
  ∧ JSON_parse (stuck_env "shop-a" 1700000001000 "x3")
      (stringify_ids ["file-x1"; "file-gone"])
    = JArray [IStr "file-x1"; IStr "file-gone"]
  ∧ (action (stuck_env "shop-a" 1700000001000 "x3")
       [("intent", FText "bulk-delete");
        ("itemIds", FText (stringify_ids ["file-x1"; "file-gone"]))]
       sample_world).1 = Ok RSuccess
  ∧ files (db (action (stuck_env "shop-a" 1700000001000 "x3")
       [("intent", FText "bulk-delete");
        ("itemIds", FText (stringify_ids ["file-x1"; "file-gone"]))]
       sample_world).2) !! "x1" = Some sample_file_a
  ∧ (action (stuck_env "shop-a" 1700000001000 "x3")
       [("intent", FText "delete"); ("fileId", FText "x1")]
       sample_world).1 = Ok RSuccess
  ∧ files (db (action (stuck_env "shop-a" 1700000001000 "x3")
       [("intent", FText "delete"); ("fileId", FText "x1")]
       sample_world).2) !! "x1" = None.
Proof. repeat split; vm_compute; reflexivity. Qed.

(** On a disk that lets the blob go, the same request removes the row. *)
Lemma bulk_delete_with_absent_item :
  ∃ w', action (sample_env "shop-a" 1700000001000 "x3")
          [("intent", FText "bulk-delete");
           ("itemIds", FText (stringify_ids ["file-x1"; "file-gone"]))]
          sample_world = (Ok RSuccess, w')
        ∧ files (db w') !! "x1" = None.
Proof.
  apply (bulk_delete_removes_listed_file
           (sample_env "shop-a" 1700000001000 "x3") _ sample_world
           (FText (stringify_ids ["file-x1"; "file-gone"]))
           ["file-x1"; "file-gone"] "x1" sample_file_a);
    try reflexivity.
  - left.
  - vm_compute. intros H. discriminate H.
Qed.

(** * Further properties of the blob store and the routes *)

(** ** The blob store on its own *)

Lemma ensured_exists e w :
  existsSync (UPLOAD_DIR e) (ensured e w) = (Ok true, ensured e w).
Proof.
  rewrite existsSync_run. f_equal. f_equal.
  unfold ensured, ensureUploadDir, bind. rewrite existsSync_run.
  destruct (bool_decide (UPLOAD_DIR e ∈ dirs (disk w))
            || bool_decide (is_Some (blobs (disk w) !! UPLOAD_DIR e))) eqn:Hb;
    simpl; [done|].
  rewrite bool_decide_true by set_solver. done.
Qed.

Lemma ensured_idem e w : ensured e (ensured e w) = ensured e w.
Proof.
  unfold ensured at 1. unfold ensureUploadDir, bind.
  by rewrite ensured_exists.
Qed.

Lemma ensured_present e w :
  (existsSync (UPLOAD_DIR e) w).1 = Ok true → ensured e w = w.
Proof.
  unfold ensured, ensureUploadDir, bind. rewrite existsSync_run. cbn [fst].
  by intros [= ->].
Qed.

(** X1. [ensureUploadDir] does nothing when the upload directory exists.
    Whenever it returns normally, the directory exists afterwards, the
    metadata and every blob are what they were, and a second call changes
    nothing. *)
Theorem X1_ensureUploadDir_idempotent e w :
  ((existsSync (UPLOAD_DIR e) w).1 = Ok true → ensureUploadDir e w = (Ok tt, w))
  ∧ ∀ w', ensureUploadDir e w = (Ok tt, w') →
      existsSync (UPLOAD_DIR e) w' = (Ok true, w')
      ∧ ensureUploadDir e w' = (Ok tt, w')
      ∧ db w' = db w
      ∧ blobs (disk w') = blobs (disk w).
Proof.
  split.
  - intros Hex. by rewrite ensureUploadDir_run, ensured_present.
  - intros w'. rewrite ensureUploadDir_run. intros [= <-].
    split; [apply ensured_exists|].
    split; [by rewrite ensureUploadDir_run, ensured_idem|].
    split; [apply ensured_db | apply ensured_blobs].
Qed.

Lemma X1_ensureUploadDir_idempotent_witness :
  ensureUploadDir (sample_env "shop-a" 1700000001000 "x3")
    (ensureUploadDir (sample_env "shop-a" 1700000001000 "x3")
       (mkWorld (db sample_world) (mkDisk ∅ ∅))).2
  = (Ok tt,
     (ensureUploadDir (sample_env "shop-a" 1700000001000 "x3")
        (mkWorld (db sample_world) (mkDisk ∅ ∅))).2).
Proof.
  destruct (X1_ensureUploadDir_idempotent
              (sample_env "shop-a" 1700000001000 "x3")
              (mkWorld (db sample_world) (mkDisk ∅ ∅))) as [_ H].
  destruct (H _ eq_refl) as (_ & Hagain & _). exact Hagain.
Defined.

(** X2. Blob round trip. After a [saveFile] that returns normally,
    [readFileBuffer] of the returned path gives back exactly the buffer
    that was written and [existsSync] finds the path; no other path's
    content and no metadata changed. *)
Theorem X2_saveFile_then_read e file buffer w name p w' :
  saveFile e file buffer w = (Ok (name, p), w') →
  name = stored_name (Date_now e) (up_name file)
  ∧ p = join e (UPLOAD_DIR e) name
  ∧ readFileBuffer p w' = (Ok buffer, w')
  ∧ existsSync p w' = (Ok true, w')
  ∧ (∀ q, q ≠ p → blobs (disk w') !! q = blobs (disk w) !! q)
  ∧ db w' = db w.
Proof.
  rewrite saveFile_eq, writeFile_run.
  destruct (_ || _); [done|]. intros [= <- <- <-].
  split; [done|]. split; [done|].
  rewrite readFileBuffer_run, existsSync_run. simpl.
  rewrite lookup_insert_eq.
  rewrite (bool_decide_true (is_Some _)) by eauto. rewrite orb_true_r.
  repeat split; try done.
  - intros q Hq. rewrite lookup_insert_ne by done. by rewrite ensured_blobs.
  - apply ensured_db.
Qed.

Lemma X2_saveFile_then_read_witness :
  readFileBuffer "/srv/app/uploads/1700000002000-report.pdf"
    (saveFile (sample_env "shop-a" 1700000002000 "x3")
       (mkUpload "report.pdf" "application/pdf" invoice_bytes) invoice_bytes
       sample_world).2
  = (Ok invoice_bytes,
     (saveFile (sample_env "shop-a" 1700000002000 "x3")
        (mkUpload "report.pdf" "application/pdf" invoice_bytes) invoice_bytes
        sample_world).2).
Proof.
  apply (X2_saveFile_then_read (sample_env "shop-a" 1700000002000 "x3")
           (mkUpload "report.pdf" "application/pdf" invoice_bytes) invoice_bytes
           sample_world "1700000002000-report.pdf"
           "/srv/app/uploads/1700000002000-report.pdf" _ eq_refl).
Defined.

(** X3. Deleting a blob twice. After a [deleteFile] that returns normally
    at a path that is not a directory, nothing is stored at the path, every
    other blob and the metadata are as before, and a second [deleteFile]
    of the same path returns normally without changing anything, even on
    a disk that refuses every unlink. *)
Theorem X3_deleteFile_twice e e' p w w' :
  p ∉ dirs (disk w) →
  deleteFile e p w = (Ok tt, w') →
  blobs (disk w') !! p = None
  ∧ (∀ q, q ≠ p → blobs (disk w') !! q = blobs (disk w) !! q)
  ∧ db w' = db w
  ∧ deleteFile e' p w' = (Ok tt, w').
Proof.
  intros Hd. rewrite deleteFile_eq, (bool_decide_false _ Hd). simpl.
  destruct (blobs (disk w) !! p) as [b|] eqn:Hb.
  - rewrite bool_decide_true by eauto.
    destruct (unlink_fails e p); [done|]. intros [= <-]. simpl.
    split; [apply lookup_delete_eq|]. split; [|split; [done|]].
    + intros q Hq. by rewrite lookup_delete_ne.
    + apply deleteFile_missing; simpl; [done|apply lookup_delete_eq].
  - rewrite bool_decide_false by (by intros [? ?]). intros [= <-].
    split; [done|]. split; [done|]. split; [done|].
    by apply deleteFile_missing.
Qed.

Lemma X3_deleteFile_twice_witness :
  deleteFile (stuck_env "shop-a" 1700000001000 "x3") (File.path sample_file_a)
    (deleteFile (sample_env "shop-a" 1700000001000 "x3")
       (File.path sample_file_a) sample_world).2
  = (Ok tt,
     (deleteFile (sample_env "shop-a" 1700000001000 "x3")
        (File.path sample_file_a) sample_world).2).
Proof.
  apply (X3_deleteFile_twice (sample_env "shop-a" 1700000001000 "x3")
           (stuck_env "shop-a" 1700000001000 "x3") (File.path sample_file_a)
           sample_world _).
  - vm_compute. intros H. discriminate H.
  - reflexivity.
Defined.

(** ** Listings *)

#[global] Instance newer_first_total : Total newer_first.
Proof. intros a b. unfold newer_first. lia. Qed.

#[global] Instance newer_folder_first_total : Total newer_folder_first.
Proof. intros a b. unfold newer_folder_first. lia. Qed.

Lemma elem_of_merge_sort {A} (R : relation A) `{∀ x y, Decision (R x y)}
    (l : list A) x :
  x ∈ merge_sort R l ↔ x ∈ l.
Proof. by rewrite merge_sort_Permutation. Qed.

Lemma file_findMany_run shop flt w :
  prisma_file_findMany shop flt w
  = (Ok (merge_sort newer_first
           (List.filter (file_matches shop flt) (map_to_list (files (db w))).*2)), w).
Proof. reflexivity. Qed.

(** What [findMany] on "File" returns: the matching rows, newest first. *)
Lemma file_findMany_spec shop flt w :
  ∃ l, prisma_file_findMany shop flt w = (Ok l, w)
    ∧ Sorted newer_first l
    ∧ ∀ f, f ∈ l ↔ ∃ k, files (db w) !! k = Some f
                      ∧ File.shop f = shop
                      ∧ match flt with
                        | AnyFolder => True
                        | InFolder x => File.folderId f = x
                        end.
Proof.
  eexists. split; [apply file_findMany_run|].
  split; [apply Sorted_merge_sort, _|].
  intros f. rewrite elem_of_merge_sort, elem_of_List_filter, list_elem_of_fmap.
  unfold file_matches. rewrite andb_true_iff, bool_decide_eq_true. split.
  - intros [[[k f'] [-> Hk%elem_of_map_to_list]] [Hs Hf]]. exists k.
    split; [done|]. split; [done|].
    destruct flt; [done|]. by apply bool_decide_eq_true in Hf.
  - intros (k & Hk & Hs & Hf). split; [|split; [done|]].
    + exists (k, f). split; [done|]. by apply elem_of_map_to_list.
    + destruct flt; [done|]. by apply bool_decide_eq_true.
Qed.

(** What [findMany] on "Folder" returns: the folders of the shop, newest
    first, each with the ids of the File rows that reference it. *)
Lemma folder_findMany_spec shop w :
  ∃ l, prisma_folder_findMany shop w = (Ok l, w)
    ∧ Sorted newer_folder_first l
    ∧ ∀ entry, entry ∈ l ↔
        ∃ k g, folders (db w) !! k = Some g ∧ Folder.shop g = shop
          ∧ entry = (g, File.id <$> files_of k (files (db w))).
Proof.
  eexists. split; [reflexivity|].
  split; [apply Sorted_merge_sort, _|].
  intros entry. rewrite elem_of_merge_sort, list_elem_of_fmap. split.
  - intros [[k g] [-> [Hk%elem_of_map_to_list Hs%bool_decide_eq_true]%elem_of_List_filter]].
    exists k, g. done.
  - intros (k & g & Hk & Hs & ->). exists (k, g). split; [done|].
    apply elem_of_List_filter. split; [by apply elem_of_map_to_list|].
    by apply bool_decide_eq_true.
Qed.

(** The rows that reference a folder. *)
Lemma elem_of_files_of id (fs : gmap string File.t) f :
  f ∈ files_of id fs ↔ ∃ k, fs !! k = Some f ∧ File.folderId f = Some id.
Proof.
  unfold files_of. rewrite list_elem_of_fmap. split.
  - intros [[k f'] [-> [Hk Hf]%elem_of_map_to_list%map_lookup_filter_Some]].
    exists k. done.
  - intros (k & Hk & Hf). exists (k, f). split; [done|].
    apply elem_of_map_to_list, map_lookup_filter_Some. done.
Qed.

(** X4. Listing of files. When the upload directory exists, the loader of
    the file manager returns its data and leaves the world as it was.
    Whenever the data carries no error, the files in it are exactly the
    File rows of the requesting shop whose folder reference is the
    requested one, newest first. The requested folder is the root (a null
    reference) when the parameter is absent, empty or "root", and the given
    id otherwise; with no parameter the loader does what the previous
    revision's loader does. *)
Theorem X4_loader_lists_requested_folder e p w :
  (existsSync (UPLOAD_DIR e) w).1 = Ok true →
  (∃ data, loader e p w = (Ok data, w)
     ∧ (l_error data = None →
        l_currentFolderId data = p
        ∧ Sorted newer_first (l_files data)
        ∧ ∀ f, f ∈ l_files data ↔
            ∃ k, files (db w) !! k = Some f
              ∧ File.shop f = session_shop e
              ∧ File.folderId f = requested_folder p))
  ∧ requested_folder None = None
  ∧ requested_folder (Some "") = None
  ∧ requested_folder (Some "root") = None
  ∧ (∀ id, id ≠ "" → id ≠ "root" → requested_folder (Some id) = Some id)
  ∧ loader_folders e w = loader e None w.
Proof.
  intros Hex.
  destruct (file_findMany_spec (session_shop e) (InFolder (requested_folder p)) w)
    as (l & Hl & Hsorted & Hmem).
  destruct (folder_findMany_spec (session_shop e) w) as (lf & Hlf & _ & _).
  split_and!; try done.
  - eexists. split.
    { unfold loader, bind, try_catch.
      rewrite ensureUploadDir_run, (ensured_present _ _ Hex), Hlf, Hl.
      reflexivity. }
    intros _. simpl. done.
  - intros id H1 H2. unfold requested_folder.
    rewrite decide_False by congruence. simpl. by destruct id.
Qed.

Lemma X4_loader_lists_requested_folder_witness :
  ∃ data, loader (sample_env "shop-a" 1700000001000 "x3") (Some "F1")
            sample_world = (Ok data, sample_world)
    ∧ sample_file_a ∈ l_files data.
Proof.
  destruct (X4_loader_lists_requested_folder
              (sample_env "shop-a" 1700000001000 "x3") (Some "F1") sample_world)
    as ((data & Hrun & Hdata) & _); [reflexivity|].
  exists data. split; [exact Hrun|].
  assert (l_error data = None) as Herr.
  { injection Hrun as <-. reflexivity. }
  destruct (Hdata Herr) as (_ & _ & Hmem).
  apply Hmem. exists "x1". split_and!; reflexivity.
Defined.



(** X6. When the upload directory exists, the loader of the first revision
    returns its data and leaves the world as it was. Whenever the data
    carries no error, the files in it are exactly the File rows of the
    requesting shop, newest first. *)
Theorem X6_loader_first_lists_shop_files e w :
  (existsSync (UPLOAD_DIR e) w).1 = Ok true →
  ∃ data, loader_first e w = (Ok data, w)
    ∧ (l_error data = None →
       Sorted newer_first (l_files data)
       ∧ ∀ f, f ∈ l_files data ↔
           ∃ k, files (db w) !! k = Some f ∧ File.shop f = session_shop e).
Proof.
  intros Hex.
  destruct (file_findMany_spec (session_shop e) AnyFolder w)
    as (l & Hl & Hsorted & Hmem).
  eexists. split.
  { unfold loader_first, bind, try_catch.
    rewrite ensureUploadDir_run, (ensured_present _ _ Hex), Hl.
    reflexivity. }
  intros _. simpl. split; [done|].
  intros f. rewrite Hmem. split.
  - intros (k & Hk & Hs & _). eauto.
  - intros (k & Hk & Hs). exists k. done.
Qed.

Lemma X6_loader_first_lists_shop_files_witness :
  ∃ data, loader_first (sample_env "shop-a" 1700000001000 "x3") sample_world
          = (Ok data, sample_world)
    ∧ sample_file_a ∈ l_files data.
Proof.
  destruct (X6_loader_first_lists_shop_files
              (sample_env "shop-a" 1700000001000 "x3") sample_world)
    as (data & Hrun & Hdata); [reflexivity|].
  exists data. split; [exact Hrun|].
  assert (l_error data = None) as Herr.
  { injection Hrun as <-. reflexivity. }
  destruct (Hdata Herr) as (_ & Hmem).
  apply Hmem. exists "x1". split; reflexivity.
Defined.

(** X7. The folder-files loader, for a folder of the requesting shop,
    returns exactly the File rows that reference the folder, newest first,
    and changes nothing. *)
Theorem X7_folder_files_loader_lists_folder e id w g :
  folders (db w) !! id = Some g → Folder.shop g = session_shop e →
  ∃ l, folder_files_loader e id w = (Ok l, w)
    ∧ Sorted newer_first l
    ∧ ∀ f, f ∈ l ↔ ∃ k, files (db w) !! k = Some f ∧ File.folderId f = Some id.
Proof.
  intros Hg Hs. eexists. split.
  { unfold folder_files_loader, bind.
    rewrite (findFirst_folder_own _ _ _ _ Hg Hs). reflexivity. }
  split; [apply Sorted_merge_sort, _|].
  intros f. rewrite elem_of_merge_sort. apply elem_of_files_of.
Qed.

Lemma X7_folder_files_loader_lists_folder_witness :
  ∃ l, folder_files_loader (sample_env "shop-a" 1700000001000 "x3") "F1"
         sample_world = (Ok l, sample_world)
    ∧ Sorted newer_first l
    ∧ ∀ f, f ∈ l ↔ ∃ k, files (db sample_world) !! k = Some f
                      ∧ File.folderId f = Some "F1".
Proof.
  exact (X7_folder_files_loader_lists_folder
           (sample_env "shop-a" 1700000001000 "x3") "F1" sample_world
           sample_folder_a eq_refl eq_refl).
Defined.

(** ** What every request respects *)

Lemma respects_ret {A} (R : World → World → Prop) (a : A) :
  (∀ w, R w w) → respects R (ret a).
Proof. intros Hrefl w r w' [= _ <-]. apply Hrefl. Qed.

Lemma respects_throw {A} (R : World → World → Prop) (err : Err) :
  (∀ w, R w w) → respects R (throw (A:=A) err).
Proof. intros Hrefl w r w' [= _ <-]. apply Hrefl. Qed.

Lemma respects_bind {A B} (R : World → World → Prop) (m : M A) (k : A → M B) :
  (∀ w1 w2 w3, R w1 w2 → R w2 w3 → R w1 w3) →
  respects R m → (∀ a, respects R (k a)) → respects R (bind m k).
Proof.
  intros Htrans Hm Hk w r w'. unfold bind.
  destruct (m w) as [[a|err] w1] eqn:Hmw.
  - intros Hka. eapply Htrans; [by eapply Hm|by eapply Hk].
  - intros [= _ <-]. by eapply Hm.
Qed.

Lemma respects_try_catch {A} (R : World → World → Prop) (m : M A) (h : Err → M A) :
  (∀ w1 w2 w3, R w1 w2 → R w2 w3 → R w1 w3) →
  respects R m → (∀ err, respects R (h err)) → respects R (try_catch m h).
Proof.
  intros Htrans Hm Hh w r w'. unfold try_catch.
  destruct (m w) as [[a|err] w1] eqn:Hmw.
  - intros [= _ <-]. by eapply Hm.
  - intros Hhe. eapply Htrans; [by eapply Hm|by eapply Hh].
Qed.

Lemma respects_for_of {A} (R : World → World → Prop) (f : A → M unit) l :
  (∀ w, R w w) →
  (∀ w1 w2 w3, R w1 w2 → R w2 w3 → R w1 w3) →
  (∀ x, respects R (f x)) → respects R (for_of l f).
Proof.
  intros Hrefl Htrans Hf w r w'. apply for_of_respects; try done.
  intros x w1 r1 w2 _. apply Hf.
Qed.

Section Respects.
Variable e : Env.
Variable R : World → World → Prop.
Hypothesis R_refl : ∀ w, R w w.
Hypothesis R_trans : ∀ w1 w2 w3, R w1 w2 → R w2 w3 → R w1 w3.
Hypothesis R_disk : ∀ w d, R w (mkWorld (db w) d).
Hypothesis R_file_create : ∀ data, respects R (prisma_file_create e data).
Hypothesis R_file_update : ∀ id target, respects R (prisma_file_update e id target).
Hypothesis R_file_delete : ∀ id, respects R (prisma_file_delete id).
Hypothesis R_folder_create : ∀ name shop, respects R (prisma_folder_create e name shop).
Hypothesis R_folder_delete : ∀ id, respects R (prisma_folder_delete id).

Lemma existsSync_respects p : respects R (existsSync p).
Proof. intros w r w'. rewrite existsSync_run. intros [= _ <-]. apply R_refl. Qed.

Lemma ensureUploadDir_respects : respects R (ensureUploadDir e).
Proof.
  intros w r w'. rewrite ensureUploadDir_run. intros [= _ <-].
  unfold ensured, ensureUploadDir, bind. rewrite existsSync_run.
  destruct (negb _); simpl; [apply R_disk|apply R_refl].
Qed.

Lemma writeFile_respects p buffer : respects R (writeFile e p buffer).
Proof.
  intros w r w'. rewrite writeFile_run.
  destruct (_ || _); intros [= _ <-]; [apply R_refl|apply R_disk].
Qed.

Lemma saveFile_respects file buffer : respects R (saveFile e file buffer).
Proof.
  unfold saveFile. apply respects_bind; [done|apply ensureUploadDir_respects|].
  intros _. apply respects_bind; [done|apply writeFile_respects|].
  intros _. by apply respects_ret.
Qed.

Lemma unlink_respects p : respects R (unlink e p).
Proof.
  intros w r w'. unfold unlink, get_disk, put_disk, throw, bind. simpl.
  destruct (unlink_fails e p); [intros [= _ <-]; apply R_refl|].
  destruct (blobs (disk w) !! p); intros [= _ <-]; [apply R_disk|apply R_refl].
Qed.

Lemma deleteFile_respects p : respects R (deleteFile e p).
Proof.
  unfold deleteFile. apply respects_bind; [done|apply existsSync_respects|].
  intros []; [apply unlink_respects|by apply respects_ret].
Qed.

Lemma delete_blob_quietly_respects p : respects R (delete_blob_quietly e p).
Proof.
  unfold delete_blob_quietly, console_error.
  apply respects_try_catch; [done|apply deleteFile_respects|].
  intros _. by apply respects_ret.
Qed.

Lemma where_id_respects v : respects R (where_id v).
Proof.
  destruct v as [[s|f]|]; simpl; by first [apply respects_ret|apply respects_throw].
Qed.

Lemma findFirst_file_respects id shop : respects R (prisma_file_findFirst id shop).
Proof. intros w r w'. rewrite findFirst_file_run. intros [= _ <-]. apply R_refl. Qed.

Lemma findFirst_folder_respects id shop : respects R (prisma_folder_findFirst id shop).
Proof. intros w r w' [= _ <-]. apply R_refl. Qed.

Lemma create_folder_intent_respects fd : respects R (create_folder_intent e fd).
Proof.
  unfold create_folder_intent.
  destruct (fd_get "name" fd); [|by apply respects_ret].
  destruct (negb _); [by apply respects_ret|].
  apply respects_bind; [done|apply R_folder_create|].
  intros g. by apply respects_ret.
Qed.

Lemma delete_folder_intent_respects fd : respects R (delete_folder_intent e fd).
Proof.
  unfold delete_folder_intent.
  destruct (negb _); [by apply respects_ret|].
  apply respects_bind; [done|apply where_id_respects|]. intros id.
  apply respects_bind; [done|apply findFirst_folder_respects|].
  intros [[g l]|]; [|by apply respects_ret].
  apply respects_bind; [done| |].
  { apply respects_for_of; try done. intros f. apply delete_blob_quietly_respects. }
  intros _. apply respects_bind; [done|apply R_folder_delete|].
  intros _. by apply respects_ret.
Qed.

Lemma upload_intent_respects fd : respects R (upload_intent e fd).
Proof.
  unfold upload_intent.
  destruct (fd_get "file" fd) as [[s|file]|]; try by apply respects_ret.
  apply respects_bind; [done|apply saveFile_respects|]. intros saved.
  apply respects_bind; [done|apply R_file_create|].
  intros rec. by apply respects_ret.
Qed.

Lemma delete_intent_respects fd : respects R (delete_intent e fd).
Proof.
  unfold delete_intent.
  destruct (negb _); [by apply respects_ret|].
  apply respects_bind; [done|apply where_id_respects|]. intros id.
  apply respects_bind; [done|apply findFirst_file_respects|].
  intros [r|]; [|by apply respects_ret].
  apply respects_bind; [done|apply delete_blob_quietly_respects|].
  intros _. apply respects_bind; [done|apply R_file_delete|].
  intros _. by apply respects_ret.
Qed.

Lemma bulk_delete_file_respects id : respects R (bulk_delete_file e id).
Proof.
  unfold bulk_delete_file.
  apply respects_bind; [done|apply findFirst_file_respects|].
  intros [r|]; [|by apply respects_ret].
  apply respects_try_catch; [done| |].
  - apply respects_bind; [done|apply deleteFile_respects|].
    intros _. apply R_file_delete.
  - intros err. by apply respects_ret.
Qed.

Lemma bulk_delete_folder_respects id : respects R (bulk_delete_folder e id).
Proof.
  unfold bulk_delete_folder.
  apply respects_bind; [done|apply findFirst_folder_respects|].
  intros [[g l]|]; [|by apply respects_ret].
  apply respects_bind; [done| |intros _; apply R_folder_delete].
  apply respects_for_of; try done. intros f. apply delete_blob_quietly_respects.
Qed.

Lemma bulk_delete_intent_respects fd : respects R (bulk_delete_intent e fd).
Proof.
  unfold bulk_delete_intent.
  destruct (fd_get "itemIds" fd) as [v|]; [|by apply respects_ret].
  destruct (negb _); [by apply respects_ret|].
  destruct (JSON_parse e (toString v)) as [l|s| |];
    try by apply respects_throw.
  destruct (all_strings l) as [ids|]; [|by apply respects_throw].
  apply respects_bind; [done| |intros _].
  { apply respects_for_of; try done. apply bulk_delete_file_respects. }
  apply respects_bind; [done| |intros _; by apply respects_ret].
  apply respects_for_of; try done. apply bulk_delete_folder_respects.
Qed.

Lemma move_file_intent_respects fd : respects R (move_file_intent e fd).
Proof.
  unfold move_file_intent.
  destruct (negb _); [by apply respects_ret|].
  apply respects_bind; [done|apply where_id_respects|]. intros id.
  apply respects_bind; [done|apply findFirst_file_respects|].
  intros [r|]; [|by apply respects_ret].
  apply respects_bind; [done|apply R_file_update|].
  intros _. by apply respects_ret.
Qed.

Lemma bulk_move_intent_respects fd : respects R (bulk_move_intent e fd).
Proof.
  unfold bulk_move_intent.
  destruct (fd_get "fileIds" fd) as [v|]; [|by apply respects_ret].
  destruct (negb _); [by apply respects_ret|].
  destruct (JSON_parse e (toString v)) as [l|s| |];
    try by apply respects_throw.
  - apply respects_bind; [done| |intros _; by apply respects_ret].
    apply respects_for_of; try done.
    intros [id|]; [apply R_file_update|by apply respects_throw].
  - apply respects_bind; [done| |intros _; by apply respects_ret].
    apply respects_for_of; try done. intros id. apply R_file_update.
Qed.

(** Every request, in each of the three revisions of the action, keeps
    what writing to the disk and the five writes to the metadata store
    keep. *)
Lemma action_respects fd :
  respects R (action e fd)
  ∧ respects R (action_folders e fd)
  ∧ respects R (action_first e fd).
Proof.
  split; [|split].
  - unfold action. apply respects_bind; [done|apply ensureUploadDir_respects|].
    intros _.
    repeat (match goal with |- respects _ (if ?b then _ else _) => destruct b end);
      first [ apply create_folder_intent_respects
            | apply delete_folder_intent_respects
            | apply upload_intent_respects
            | apply delete_intent_respects
            | apply bulk_delete_intent_respects
            | apply move_file_intent_respects
            | apply bulk_move_intent_respects
            | by apply respects_ret ].
  - unfold action_folders.
    apply respects_bind; [done|apply ensureUploadDir_respects|]. intros _.
    repeat (match goal with |- respects _ (if ?b then _ else _) => destruct b end);
      first [ apply create_folder_intent_respects
            | apply delete_folder_intent_respects
            | apply upload_intent_respects
            | apply delete_intent_respects
            | apply move_file_intent_respects
            | by apply respects_ret ].
  - unfold action_first.
    apply respects_bind; [done|apply ensureUploadDir_respects|]. intros _.
    repeat (match goal with |- respects _ (if ?b then _ else _) => destruct b end).
    + unfold upload_first.
      destruct (fd_get "file" fd) as [[s|file]|]; try by apply respects_ret.
      apply respects_bind; [done|apply writeFile_respects|]. intros _.
      apply respects_bind; [done|apply R_file_create|].
      intros rec. by apply respects_ret.
    + unfold delete_first.
      destruct (negb _); [by apply respects_ret|].
      apply respects_bind; [done|apply where_id_respects|]. intros id.
      apply respects_bind; [done|apply findFirst_file_respects|].
      intros [r|]; [|by apply respects_ret].
      apply respects_bind; [done|apply delete_blob_quietly_respects|].
      intros _. apply respects_bind; [done|apply R_file_delete|].
      intros _. by apply respects_ret.
    + by apply respects_ret.
Qed.
End Respects.

(** ** Referential integrity *)

Lemma keeps_references_refl w : keeps_references w w.
Proof. by intros H. Qed.

Lemma keeps_references_trans w1 w2 w3 :
  keeps_references w1 w2 → keeps_references w2 w3 → keeps_references w1 w3.
Proof. unfold keeps_references. auto. Qed.

Lemma file_create_keeps_references e data :
  respects keeps_references (prisma_file_create e data).
Proof.
  intros w r w' Hrun Hinv.
  destruct (file_create_run e data w)
    as [[code Hc] | (rec & Hc & _ & Hfk & _ & _ & _ & Hfid)];
    rewrite Hc in Hrun; injection Hrun as <- <-; [done|].
  intros k f fid. simpl.
  destruct (decide (fresh_id e = k)) as [<-|Hne].
  - rewrite lookup_insert_eq. intros [= <-] Hf. rewrite Hfid in Hf.
    rewrite Hf in Hfk. simpl in Hfk. by apply bool_decide_eq_true in Hfk.
  - rewrite lookup_insert_ne by done. apply Hinv.
Qed.

Lemma file_update_keeps_references e id target :
  respects keeps_references (prisma_file_update e id target).
Proof.
  intros w r w'. rewrite file_update_run.
  destruct (files (db w) !! id) as [f0|] eqn:Hf0;
    [|intros [= _ <-]; apply keeps_references_refl].
  destruct (fk_ok (db w) target) eqn:Hfk;
    [|intros [= _ <-]; apply keeps_references_refl].
  intros [= _ <-] Hinv k f fid. simpl.
  destruct (decide (id = k)) as [<-|Hne].
  - rewrite lookup_insert_eq. intros [= <-]. simpl. intros ->.
    simpl in Hfk. by apply bool_decide_eq_true in Hfk.
  - rewrite lookup_insert_ne by done. apply Hinv.
Qed.

Lemma file_delete_keeps_references id :
  respects keeps_references (prisma_file_delete id).
Proof.
  intros w r w'. rewrite file_delete_run.
  destruct (files (db w) !! id); intros [= _ <-];
    [|apply keeps_references_refl].
  intros Hinv k f fid. simpl. intros [_ Hk]%lookup_delete_Some Hf.
  by eapply Hinv.
Qed.

Lemma folder_create_keeps_references e name shop :
  respects keeps_references (prisma_folder_create e name shop).
Proof.
  intros w r w'. unfold prisma_folder_create, get_db, put_db, throw, ret, bind.
  simpl. destruct (bool_decide (is_Some _)); intros [= _ <-];
    [apply keeps_references_refl|].
  intros Hinv k f fid Hk Hf. simpl in *.
  destruct (decide (fresh_id e = fid)) as [<-|Hne].
  - rewrite lookup_insert_eq. eauto.
  - rewrite lookup_insert_ne by done. by eapply Hinv.
Qed.

Lemma folder_delete_keeps_references id :
  respects keeps_references (prisma_folder_delete id).
Proof.
  intros w r w'. unfold prisma_folder_delete, get_db, put_db, throw, bind.
  simpl. destruct (folders (db w) !! id); intros [= _ <-];
    [|apply keeps_references_refl].
  intros Hinv k f fid. simpl.
  intros [Hk Hne]%map_lookup_filter_Some Hf. simpl in Hne.
  rewrite lookup_delete_ne by (intros ->; by apply Hne). by eapply Hinv.
Qed.

(** X8. Referential integrity is an invariant of all three revisions of
    the action. If every folder reference of a File row names a Folder row
    before a request, the same holds after it, whatever the form contains
    and however the request ends: row creation and update are checked
    against the foreign key, and deleting a folder takes the rows that
    reference it along. *)
Theorem X8_actions_keep_references e fd w :
  references_resolve (db w) →
  references_resolve (db (action e fd w).2)
  ∧ references_resolve (db (action_folders e fd w).2)
  ∧ references_resolve (db (action_first e fd w).2).
Proof.
  intros Hinv.
  destruct (action_respects e keeps_references keeps_references_refl
              keeps_references_trans (λ w d, keeps_references_refl w)
              (file_create_keeps_references e) (file_update_keeps_references e)
              file_delete_keeps_references (folder_create_keeps_references e)
              folder_delete_keeps_references fd) as (H1 & H2 & H3).
  split; [|split].
  - destruct (action e fd w) as [r w'] eqn:Hr. by apply (H1 _ _ _ Hr).
  - destruct (action_folders e fd w) as [r w'] eqn:Hr. by apply (H2 _ _ _ Hr).
  - destruct (action_first e fd w) as [r w'] eqn:Hr. by apply (H3 _ _ _ Hr).
Qed.

Lemma sample_world_references_resolve : references_resolve (db sample_world).
Proof.
  intros k f fid Hk Hf.
  destruct (sample_world_same_shop k f fid Hk Hf) as (g & Hg & _). eauto.
Qed.

Lemma X8_actions_keep_references_witness :
  references_resolve
    (db (action (sample_env "shop-a" 1700000001000 "x3")
           [("intent", FText "delete-folder"); ("folderId", FText "F1")]
           sample_world).2).
Proof.
  apply (X8_actions_keep_references (sample_env "shop-a" 1700000001000 "x3")
           [("intent", FText "delete-folder"); ("folderId", FText "F1")]
           sample_world sample_world_references_resolve).
Defined.

(** ** Rows keep their blob and their owner *)

(** Reasoning by cases on the intent: what holds of each handler, run after
    [ensureUploadDir], and of the "Invalid intent" answer holds of the
    action. *)
Lemma action_cases e fd w (P : Res ActionResult * World → Prop) :
  P (create_folder_intent e fd (ensured e w)) →
  P (delete_folder_intent e fd (ensured e w)) →
  P (upload_intent e fd (ensured e w)) →
  P (delete_intent e fd (ensured e w)) →
  P (bulk_delete_intent e fd (ensured e w)) →
  P (move_file_intent e fd (ensured e w)) →
  P (bulk_move_intent e fd (ensured e w)) →
  P (Ok (RError "Invalid intent"), ensured e w) →
  P (action e fd w).
Proof.
  intros. unfold action, bind. rewrite ensureUploadDir_run. cbv beta iota.
  repeat (match goal with |- P ((if ?b then _ else _) _) => destruct b end);
    assumption.
Qed.

Lemma files_kept_refl w : files_kept w w.
Proof. by unfold files_kept. Qed.

Lemma files_kept_trans w1 w2 w3 :
  files_kept w1 w2 → files_kept w2 w3 → files_kept w1 w3.
Proof. unfold files_kept. intros H1 H2. by etrans. Qed.

Lemma file_delete_files_kept id : respects files_kept (prisma_file_delete id).
Proof.
  intros w r w'. rewrite file_delete_run.
  destruct (files (db w) !! id); intros [= _ <-]; [|apply files_kept_refl].
  apply delete_subseteq.
Qed.

Lemma folder_delete_files_kept id : respects files_kept (prisma_folder_delete id).
Proof.
  intros w r w'. unfold prisma_folder_delete, get_db, put_db, throw, bind.
  simpl. destruct (folders (db w) !! id); intros [= _ <-];
    [|apply files_kept_refl].
  apply map_filter_subseteq.
Qed.

Lemma folder_create_files_kept e name shop :
  respects files_kept (prisma_folder_create e name shop).
Proof.
  intros w r w'. unfold prisma_folder_create, get_db, put_db, throw, ret, bind.
  simpl. destruct (bool_decide (is_Some _)); intros [= _ <-];
    by unfold files_kept.
Qed.

Lemma same_blob_columns_refl f : same_blob_columns f f.
Proof. by repeat split. Qed.

Lemma same_blob_columns_trans f1 f2 f3 :
  same_blob_columns f1 f2 → same_blob_columns f2 f3 → same_blob_columns f1 f3.
Proof.
  unfold same_blob_columns. intros (?&?&?&?&?&?&?&?) (?&?&?&?&?&?&?&?).
  repeat split; congruence.
Qed.

Lemma refiled_refl w : refiled w w.
Proof.
  split; [done|]. split; [done|]. intros k f f' Hf. rewrite Hf.
  intros [= <-]. apply same_blob_columns_refl.
Qed.

Lemma refiled_trans w1 w2 w3 : refiled w1 w2 → refiled w2 w3 → refiled w1 w3.
Proof.
  intros (Hfo1 & Hd1 & H1) (Hfo2 & Hd2 & H2).
  split; [congruence|]. split; [congruence|].
  intros k f1 f3 Hk1 Hk3.
  assert (is_Some (files (db w2) !! k)) as [f2 Hk2].
  { apply elem_of_dom. rewrite Hd1. apply elem_of_dom. eauto. }
  eapply same_blob_columns_trans; eauto.
Qed.

Lemma file_update_refiled e id target :
  respects refiled (prisma_file_update e id target).
Proof.
  intros w r w'. rewrite file_update_run.
  destruct (files (db w) !! id) as [f0|] eqn:Hf0;
    [|intros [= _ <-]; apply refiled_refl].
  destruct (fk_ok (db w) target); [|intros [= _ <-]; apply refiled_refl].
  intros [= _ <-]. split; [done|]. simpl. split.
  - apply dom_insert_lookup_L. eauto.
  - intros k f f' Hk.
    destruct (decide (id = k)) as [<-|Hne].
    + rewrite lookup_insert_eq. intros [= <-].
      assert (f = f0) as -> by congruence. by repeat split.
    + rewrite lookup_insert_ne by done. rewrite Hk. intros [= <-].
      apply same_blob_columns_refl.
Qed.

(** X9. No request rewrites a blob column. For every form and every
    outcome of the action, a File row that is in the table before and
    after the request has the same id, stored file name, original name,
    MIME type, size, storage path, shop and creation time; only its folder
    reference and its last-updated time can differ. In particular a row
    never changes owner. *)
Theorem X9_actions_keep_blob_columns e fd w k f f' :
  files (db w) !! k = Some f →
  files (db (action e fd w).2) !! k = Some f' →
  same_blob_columns f f'.
Proof.
  intros Hf. revert f'.
  assert (∀ w', files_kept (ensured e w) w' →
            ∀ f', files (db w') !! k = Some f' → same_blob_columns f f') as Hkept.
  { intros w' Hsub f' Hf'. unfold files_kept in Hsub. rewrite ensured_db in Hsub.
    eapply lookup_weaken in Hf'; [|exact Hsub].
    assert (f' = f) as -> by congruence. apply same_blob_columns_refl. }
  assert (∀ w', refiled (ensured e w) w' →
            ∀ f', files (db w') !! k = Some f' → same_blob_columns f f') as Hmoved.
  { intros w' (_ & _ & H) f' Hf'. eapply H; [|exact Hf']. by rewrite ensured_db. }
  apply (action_cases e fd w
           (λ rw, ∀ f', files (db rw.2) !! k = Some f' → same_blob_columns f f')).
  - destruct (create_folder_intent e fd (ensured e w)) as [r w'] eqn:Hr.
    apply Hkept. revert Hr.
    apply (create_folder_intent_respects e files_kept files_kept_refl
             files_kept_trans (folder_create_files_kept e)).
  - destruct (delete_folder_intent e fd (ensured e w)) as [r w'] eqn:Hr.
    apply Hkept. revert Hr.
    apply (delete_folder_intent_respects e files_kept files_kept_refl
             files_kept_trans (λ w d, files_kept_refl w) folder_delete_files_kept).
  - destruct (fd_get "file" fd) as [[s|file]|] eqn:Hfile;
      try (unfold upload_intent; rewrite Hfile; simpl; intros f';
           rewrite ensured_db, Hf; intros [= <-]; apply same_blob_columns_refl).
    destruct (upload_intent_run e fd (ensured e w) file Hfile)
      as (r & w' & -> & [(_ & Hdb & _) | [(_ & Hdb & _) |
           (rec & _ & Hfs & _ & Hfresh & _)]]); simpl; intros f'.
    + rewrite Hdb, ensured_db, Hf. intros [= <-]. apply same_blob_columns_refl.
    + rewrite Hdb, ensured_db, Hf. intros [= <-]. apply same_blob_columns_refl.
    + rewrite Hfs, ensured_db. rewrite ensured_db in Hfresh.
      rewrite lookup_insert_ne by congruence. rewrite Hf. intros [= <-].
      apply same_blob_columns_refl.
  - destruct (delete_intent e fd (ensured e w)) as [r w'] eqn:Hr.
    apply Hkept. revert Hr.
    apply (delete_intent_respects e files_kept files_kept_refl
             files_kept_trans (λ w d, files_kept_refl w) file_delete_files_kept).
  - destruct (bulk_delete_intent e fd (ensured e w)) as [r w'] eqn:Hr.
    apply Hkept. revert Hr.
    apply (bulk_delete_intent_respects e files_kept files_kept_refl
             files_kept_trans (λ w d, files_kept_refl w) file_delete_files_kept
             folder_delete_files_kept).
  - destruct (move_file_intent e fd (ensured e w)) as [r w'] eqn:Hr.
    apply Hmoved. revert Hr.
    apply (move_file_intent_respects e refiled refiled_refl refiled_trans
             (file_update_refiled e)).
  - destruct (bulk_move_intent e fd (ensured e w)) as [r w'] eqn:Hr.
    apply Hmoved. revert Hr.
    apply (bulk_move_intent_respects e refiled refiled_refl refiled_trans
             (file_update_refiled e)).
  - simpl. intros f'. rewrite ensured_db, Hf. intros [= <-].
    apply same_blob_columns_refl.
Qed.

Lemma X9_actions_keep_blob_columns_witness :
  same_blob_columns sample_file_a (set_folder 1700000001000 None sample_file_a).
Proof.
  apply (X9_actions_keep_blob_columns (sample_env "shop-a" 1700000001000 "x3")
           [("intent", FText "move-file"); ("fileId", FText "x1")]
           sample_world "x1"); [reflexivity|].
  vm_compute. reflexivity.
Defined.

(** ** Error answers *)

Lemma never_errors_bind {A} (m : M A) (k : A → M ActionResult) :
  (∀ a, never_errors (k a)) → never_errors (bind m k).
Proof.
  intros Hk w msg w'. unfold bind.
  destruct (m w) as [[a|err] w1]; [apply Hk|done].
Qed.

Lemma never_errors_success : never_errors (ret RSuccess).
Proof. by intros w msg w'. Qed.

(** A handler that answers [{ error }] has not written anything. *)
Lemma create_folder_intent_error e fd w msg w' :
  create_folder_intent e fd w = (Ok (RError msg), w') → w' = w.
Proof.
  unfold create_folder_intent.
  destruct (fd_get "name" fd) as [v|]; [|by intros [= _ <-]].
  destruct (negb _); [by intros [= _ <-]|].
  intros H. exfalso. revert H. apply never_errors_bind. by intros g w0 m0 w0'.
Qed.

Lemma delete_folder_intent_error e fd w msg w' :
  delete_folder_intent e fd w = (Ok (RError msg), w') → w' = w.
Proof.
  unfold delete_folder_intent.
  destruct (negb _); [by intros [= _ <-]|].
  destruct (fd_get "folderId" fd) as [[id|f]|]; try done. simpl.
  unfold bind at 1, ret at 1.
  unfold bind at 1, prisma_folder_findFirst, get_db, ret at 1, bind at 1.
  destruct (folders (db w) !! id) as [g|]; [|by intros [= _ <-]].
  destruct (decide _); [|by intros [= _ <-]].
  intros H. exfalso. revert H. apply never_errors_bind. intros _.
  apply never_errors_bind. intros _. apply never_errors_success.
Qed.

Lemma upload_intent_error e fd w msg w' :
  upload_intent e fd w = (Ok (RError msg), w') → w' = w.
Proof.
  unfold upload_intent.
  destruct (fd_get "file" fd) as [[s|file]|]; try by intros [= _ <-].
  intros H. exfalso. revert H. apply never_errors_bind. intros saved.
  apply never_errors_bind. by intros rec w0 m0 w0'.
Qed.

Lemma delete_intent_error e fd w msg w' :
  delete_intent e fd w = (Ok (RError msg), w') → w' = w.
Proof.
  unfold delete_intent.
  destruct (negb _); [by intros [= _ <-]|].
  destruct (fd_get "fileId" fd) as [[id|f]|]; try done. simpl.
  unfold bind at 1, ret at 1. unfold bind at 1. rewrite findFirst_file_run.
  destruct (files (db w) !! id) as [r|]; [|by intros [= _ <-]].
  destruct (decide _); [|by intros [= _ <-]].
  intros H. exfalso. revert H. apply never_errors_bind. intros _.
  apply never_errors_bind. intros _. apply never_errors_success.
Qed.

Lemma bulk_delete_intent_error e fd w msg w' :
  bulk_delete_intent e fd w = (Ok (RError msg), w') → w' = w.
Proof.
  unfold bulk_delete_intent.
  destruct (fd_get "itemIds" fd) as [v|]; [|by intros [= _ <-]].
  destruct (negb _); [by intros [= _ <-]|].
  destruct (JSON_parse e (toString v)) as [l|s| |]; try done.
  destruct (all_strings l) as [ids|]; [|done].
  intros H. exfalso. revert H. apply never_errors_bind. intros _.
  apply never_errors_bind. intros _. apply never_errors_success.
Qed.

Lemma move_file_intent_error e fd w msg w' :
  move_file_intent e fd w = (Ok (RError msg), w') → w' = w.
Proof.
  unfold move_file_intent.
  destruct (negb _); [by intros [= _ <-]|].
  destruct (fd_get "fileId" fd) as [[id|f]|]; try done. simpl.
  unfold bind at 1, ret at 1. unfold bind at 1. rewrite findFirst_file_run.
  destruct (files (db w) !! id) as [r|]; [|by intros [= _ <-]].
  destruct (decide _); [|by intros [= _ <-]].
  intros H. exfalso. revert H. apply never_errors_bind. intros _.
  apply never_errors_success.
Qed.

Lemma bulk_move_intent_error e fd w msg w' :
  bulk_move_intent e fd w = (Ok (RError msg), w') → w' = w.
Proof.
  unfold bulk_move_intent.
  destruct (fd_get "fileIds" fd) as [v|]; [|by intros [= _ <-]].
  destruct (negb _); [by intros [= _ <-]|].
  destruct (JSON_parse e (toString v)) as [l|s| |]; try done;
    intros H; exfalso; revert H; apply never_errors_bind; intros _;
    apply never_errors_success.
Qed.

(** X10. An error answer means nothing was written. Whenever the action
    returns [{ error }] (missing payload, missing identifier, blank folder
    name, row not found or of another shop, empty bulk list, unknown
    intent), both metadata tables and every blob are exactly what they
    were; the only possible effect is that the upload directory now
    exists. *)
Theorem X10_error_answers_write_nothing e fd w msg w' :
  action e fd w = (Ok (RError msg), w') →
  w' = (ensureUploadDir e w).2
  ∧ db w' = db w
  ∧ blobs (disk w') = blobs (disk w).
Proof.
  intros H.
  assert (w' = ensured e w) as ->; [|by rewrite ensured_db, ensured_blobs].
  revert H.
  apply (action_cases e fd w (λ rw, rw = (Ok (RError msg), w') → w' = ensured e w)).
  - apply create_folder_intent_error.
  - apply delete_folder_intent_error.
  - apply upload_intent_error.
  - apply delete_intent_error.
  - apply bulk_delete_intent_error.
  - apply move_file_intent_error.
  - apply bulk_move_intent_error.
  - by intros [= _ <-].
Qed.

Lemma X10_error_answers_write_nothing_witness :
  db (action (sample_env "shop-b" 1700000001000 "x3")
        [("intent", FText "delete"); ("fileId", FText "x1")] sample_world).2
  = db sample_world.
Proof.
  apply (X10_error_answers_write_nothing (sample_env "shop-b" 1700000001000 "x3")
           [("intent", FText "delete"); ("fileId", FText "x1")] sample_world
           "File not found" _ eq_refl).
Defined.

(** ** Creating a folder *)

Lemma action_create_folder e fd w :
  intent_is fd "create-folder" = true →
  action e fd w = create_folder_intent e fd (ensured e w)
  ∧ action_folders e fd w = create_folder_intent e fd (ensured e w).
Proof.
  intros H. unfold action, action_folders, bind.
  rewrite ensureUploadDir_run. by pick_intent H.
Qed.

(** X11. Create Folder. A missing name, or one that is empty once
    trimmed, is answered "Folder name is required" and nothing is written.
    Otherwise, if the generated id is unused, the request stores one new
    Folder row under that id, with the trimmed name and the requesting
    shop, and returns it; it does not look at the names of existing
    folders, and leaves the File table and the blobs alone. When
    referential integrity holds the new folder is empty. Holds for both
    revisions that have folders. *)
Theorem X11_create_folder e fd w :
  intent_is fd "create-folder" = true →
  ((∀ v, fd_get "name" fd = Some v → trim e (toString v) = "") →
     action e fd w = (Ok (RError "Folder name is required"), ensured e w)
     ∧ action_folders e fd w = action e fd w)
  ∧ (∀ v, fd_get "name" fd = Some v → trim e (toString v) ≠ "" →
       folders (db w) !! fresh_id e = None →
       ∃ w', action e fd w
             = (Ok (RSuccessFolder
                      (Folder.mk (fresh_id e) (trim e (toString v))
                         (session_shop e) (Date_now e) (Date_now e))), w')
         ∧ action_folders e fd w = action e fd w
         ∧ folders (db w')
           = <[fresh_id e := Folder.mk (fresh_id e) (trim e (toString v))
                               (session_shop e) (Date_now e) (Date_now e)]>
               (folders (db w))
         ∧ files (db w') = files (db w)
         ∧ blobs (disk w') = blobs (disk w)
         ∧ (references_resolve (db w) →
            files_of (fresh_id e) (files (db w')) = [])).
Proof.
  intros Hi. destruct (action_create_folder e fd w Hi) as [-> ->].
  unfold create_folder_intent. split.
  - intros Hblank. split; [|done].
    destruct (fd_get "name" fd) as [v|]; [|done].
    by rewrite (Hblank v eq_refl).
  - intros v -> Hname Hfresh.
    assert (truthy_str (trim e (toString v)) = true) as ->
      by (by destruct (trim e (toString v))).
    simpl. unfold prisma_folder_create, get_db, put_db, ret, bind. simpl.
    rewrite ensured_db, Hfresh.
    rewrite bool_decide_false by (by intros [? ?]).
    eexists. split; [reflexivity|]. simpl. rewrite ensured_blobs.
    split_and!; try done.
    intros Hinv. apply elem_of_nil_inv. intros f.
    intros (k & Hk & Hf)%elem_of_files_of.
    destruct (Hinv k f (fresh_id e) Hk Hf) as [g Hg]. congruence.
Qed.

Lemma X11_create_folder_witness :
  ∃ w', action (sample_env "shop-b" 1700000001000 "F2")
          [("intent", FText "create-folder"); ("name", FText "Invoices")]
          sample_world
        = (Ok (RSuccessFolder
                 (Folder.mk "F2" "Invoices" "shop-b" 1700000001000 1700000001000)),
           w')
    ∧ files (db w') = files (db sample_world).
Proof.
  destruct (X11_create_folder (sample_env "shop-b" 1700000001000 "F2")
              [("intent", FText "create-folder"); ("name", FText "Invoices")]
              sample_world eq_refl) as [_ H].
  destruct (H (FText "Invoices") eq_refl) as (w' & Ha & _ & _ & Hf & _);
    [discriminate | reflexivity |].
  exists w'. split; [exact Ha | exact Hf].
Defined.

(** ** Uploads, end to end *)

(** The upload handler with a payload, step by step. *)
Lemma upload_intent_eq e fd w file :
  fd_get "file" fd = Some (FFile file) →
  upload_intent e fd w =
  if write_fails e (upload_path e file)
     || bool_decide (upload_path e file ∈ dirs (disk (ensured e w)))
  then (Throw IOError, ensured e w)
  else
    let w1 := mkWorld (db w)
                (mkDisk (dirs (disk (ensured e w)))
                   (<[upload_path e file := up_bytes file]> (blobs (disk w)))) in
    if bool_decide (is_Some (files (db w) !! fresh_id e))
    then (Throw (StoreError "P2002"), w1)
    else if fk_ok (db w) (folderId_field fd)
    then
      let rec := File.mk (fresh_id e) (stored_name (Date_now e) (up_name file))
                   (up_name file)
                   (or_default (up_type file) "application/octet-stream")
                   (up_size file) (upload_path e file) (session_shop e)
                   (folderId_field fd) (Date_now e) (Date_now e) in
      (Ok (RSuccessFile rec),
       mkWorld (mkDb (<[fresh_id e := rec]> (files (db w))) (folders (db w)))
         (disk w1))
    else (Throw (StoreError "P2003"), w1).
Proof.
  intros Hfile. unfold upload_intent. rewrite Hfile. unfold bind at 1.
  rewrite saveFile_eq, writeFile_run.
  destruct (_ || _); [done|]. simpl.
  unfold prisma_file_create, get_db, put_db, throw, ret, bind. simpl.
  rewrite ensured_db, ensured_blobs, or_null_folderId_field.
  destruct (bool_decide (is_Some _)); [done|].
  by destruct (fk_ok _ _).
Qed.

(** X22. Download. For a file of the requesting shop whose blob is on
    disk: when the platform's [Response] takes the three header values, the
    loader answers 200 with exactly the stored bytes as body, Content-Type
    the stored MIME type, Content-Disposition an attachment hint quoting
    the original file name, and Content-Length the decimal stored size;
    when it refuses one of them the loader throws a [TypeError]. With no
    row of that id, a row of another shop, or nothing on disk at the stored
    path, it throws a 404 response. It never changes the world. *)
Theorem X22_download_contract e id w :
  (∀ r b,
     files (db w) !! id = Some r → File.shop r = session_shop e →
     blobs (disk w) !! File.path r = Some b →
     (carried e (download_headers r) →
      ∃ resp, download_loader e id w = (Ok resp, w)
        ∧ status resp = 200
        ∧ body resp = BBytes b
        ∧ get_header "Content-Type" (headers resp) = Some (File.mimeType r)
        ∧ get_header "Content-Disposition" (headers resp)
          = Some ("attachment; filename=" +:+ quote +:+ File.originalName r
                  +:+ quote)
        ∧ get_header "Content-Length" (headers resp)
          = Some (pretty (File.size r)))
     ∧ (¬ carried e (download_headers r) →
        download_loader e id w = (Throw TypeError, w)))
  ∧ (files (db w) !! id = None → is_404 (download_loader e id w).1)
  ∧ (∀ r, files (db w) !! id = Some r → File.shop r ≠ session_shop e →
       is_404 (download_loader e id w).1)
  ∧ (∀ r, files (db w) !! id = Some r → File.shop r = session_shop e →
       File.path r ∉ dirs (disk w) → blobs (disk w) !! File.path r = None →
       is_404 (download_loader e id w).1)
  ∧ (download_loader e id w).2 = w.
Proof.
  rewrite download_loader_eq. split_and!.
  - intros r b Hr Hs Hb. rewrite Hr, decide_True, Hb by done.
    rewrite (bool_decide_true (is_Some _)) by eauto.
    rewrite orb_true_r. unfold carried. split.
    + intros ->. eexists. split; [reflexivity|]. by simpl.
    + intros Hn. by destruct (existsb _ _).
  - intros ->. eexists. by split.
  - intros r Hr Hs. rewrite Hr, decide_False by done. eexists. by split.
  - intros r Hr Hs Hd Hb. rewrite Hr, decide_True, Hb by done.
    rewrite bool_decide_false by done.
    rewrite bool_decide_false by (by intros [? ?]). simpl.
    eexists. by split.
  - destruct (files (db w) !! id) as [r|]; [|done].
    destruct (decide _); [|done].
    destruct (_ || _); [|done].
    destruct (blobs (disk w) !! File.path r); [|done].
    by destruct (existsb _ _).
Qed.

Lemma X22_download_contract_witness :
  ∃ resp,
    download_loader (sample_env "shop-a" 1700000001000 "x3") "x1" sample_world
      = (Ok resp, sample_world)
    ∧ body resp = BBytes invoice_bytes
    ∧ get_header "Content-Type" (headers resp) = Some "application/pdf"
    ∧ get_header "Content-Length" (headers resp) = Some "10".
Proof.
  destruct (X22_download_contract (sample_env "shop-a" 1700000001000 "x3")
              "x1" sample_world) as (H & _).
  destruct (H sample_file_a invoice_bytes) as [Hok _]; try reflexivity.
  destruct Hok as (resp & Hr & _ & Hb & Ht & _ & Hl); [reflexivity|].
  exists resp. split; [exact Hr|]. split; [exact Hb|]. split; [exact Ht|exact Hl].
Defined.

(** X12. Upload-then-download round trip. After an upload that answers
    success, a download of the returned id by the same shop answers 200
    with exactly the uploaded bytes, the uploaded MIME type (or
    application/octet-stream when the upload had none), a disposition hint
    quoting the uploaded file name, and the byte count as length, provided
    the platform's [Response] takes these three header values. When it
    refuses one of them, the download of the file just uploaded throws a
    [TypeError] instead. *)
Theorem X12_upload_then_download e e' fd w file rec w' :
  intent_is fd "upload" = true →
  fd_get "file" fd = Some (FFile file) →
  action e fd w = (Ok (RSuccessFile rec), w') →
  session_shop e' = session_shop e →
  download_headers rec
  = [("Content-Type", or_default (up_type file) "application/octet-stream");
     ("Content-Disposition",
      "attachment; filename=" +:+ quote +:+ up_name file +:+ quote);
     ("Content-Length", pretty (N.of_nat (length (up_bytes file))))]
  ∧ (carried e' (download_headers rec) →
     ∃ resp, download_loader e' (File.id rec) w' = (Ok resp, w')
       ∧ status resp = 200
       ∧ body resp = BBytes (up_bytes file)
       ∧ headers resp = download_headers rec)
  ∧ (¬ carried e' (download_headers rec) →
     download_loader e' (File.id rec) w' = (Throw TypeError, w')).
Proof.
  intros Hi Hfile. destruct (action_upload e fd w Hi) as [-> _].
  rewrite (upload_intent_eq e fd _ file Hfile).
  destruct (_ || _); [done|]. cbv zeta.
  destruct (bool_decide (is_Some _)); [done|].
  destruct (fk_ok _ _); [|done].
  intros [= <- <-] Hshop. split; [done|].
  rewrite download_loader_eq.
  cbn [db disk files blobs dirs File.id].
  rewrite lookup_insert_eq.
  cbn [File.shop File.path].
  rewrite decide_True by done.
  rewrite lookup_insert_eq.
  rewrite (bool_decide_true (is_Some _)) by eauto. rewrite orb_true_r.
  unfold carried. split.
  - intros ->. eexists. split; [reflexivity|]. done.
  - intros Hn. by destruct (existsb _ _).
Qed.

Lemma X12_upload_then_download_witness :
  ∃ resp,
    download_loader (sample_env "shop-a" 1700000009000 "x9") "x3"
      (action (sample_env "shop-a" 1700000001000 "x3")
         [("intent", FText "upload");
          ("file", FFile (mkUpload "b.bin" "" [Byte.x61; Byte.x62]))]
         sample_world).2
    = (Ok resp,
       (action (sample_env "shop-a" 1700000001000 "x3")
          [("intent", FText "upload");
           ("file", FFile (mkUpload "b.bin" "" [Byte.x61; Byte.x62]))]
          sample_world).2)
    ∧ body resp = BBytes [Byte.x61; Byte.x62]
    ∧ get_header "Content-Type" (headers resp) = Some "application/octet-stream"
    ∧ get_header "Content-Length" (headers resp) = Some "2".
Proof.
  destruct (X12_upload_then_download
              (sample_env "shop-a" 1700000001000 "x3")
              (sample_env "shop-a" 1700000009000 "x9")
              [("intent", FText "upload");
               ("file", FFile (mkUpload "b.bin" "" [Byte.x61; Byte.x62]))]
              sample_world (mkUpload "b.bin" "" [Byte.x61; Byte.x62])
              _ _ eq_refl eq_refl eq_refl eq_refl)
    as (Hh & Hok & _).
  destruct Hok as (resp & Hr & _ & Hb & Hhs); [reflexivity|].
  exists resp. split; [exact Hr|]. split; [exact Hb|].
  rewrite Hhs, Hh. split; reflexivity.
Defined.

(** X13. Orphaned blob. An upload that ends with a store error has already
    written its payload: the File table is unchanged, and the bytes are on
    disk at the upload path with no row created for them. This is what
    happens when the form names a folder that does not exist (foreign-key
    error P2003) on a disk that accepts the write. *)
Theorem X13_upload_store_error_leaves_blob e fd w file :
  intent_is fd "upload" = true →
  fd_get "file" fd = Some (FFile file) →
  (∀ code w', action e fd w = (Throw (StoreError code), w') →
     db w' = db w
     ∧ blobs (disk w') !! upload_path e file = Some (up_bytes file))
  ∧ (∀ fid, folderId_field fd = Some fid → folders (db w) !! fid = None →
       files (db w) !! fresh_id e = None →
       write_fails e (upload_path e file) = false →
       upload_path e file ∉ dirs (disk (ensured e w)) →
       (action e fd w).1 = Throw (StoreError "P2003")).
Proof.
  intros Hi Hfile. destruct (action_upload e fd w Hi) as [-> _].
  rewrite (upload_intent_eq e fd _ file Hfile), ensured_idem, !ensured_db,
    !ensured_blobs.
  split.
  - intros code w'. destruct (_ || _); [done|]. cbv zeta.
    destruct (bool_decide (is_Some _)).
    + intros [= _ <-]. simpl. split; [done|apply lookup_insert_eq].
    + destruct (fk_ok _ _); [done|].
      intros [= _ <-]. simpl. split; [done|apply lookup_insert_eq].
  - intros fid Hfid Hnone Hfresh Hw Hd.
    rewrite Hw, (bool_decide_false _ Hd). cbv zeta. simpl.
    rewrite Hfresh. rewrite bool_decide_false by (by intros [? ?]).
    rewrite Hfid. simpl. rewrite Hnone.
    rewrite bool_decide_false by (by intros [? ?]). done.
Qed.

Lemma X13_upload_store_error_leaves_blob_witness :
  (action (sample_env "shop-a" 1700000001000 "x3")
     [("intent", FText "upload"); ("folderId", FText "nowhere");
      ("file", FFile (mkUpload "b.bin" "" [Byte.x61; Byte.x62]))]
     sample_world).1 = Throw (StoreError "P2003").
Proof.
  destruct (X13_upload_store_error_leaves_blob
              (sample_env "shop-a" 1700000001000 "x3")
              [("intent", FText "upload"); ("folderId", FText "nowhere");
               ("file", FFile (mkUpload "b.bin" "" [Byte.x61; Byte.x62]))]
              sample_world (mkUpload "b.bin" "" [Byte.x61; Byte.x62])
              eq_refl eq_refl) as [_ H].
  apply (H "nowhere"); try reflexivity.
  vm_compute. intros Hin. discriminate Hin.
Defined.

(** ** Bulk operations *)

Lemma only_removed_refl w : only_removed w w.
Proof. by split. Qed.

Lemma only_removed_trans w1 w2 w3 :
  only_removed w1 w2 → only_removed w2 w3 → only_removed w1 w3.
Proof. intros [H1 H2] [H3 H4]. split; by etrans. Qed.

Lemma file_delete_only_removed id : respects only_removed (prisma_file_delete id).
Proof.
  intros w r w'. rewrite file_delete_run.
  destruct (files (db w) !! id); intros [= _ <-]; [|apply only_removed_refl].
  split; [apply delete_subseteq|done].
Qed.

Lemma folder_delete_only_removed id :
  respects only_removed (prisma_folder_delete id).
Proof.
  intros w r w'. unfold prisma_folder_delete, get_db, put_db, throw, bind.
  simpl. destruct (folders (db w) !! id); intros [= _ <-];
    [|apply only_removed_refl].
  split; [apply map_filter_subseteq|apply delete_subseteq].
Qed.

(** X14. Bulk Delete always reports success. For any list of strings
    (identifiers that name existing rows, absent rows, rows of other shops,
    text without a known prefix, repetitions) on any disk, the request
    answers [{ success: true }], and all it has done to the metadata is
    remove rows: both tables are sub-tables of what they were, so no row
    was added or altered. *)
Theorem X14_bulk_delete_always_succeeds e fd w v ids :
  intent_is fd "bulk-delete" = true →
  fd_get "itemIds" fd = Some v → truthy (Some v) = true →
  JSON_parse e (toString v) = JArray (IStr <$> ids) →
  ∃ w', action e fd w = (Ok RSuccess, w')
    ∧ files (db w') ⊆ files (db w)
    ∧ folders (db w') ⊆ folders (db w).
Proof.
  intros Hi Hv Ht Hp.
  assert (∃ w', bulk_delete_intent e fd (ensured e w) = (Ok RSuccess, w'))
    as [w' Hrun].
  { unfold bulk_delete_intent. rewrite Hv, Ht, Hp.
    cbn [negb]. cbv beta iota. rewrite all_strings_fmap. unfold bind at 1.
    destruct (for_of_total only_deleted (λ _, True) (bulk_delete_file e)
                (List.filter (startsWith "file-") ids) "" (ensured e w))
      with (w := ensured e w) as (w1 & -> & _);
      try apply only_deleted_refl; try apply only_deleted_trans; try done.
    { intros x w0. apply bulk_delete_file_run. }
    unfold bind.
    destruct (for_of_total only_deleted (λ _, True) (bulk_delete_folder e)
                (List.filter (startsWith "folder-") ids) "" w1)
      with (w := w1) as (w2 & -> & _);
      try apply only_deleted_refl; try apply only_deleted_trans; try done.
    { intros x w0. apply bulk_delete_folder_run. }
    by exists w2. }
  exists w'. rewrite (action_bulk_delete e fd w Hi). split; [done|].
  pose proof (bulk_delete_intent_respects e only_removed only_removed_refl
                only_removed_trans (λ w d, only_removed_refl w)
                file_delete_only_removed folder_delete_only_removed fd
                _ _ _ Hrun) as [H1 H2].
  by rewrite ensured_db in H1, H2.
Qed.

Lemma X14_bulk_delete_always_succeeds_witness :
  ∃ w', action (stuck_env "shop-b" 1700000001000 "x3")
          [("intent", FText "bulk-delete");
           ("itemIds", FText (stringify_ids ["file-x1"; "folder-F1"; "gone"]))]
          sample_world = (Ok RSuccess, w')
    ∧ files (db w') ⊆ files (db sample_world)
    ∧ folders (db w') ⊆ folders (db sample_world).
Proof.
  exact (X14_bulk_delete_always_succeeds
           (stuck_env "shop-b" 1700000001000 "x3")
           [("intent", FText "bulk-delete");
            ("itemIds", FText (stringify_ids ["file-x1"; "folder-F1"; "gone"]))]
           sample_world
           (FText (stringify_ids ["file-x1"; "folder-F1"; "gone"]))
           ["file-x1"; "folder-F1"; "gone"] eq_refl eq_refl eq_refl eq_refl).
Defined.

Lemma for_of_app {A} (f : A → M unit) l1 l2 w :
  for_of (l1 ++ l2) f w =
  match for_of l1 f w with
  | (Ok _, w1) => for_of l2 f w1
  | (Throw err, w1) => (Throw err, w1)
  end.
Proof.
  revert w. induction l1 as [|x l1 IH]; intros w; simpl; [done|].
  unfold bind. destruct (f x w) as [[[]|err] w1]; [apply IH|done].
Qed.

Lemma for_of_fmap {A B} (g : A → B) (f : B → M unit) l w :
  for_of (g <$> l) f w = for_of l (λ x, f (g x)) w.
Proof.
  revert w. induction l as [|x l IH]; intros w; simpl; [done|].
  unfold bind. destruct (f (g x) w) as [[[]|err] w1]; [apply IH|done].
Qed.

Lemma set_folder_idem now target f :
  set_folder now target (set_folder now target f) = set_folder now target f.
Proof. reflexivity. Qed.

(** The bulk-move loop over identifiers that all name rows: every named row
    is re-filed, nothing else changes. *)
Lemma bulk_move_loop e target ids w :
  fk_ok (db w) target = true →
  (∀ id, id ∈ ids → is_Some (files (db w) !! replace "file-" "" id)) →
  ∃ w', for_of ids (bulk_move_file e target) w = (Ok tt, w')
    ∧ folders (db w') = folders (db w)
    ∧ disk w' = disk w
    ∧ ∀ k, files (db w') !! k =
           if decide (k ∈ replace "file-" "" <$> ids)
           then set_folder (Date_now e) target <$> files (db w) !! k
           else files (db w) !! k.
Proof.
  revert w. induction ids as [|id ids IH]; intros w Hfk Hall.
  - exists w. split; [done|]. split; [done|]. split; [done|].
    intros k. rewrite decide_False; [done|]. apply not_elem_of_nil.
  - destruct (Hall id) as [f0 Hf0]; [left|].
    cbn [for_of]. unfold bind, bulk_move_file at 1.
    rewrite file_update_run, Hf0, Hfk.
    match goal with |- context [for_of ids _ ?w1] =>
      destruct (IH w1) as (w' & -> & Hfo & Hdisk & Hrows) end.
    { done. }
    { intros id' Hid'. simpl.
      destruct (decide (replace "file-" "" id = replace "file-" "" id')) as [<-|Hne].
      - rewrite lookup_insert_eq. eauto.
      - rewrite lookup_insert_ne by done. apply Hall. by right. }
    exists w'. split; [done|]. split; [done|]. split; [done|].
    intros k. rewrite Hrows. cbn [db files]. rewrite fmap_cons.
    destruct (decide (k = replace "file-" "" id)) as [->|Hne].
    + rewrite lookup_insert_eq, Hf0. simpl.
      rewrite (decide_True (P := _ ∈ _ :: _)) by left.
      by destruct (decide _).
    + rewrite lookup_insert_ne by done.
      destruct (decide (k ∈ replace "file-" "" <$> ids)).
      * rewrite decide_True by (by right). done.
      * rewrite decide_False; [done|].
        intros [?|?]%elem_of_cons; done.
Qed.

(** X15. Bulk Move moves exactly the listed rows. When the target is the
    root or names an existing folder and every listed identifier (minus a
    "file-" prefix) names a File row, the request answers success; every
    listed row now has the target as folder reference and the current time
    as last-updated time, and every other File row, every Folder row and
    the disk are unchanged. An empty list is a successful no-op. *)
Theorem X15_bulk_move_moves_listed e fd w v ids :
  intent_is fd "bulk-move" = true →
  fd_get "fileIds" fd = Some v → truthy (Some v) = true →
  JSON_parse e (toString v) = JArray (IStr <$> ids) →
  fk_ok (db w) (folderId_field fd) = true →
  (∀ id, id ∈ ids → is_Some (files (db w) !! replace "file-" "" id)) →
  ∃ w', action e fd w = (Ok RSuccess, w')
    ∧ folders (db w') = folders (db w)
    ∧ blobs (disk w') = blobs (disk w)
    ∧ ∀ k, files (db w') !! k =
           if decide (k ∈ replace "file-" "" <$> ids)
           then set_folder (Date_now e) (folderId_field fd) <$> files (db w) !! k
           else files (db w) !! k.
Proof.
  intros Hi Hv Ht Hp Hfk Hall. rewrite (action_bulk_move e fd w Hi).
  unfold bulk_move_intent. rewrite Hv, Ht, Hp. cbn [negb]. cbv beta iota.
  unfold bind. rewrite for_of_fmap.
  destruct (bulk_move_loop e (folderId_field fd) ids (ensured e w))
    as (w' & Hrun & Hfo & Hdisk & Hrows).
  { by rewrite ensured_db. }
  { intros id Hid. rewrite ensured_db. by apply Hall. }
  change (λ x : string, bulk_move_file e (folderId_field fd) x)
    with (bulk_move_file e (folderId_field fd)).
  rewrite Hrun. exists w'. split; [done|].
  rewrite Hfo, Hdisk, ensured_db, ensured_blobs. split; [done|]. split; [done|].
  intros k. rewrite Hrows, ensured_db. done.
Qed.

Lemma X15_bulk_move_moves_listed_witness :
  ∃ w', action (sample_env "shop-a" 1700000001000 "x3")
          [("intent", FText "bulk-move");
           ("fileIds", FText (stringify_ids ["file-x1"; "file-x1"]))]
          sample_world = (Ok RSuccess, w')
    ∧ files (db w') !! "x1" = Some (set_folder 1700000001000 None sample_file_a)
    ∧ files (db w') !! "x2" = Some sample_file_b.
Proof.
  destruct (X15_bulk_move_moves_listed
              (sample_env "shop-a" 1700000001000 "x3")
              [("intent", FText "bulk-move");
               ("fileIds", FText (stringify_ids ["file-x1"; "file-x1"]))]
              sample_world (FText (stringify_ids ["file-x1"; "file-x1"]))
              ["file-x1"; "file-x1"] eq_refl eq_refl eq_refl eq_refl eq_refl)
    as (w' & Ha & _ & _ & Hrows).
  { intros id Hid. apply elem_of_cons in Hid as [->|Hid];
      [|apply elem_of_cons in Hid as [->|Hid]; [|by apply elem_of_nil in Hid]];
      by exists sample_file_a. }
  exists w'. split; [exact Ha|]. split; rewrite Hrows; reflexivity.
Defined.

(** X16. Bulk Move is not atomic. If the list reaches an identifier that
    names no File row after identifiers that do, the request throws the
    store's "record not found" error (P2025) at that identifier: the rows
    listed before it stay moved, and nothing listed after it is touched. *)
Theorem X16_bulk_move_stops_at_missing_row e fd w v moved bad rest :
  intent_is fd "bulk-move" = true →
  fd_get "fileIds" fd = Some v → truthy (Some v) = true →
  JSON_parse e (toString v) = JArray (IStr <$> (moved ++ bad :: rest)%list) →
  fk_ok (db w) (folderId_field fd) = true →
  (∀ id, id ∈ moved → is_Some (files (db w) !! replace "file-" "" id)) →
  files (db w) !! replace "file-" "" bad = None →
  ∃ w', action e fd w = (Throw (StoreError "P2025"), w')
    ∧ folders (db w') = folders (db w)
    ∧ ∀ k, files (db w') !! k =
           if decide (k ∈ replace "file-" "" <$> moved)
           then set_folder (Date_now e) (folderId_field fd) <$> files (db w) !! k
           else files (db w) !! k.
Proof.
  intros Hi Hv Ht Hp Hfk Hall Hbad. rewrite (action_bulk_move e fd w Hi).
  unfold bulk_move_intent. rewrite Hv, Ht, Hp. cbn [negb]. cbv beta iota.
  unfold bind. rewrite for_of_fmap.
  change (λ x : string, bulk_move_file e (folderId_field fd) x)
    with (bulk_move_file e (folderId_field fd)).
  rewrite for_of_app.
  destruct (bulk_move_loop e (folderId_field fd) moved (ensured e w))
    as (w' & Hrun & Hfo & Hdisk & Hrows).
  { by rewrite ensured_db. }
  { intros id Hid. rewrite ensured_db. by apply Hall. }
  rewrite Hrun. simpl. unfold bind, bulk_move_file at 1.
  rewrite file_update_run.
  assert (files (db w') !! replace "file-" "" bad = None) as ->.
  { rewrite Hrows, ensured_db, Hbad. by destruct (decide _). }
  exists w'. split; [done|]. rewrite Hfo, ensured_db. split; [done|].
  intros k. rewrite Hrows, ensured_db. done.
Qed.

Lemma X16_bulk_move_stops_at_missing_row_witness :
  ∃ w', action (sample_env "shop-a" 1700000001000 "x3")
          [("intent", FText "bulk-move");
           ("fileIds", FText (stringify_ids ["file-x1"; "file-gone"; "file-x2"]))]
          sample_world = (Throw (StoreError "P2025"), w')
    ∧ files (db w') !! "x1" = Some (set_folder 1700000001000 None sample_file_a)
    ∧ files (db w') !! "x2" = Some sample_file_b.
Proof.
  destruct (X16_bulk_move_stops_at_missing_row
              (sample_env "shop-a" 1700000001000 "x3")
              [("intent", FText "bulk-move");
               ("fileIds", FText (stringify_ids ["file-x1"; "file-gone"; "file-x2"]))]
              sample_world
              (FText (stringify_ids ["file-x1"; "file-gone"; "file-x2"]))
              ["file-x1"] "file-gone" ["file-x2"]
              eq_refl eq_refl eq_refl eq_refl eq_refl)
    as (w' & Ha & _ & Hrows).
  { intros id Hid. apply elem_of_cons in Hid as [->|Hid];
      [|by apply elem_of_nil in Hid]. by exists sample_file_a. }
  { reflexivity. }
  exists w'. split; [exact Ha|]. split; rewrite Hrows; reflexivity.
Defined.

(** ** The first revision *)

(** X17. The first revision of the action is kept by the later ones. On the
    two intents it knows, it does what the current action does: always for
    delete, and for upload whenever the form names no folder. Any other
    intent it answers with "Invalid intent". *)
Theorem X17_first_revision_agrees e fd w :
  (intent_is fd "delete" = true → action_first e fd w = action e fd w)
  ∧ (intent_is fd "upload" = true → folderId_field fd = None →
     action_first e fd w = action e fd w)
  ∧ (intent_is fd "upload" = false → intent_is fd "delete" = false →
     action_first e fd w = (Ok (RError "Invalid intent"), ensured e w)).
Proof.
  unfold action_first, bind. rewrite ensureUploadDir_run. cbv beta iota.
  split; [|split].
  - intros Hi. destruct (action_delete e fd w Hi) as [-> _].
    by pick_intent Hi.
  - intros Hi Hroot. destruct (action_upload e fd w Hi) as [-> _].
    rewrite Hi. unfold upload_first, upload_intent.
    destruct (fd_get "file" fd) as [[s|file]|]; try done.
    rewrite Hroot. unfold bind. rewrite saveFile_eq, ensured_idem.
    fold (upload_path e file).
    by destruct (writeFile e (upload_path e file) (up_bytes file) (ensured e w))
      as [[[]|err] w1].
  - by intros -> ->.
Qed.

Lemma X17_first_revision_agrees_witness :
  action_first (stuck_env "shop-a" 1700000001000 "x3")
    [("intent", FText "delete"); ("fileId", FText "x1")] sample_world
  = action (stuck_env "shop-a" 1700000001000 "x3")
      [("intent", FText "delete"); ("fileId", FText "x1")] sample_world.
Proof.
  destruct (X17_first_revision_agrees (stuck_env "shop-a" 1700000001000 "x3")
              [("intent", FText "delete"); ("fileId", FText "x1")] sample_world)
    as [H _].
  apply H. reflexivity.
Defined.

(** ** Shortened file names *)








Lemma lastIndexOf_nonneg c s : (-1 ≤ lastIndexOf c s)%Z.
Proof.
  induction s as [|a s IH]; simpl; [done|].
  repeat case_bool_decide; lia.
Qed.
















(** ** The move dialog, from the page to the store *)

Lemma folderId_field_app (fd : FormData) target :
  fd_get "folderId" fd = None →
  folderId_field
    (fd ++ match or_null target with
           | Some id => [("folderId", FText id)]
           | None => []
           end)%list
  = or_null target.
Proof.
  intros Hnone. unfold folderId_field.
  assert (∀ l, fd_get "folderId" (fd ++ l)%list = fd_get "folderId" l) as ->.
  { intros l. induction fd as [|[k v] fd IH]; [done|]. simpl in *.
    destruct (decide (k = "folderId")); [done|]. by apply IH. }
  destruct target as [s|]; [|done]. simpl.
  destruct (truthy_str s) eqn:Hs; [|done]. simpl. by rewrite Hs.
Qed.

(** X20. Moving one file through the dialog. Opening the move dialog on a
    file ([handleMoveFile]) and choosing a target ([handleMoveToFolder])
    submits a move-file form for exactly that file id, whatever the id
    looks like. For a file of the requesting shop and a target that is the
    root or an existing folder, the action answers success and the only
    change is that row's folder reference and last-updated time. *)
Theorem X20_move_dialog_moves_the_file e stringify w k f target :
  k ≠ "" →
  files (db w) !! k = Some f → File.shop f = session_shop e →
  fk_ok (db w) (or_null target) = true →
  fd_get "fileId" (handleMoveToFolder stringify (handleMoveFile k) target)
    = Some (FText k)
  ∧ ∃ w', action e (handleMoveToFolder stringify (handleMoveFile k) target) w
          = (Ok RSuccess, w')
      ∧ files (db w')
        = <[k := set_folder (Date_now e) (or_null target) f]> (files (db w))
      ∧ folders (db w') = folders (db w)
      ∧ blobs (disk w') = blobs (disk w).
Proof.
  intros Hk Hf Hs Hfk.
  unfold handleMoveFile, handleMoveToFolder. rewrite replace_file_prefix.
  split; [done|].
  match goal with |- context [action e ?fd w] => set (form := fd) end.
  assert (intent_is form "move-file" = true) as Hi by done.
  assert (fd_get "fileId" form = Some (FText k)) as Hid by done.
  assert (folderId_field form = or_null target) as Hfo.
  { subst form. by apply folderId_field_app. }
  destruct (action_move_file e form w Hi) as [-> _].
  rewrite (move_file_intent_eq e form _ k Hid), Hfo, ensured_db, Hf, Hfk.
  assert (truthy_str k = true) as -> by (by destruct k).
  rewrite decide_True by done.
  eexists. split; [reflexivity|]. simpl. by rewrite ensured_blobs.
Qed.

Lemma X20_move_dialog_moves_the_file_witness :
  ∃ w', action (sample_env "shop-b" 1700000001000 "x3")
          (handleMoveToFolder stringify_ids (handleMoveFile "x2") None)
          sample_world = (Ok RSuccess, w')
    ∧ files (db w')
      = <["x2" := set_folder 1700000001000 None sample_file_b]>
          (files (db sample_world)).
Proof.
  destruct (X20_move_dialog_moves_the_file
              (sample_env "shop-b" 1700000001000 "x3") stringify_ids
              sample_world "x2" sample_file_b None)
    as (_ & w' & Ha & Hf & _); try reflexivity; [discriminate|].
  exists w'. split; [exact Ha | exact Hf].
Defined.

(** X21. Moving a selection through the dialog. [handleBulkMove] keeps the
    selected items that are files and drops the selected folders; with
    none left it opens nothing. For two or more file items,
    [handleMoveToFolder] submits a bulk-move form; when the server reads
    the list back as it was written, every listed id names a File row and
    the target is the root or an existing folder, the action answers
    success, every selected file is re-filed under the target and no other
    row changes. *)
Theorem X21_move_dialog_moves_the_selection e stringify w selected items target :
  handleBulkMove selected = Some items →
  length items ≠ 1%nat →
  stringify items ≠ "" →
  JSON_parse e (stringify items) = JArray (IStr <$> items) →
  fk_ok (db w) (or_null target) = true →
  (∀ item, item ∈ selected → startsWith "file-" item = true →
     is_Some (files (db w) !! replace "file-" "" item)) →
  items = List.filter (startsWith "file-") selected
  ∧ ∃ w', action e (handleMoveToFolder stringify items target) w = (Ok RSuccess, w')
      ∧ folders (db w') = folders (db w)
      ∧ ∀ k, files (db w') !! k =
             if decide (k ∈ replace "file-" "" <$> items)
             then set_folder (Date_now e) (or_null target) <$> files (db w) !! k
             else files (db w) !! k.
Proof.
  intros Hsel Hlen Hne Hparse Hfk Hall.
  assert (items = List.filter (startsWith "file-") selected) as Hitems.
  { unfold handleBulkMove in Hsel.
    destruct (List.filter (startsWith "file-") selected); [done|].
    by injection Hsel. }
  split; [done|].
  assert (handleMoveToFolder stringify items target
          = ([("intent", FText "bulk-move"); ("fileIds", FText (stringify items))]
             ++ match or_null target with
                | Some id => [("folderId", FText id)]
                | None => []
                end)%list) as ->.
  { unfold handleMoveToFolder. destruct items as [|a [|b l]]; done. }
  match goal with |- context [action e ?fd w] => set (form := fd) end.
  assert (intent_is form "bulk-move" = true) as Hi by done.
  assert (folderId_field form = or_null target) as Hfo.
  { subst form. by apply folderId_field_app. }
  rewrite (action_bulk_move e form w Hi).
  assert (fd_get "fileIds" form = Some (FText (stringify items))) as Hv by done.
  assert (truthy (Some (FText (stringify items))) = true) as Ht
    by (simpl; by destruct (stringify items)).
  assert (JSON_parse e (toString (FText (stringify items)))
          = JArray (IStr <$> items)) as Hp by done.
  unfold bulk_move_intent. rewrite Hv, Ht, Hp, Hfo. cbn [negb]. cbv beta iota.
  unfold bind. rewrite for_of_fmap.
  change (λ x : string, bulk_move_file e (or_null target) x)
    with (bulk_move_file e (or_null target)).
  destruct (bulk_move_loop e (or_null target) items (ensured e w))
    as (w' & Hrun & Hfolders & _ & Hrows).
  { by rewrite ensured_db. }
  { intros id Hid. rewrite ensured_db. rewrite Hitems in Hid.
    apply elem_of_List_filter in Hid as [Hin Hpre]. by apply Hall. }
  rewrite Hrun. exists w'. split; [done|].
  rewrite Hfolders, ensured_db. split; [done|].
  intros k. by rewrite Hrows, ensured_db.
Qed.

Lemma X21_move_dialog_moves_the_selection_witness :
  ∃ w', action (sample_env "shop-a" 1700000001000 "x3")
          (handleMoveToFolder stringify_ids ["file-x1"; "file-x2"] None)
          sample_world = (Ok RSuccess, w')
    ∧ folders (db w') = folders (db sample_world).
Proof.
  destruct (X21_move_dialog_moves_the_selection
              (sample_env "shop-a" 1700000001000 "x3") stringify_ids
              sample_world ["file-x1"; "folder-F1"; "file-x2"]
              ["file-x1"; "file-x2"] None)
    as (_ & w' & Ha & Hf & _).
  - reflexivity.
  - simpl. lia.
  - vm_compute. discriminate.
  - vm_compute. reflexivity.
  - reflexivity.
  - intros item Hin Hpre.
    apply elem_of_cons in Hin as [->|Hin]; [by eexists|].
    apply elem_of_cons in Hin as [->|Hin]; [discriminate Hpre|].
    apply elem_of_cons in Hin as [->|Hin]; [by eexists|].
    by apply elem_of_nil in Hin.
  - exists w'. split; [exact Ha | exact Hf].
Defined.

(** ** Empty folder identifier: the three handlers *)

(** C10. An empty "folderId" is an absent "folderId". For upload, move-file
    and bulk-move, a form whose folder identifier is the empty string is
    handled exactly as the same form without one: same outcome, same
    world. The folder reference the handlers store is then null, never the
    empty string. An upload that the disk and the store accept succeeds,
    and the row it creates is at the root, as is the row of every upload
    that answers success. A move-file of a row of the requesting shop
    succeeds and leaves the row at the root. A bulk-move whose listed
    identifiers all name rows succeeds and leaves every listed row at the
    root; however a bulk-move ends, each row it changed is at the root. *)
Theorem C10_empty_folder_id_is_root e fd fd' w :
  blank_folderId fd fd' →
  intent_is fd "upload" = true ∨ intent_is fd "move-file" = true
    ∨ intent_is fd "bulk-move" = true →
  action e fd w = action e fd' w
  ∧ (intent_is fd "upload" = true →
     (∀ rec w', action e fd w = (Ok (RSuccessFile rec), w') →
        files (db w') !! File.id rec = Some rec ∧ File.folderId rec = None)
     ∧ (∀ file, fd_get "file" fd = Some (FFile file) →
          write_fails e (upload_path e file) = false →
          upload_path e file ∉ dirs (disk (ensured e w)) →
          files (db w) !! fresh_id e = None →
          ∃ rec w', action e fd w = (Ok (RSuccessFile rec), w')
            ∧ files (db w') !! fresh_id e = Some rec
            ∧ File.folderId rec = None))
  ∧ (intent_is fd "move-file" = true →
     ∀ k f, fd_get "fileId" fd = Some (FText k) → k ≠ "" →
       files (db w) !! k = Some f → File.shop f = session_shop e →
       ∃ w' f', action e fd w = (Ok RSuccess, w')
         ∧ files (db w') !! k = Some f' ∧ File.folderId f' = None)
  ∧ (intent_is fd "bulk-move" = true →
     moved_to_root w (action e fd w).2
     ∧ ∀ v ids, fd_get "fileIds" fd = Some v → truthy (Some v) = true →
         JSON_parse e (toString v) = JArray (IStr <$> ids) →
         (∀ id, id ∈ ids → is_Some (files (db w) !! replace "file-" "" id)) →
         ∃ w', action e fd w = (Ok RSuccess, w')
           ∧ ∀ id, id ∈ ids →
               ∃ f', files (db w') !! replace "file-" "" id = Some f'
                 ∧ File.folderId f' = None).
Proof.
  intros Hb Hi.
  destruct (blank_folderId_field fd fd' Hb) as [Hn Hn'].
  pose proof (λ s, blank_folderId_intent fd fd' s Hb) as Hsame.
  destruct Hb as (Hget & _ & _).
  split; [|split; [|split]].
  - destruct Hi as [Hi | [Hi | Hi]]; pose proof Hi as Hi'; rewrite Hsame in Hi'.
    + destruct (action_upload e fd w Hi) as [-> _].
      destruct (action_upload e fd' w Hi') as [-> _].
      unfold upload_intent. by rewrite Hn, Hn', Hget.
    + destruct (action_move_file e fd w Hi) as [-> _].
      destruct (action_move_file e fd' w Hi') as [-> _].
      unfold move_file_intent. by rewrite Hn, Hn', Hget.
    + rewrite (action_bulk_move e fd w Hi), (action_bulk_move e fd' w Hi').
      unfold bulk_move_intent. by rewrite Hn, Hn', Hget.
  - intros Hu. destruct (action_upload e fd w Hu) as [-> _]. split.
    + intros rec w'.
      destruct (fd_get "file" fd) as [[s|file]|] eqn:Hfile;
        try (unfold upload_intent; rewrite Hfile; done).
      destruct (upload_intent_run e fd (ensured e w) file Hfile)
        as (r & w1 & -> & [(-> & _) | [((code & ->) & _) |
             (rec' & -> & Hf & _ & _ & Hid & _ & _ & Hfo & _)]]); try done.
      intros [= <- <-]. rewrite Hf, Hid, lookup_insert_eq. split; [done|].
      by rewrite Hfo, Hn.
    + intros file Hfile Hw Hd Hfresh.
      rewrite (upload_intent_eq e fd _ file Hfile), ensured_idem, !ensured_db.
      rewrite Hw, (bool_decide_false _ Hd). cbv zeta. cbn [orb].
      rewrite Hfresh, bool_decide_false by (by intros [? ?]).
      rewrite Hn. cbn [fk_ok].
      eexists _, _. split; [reflexivity|].
      cbn [db files File.folderId]. by rewrite lookup_insert_eq.
  - intros Hm k f Hk Hne Hf Hs. destruct (action_move_file e fd w Hm) as [-> _].
    rewrite (move_file_intent_eq e fd _ k Hk), Hn, ensured_db, Hf.
    assert (truthy_str k = true) as -> by (by destruct k).
    rewrite decide_True by done. cbn [fk_ok].
    eexists _, _. split; [reflexivity|].
    cbn [db files]. by rewrite lookup_insert_eq.
  - intros Hbm. rewrite (action_bulk_move e fd w Hbm). split.
    + assert (moved_to_root (ensured e w) (bulk_move_intent e fd (ensured e w)).2)
        as Hroot.
      { unfold bulk_move_intent. rewrite Hn.
        destruct (fd_get "fileIds" fd) as [v|]; [|apply moved_to_root_refl].
        destruct (negb _); [apply moved_to_root_refl|].
        destruct (JSON_parse e (toString v)) as [l|s| |];
          try apply moved_to_root_refl.
        + unfold bind.
          match goal with |- context [for_of l ?f (ensured e w)] =>
            destruct (for_of l f (ensured e w)) as [r w1] eqn:Hl;
            assert (moved_to_root (ensured e w) w1) as Hw1
          end.
          { revert Hl. apply for_of_respects;
              [apply moved_to_root_refl | apply moved_to_root_trans |].
            intros [id|] w2 r2 w3 _.
            - apply bulk_move_file_to_root.
            - intros [= _ <-]. apply moved_to_root_refl. }
          by destruct r as [[]|].
        + unfold bind.
          destruct (for_of (chars s) (bulk_move_file e None) (ensured e w))
            as [r w1] eqn:Hl.
          assert (moved_to_root (ensured e w) w1) as Hw1.
          { revert Hl. apply for_of_respects;
              [apply moved_to_root_refl | apply moved_to_root_trans |].
            intros id w2 r2 w3 _. apply bulk_move_file_to_root. }
          by destruct r as [[]|]. }
      intros k f' Hk. destruct (Hroot k f' Hk) as [H|H]; [left|by right].
      by rewrite ensured_db in H.
    + intros v ids Hv Ht Hp Hall.
      unfold bulk_move_intent. rewrite Hv, Ht, Hp, Hn. cbn [negb]. cbv beta iota.
      unfold bind. rewrite for_of_fmap.
      change (λ x : string, bulk_move_file e None x) with (bulk_move_file e None).
      destruct (bulk_move_loop e None ids (ensured e w))
        as (w' & Hrun & _ & _ & Hrows).
      { done. }
      { intros id Hid. rewrite ensured_db. by apply Hall. }
      rewrite Hrun. exists w'. split; [done|].
      intros id Hid. rewrite Hrows, ensured_db.
      rewrite decide_True by (apply list_elem_of_fmap; eauto).
      destruct (Hall id Hid) as [f Hf]. rewrite Hf. eexists. by split.
Qed.

Lemma C10_empty_folder_id_is_root_witness :
  File.folderId sample_file_a = Some "F1"
  ∧ ∃ w' f',
      action (sample_env "shop-a" 1700000001000 "x3")
        [("intent", FText "bulk-move");
         ("fileIds", FText (stringify_ids ["file-x1"]));
         ("folderId", FText "")]
        sample_world = (Ok RSuccess, w')
      ∧ files (db w') !! "x1" = Some f'
      ∧ File.folderId f' = None.
Proof.
  split; [reflexivity|].
  destruct (C10_empty_folder_id_is_root (sample_env "shop-a" 1700000001000 "x3")
    [("intent", FText "bulk-move");
     ("fileIds", FText (stringify_ids ["file-x1"]));
     ("folderId", FText "")]
    [("intent", FText "bulk-move");
     ("fileIds", FText (stringify_ids ["file-x1"]))]
    sample_world) as (_ & _ & _ & Hbulk).
  - split; [|split; reflexivity].
    intros k Hk. simpl. repeat case_decide; congruence.
  - right; right; reflexivity.
  - destruct (Hbulk eq_refl) as [_ Hmoved].
    destruct (Hmoved (FText (stringify_ids ["file-x1"])) ["file-x1"])
      as (w' & Ha & Hrows); try reflexivity.
    { intros id Hid. apply elem_of_cons in Hid as [->|Hid];
        [by eexists | by apply elem_of_nil in Hid]. }
    destruct (Hrows "file-x1") as (f' & Hf & Hroot); [left|].
    exists w', f'. split; [exact Ha|]. split; [exact Hf | exact Hroot].
Defined.
